(** * HLK-LD2410 mmWave radar driver: a shallow embedding and its properties

    The development follows [drivers/mmwave/mmwave_ld2410.c] (frame parser,
    data-frame decoder, command channel, character-device operations),
    [tests/helpers/frame_builder.h] (the frame constructors),
    [apps/hactl/hactl_cmd.c] and [apps/hactl/ha_format.h] (the Home
    Assistant reporter and its formatting) and [read_sensor] of
    [apps/mmwave/mmwave_cmd.c].

    Machine integers are [Z] with the wrap-around of their C type written
    out ([u8], [u16], [u32]); the receive buffer is a [list Z] accessed by
    index; the outside world (UART, semaphores, clock, network) is an
    explicit value threaded through the operations. *)

From Stdlib Require Import ZArith List Lia Bool String Ascii.
From stdpp Require Import base list.
Import ListNotations.
Local Open Scope Z_scope.

(** ** Machine integers *)

Definition u8 (x : Z) : Z := x mod 256.
Definition u16 (x : Z) : Z := x mod 65536.
Definition u32 (x : Z) : Z := x mod 4294967296.

Definition is_byte (b : Z) : Prop := 0 <= b < 256.

(** ** Protocol constants ([mmwave_ld2410.h]) *)

Definition LD2410_DATA_HEADER : Z := 0xF4F3F2F1.
Definition LD2410_DATA_TAIL : Z := 0xF8F7F6F5.
Definition LD2410_CMD_HEADER : Z := 0xFDFCFBFA.
Definition LD2410_CMD_TAIL : Z := 0x04030201.

Definition LD2410_MAX_FRAME_LEN : Z := 64.

Definition LD2410_TARGET_NONE : Z := 0.
Definition LD2410_TARGET_MOTION : Z := 1.
Definition LD2410_TARGET_STATIC : Z := 2.
Definition LD2410_TARGET_BOTH : Z := 3.

Definition LD2410_CMD_ENABLE_CONFIG : Z := 0x00FF.
Definition LD2410_CMD_DISABLE_CONFIG : Z := 0x00FE.
Definition LD2410_CMD_SET_MAXGATE : Z := 0x0060.
Definition LD2410_CMD_SET_SENSITIVITY : Z := 0x0064.
Definition LD2410_CMD_FACTORY_RESET : Z := 0x00A2.
Definition LD2410_CMD_RESTART : Z := 0x00A3.
Definition LD2410_CMD_ENG_MODE_ON : Z := 0x0062.
Definition LD2410_CMD_ENG_MODE_OFF : Z := 0x0063.

Definition LD2410_MAX_GATES : Z := 9.

Definition MMWAVE_CMD_TIMEOUT_MS : Z := 1000.

(** errno values (negated at the places that return them) *)

Definition OK : Z := 0.
Definition ENOENT : Z := 2.
Definition EINTR : Z := 4.
Definition EIO : Z := 5.
Definition EAGAIN : Z := 11.
Definition ENODEV : Z := 19.
Definition EINVAL : Z := 22.
Definition ENOTTY : Z := 25.
Definition ETIMEDOUT : Z := 110.

(** ** Data model ([mmwave_ld2410.h]) *)

Record mmwave_data_s := Build_data {
  target_state : Z;
  motion_distance : Z;
  motion_energy : Z;
  static_distance : Z;
  static_energy : Z;
  detection_distance : Z;
  timestamp_ms : Z
}.

Record mmwave_eng_data_s := Build_eng {
  basic : mmwave_data_s;
  motion_gate_energy : list Z;
  static_gate_energy : list Z
}.

Record mmwave_sensitivity_s := Build_sens {
  gate : Z;
  motion_threshold : Z;
  static_threshold : Z
}.

Record mmwave_maxgate_s := Build_maxgate {
  max_motion_gate : Z;
  max_static_gate : Z;
  timeout_s : Z
}.

Inductive parse_state_t : Set :=
  | PARSE_HEADER
  | PARSE_LENGTH
  | PARSE_PAYLOAD
  | PARSE_TAIL.

(** The three semaphores of the device are kept as their counts. *)

Record mmwave_dev_s := Build_dev {
  data : mmwave_data_s;
  eng_data : mmwave_eng_data_s;
  eng_mode : bool;
  data_valid : bool;
  rxbuf : list Z;
  rxpos : Z;
  parse_state : parse_state_t;
  frame_len : Z;
  data_sem : Z;
  cmd_sem : Z;
  wait_sem : Z;
  frames_ok : Z;
  frames_err : Z;
  cmd_timeouts : Z
}.

(** Field updates, one per field the driver assigns. *)

Definition set_data (v : mmwave_data_s) (d : mmwave_dev_s) : mmwave_dev_s :=
  Build_dev v (eng_data d) (eng_mode d) (data_valid d) (rxbuf d) (rxpos d)
    (parse_state d) (frame_len d) (data_sem d) (cmd_sem d) (wait_sem d)
    (frames_ok d) (frames_err d) (cmd_timeouts d).

Definition set_eng_data (v : mmwave_eng_data_s) (d : mmwave_dev_s) : mmwave_dev_s :=
  Build_dev (data d) v (eng_mode d) (data_valid d) (rxbuf d) (rxpos d)
    (parse_state d) (frame_len d) (data_sem d) (cmd_sem d) (wait_sem d)
    (frames_ok d) (frames_err d) (cmd_timeouts d).

Definition set_eng_mode (v : bool) (d : mmwave_dev_s) : mmwave_dev_s :=
  Build_dev (data d) (eng_data d) v (data_valid d) (rxbuf d) (rxpos d)
    (parse_state d) (frame_len d) (data_sem d) (cmd_sem d) (wait_sem d)
    (frames_ok d) (frames_err d) (cmd_timeouts d).

Definition set_data_valid (v : bool) (d : mmwave_dev_s) : mmwave_dev_s :=
  Build_dev (data d) (eng_data d) (eng_mode d) v (rxbuf d) (rxpos d)
    (parse_state d) (frame_len d) (data_sem d) (cmd_sem d) (wait_sem d)
    (frames_ok d) (frames_err d) (cmd_timeouts d).

Definition set_rxbuf (v : list Z) (d : mmwave_dev_s) : mmwave_dev_s :=
  Build_dev (data d) (eng_data d) (eng_mode d) (data_valid d) v (rxpos d)
    (parse_state d) (frame_len d) (data_sem d) (cmd_sem d) (wait_sem d)
    (frames_ok d) (frames_err d) (cmd_timeouts d).

Definition set_rxpos (v : Z) (d : mmwave_dev_s) : mmwave_dev_s :=
  Build_dev (data d) (eng_data d) (eng_mode d) (data_valid d) (rxbuf d) v
    (parse_state d) (frame_len d) (data_sem d) (cmd_sem d) (wait_sem d)
    (frames_ok d) (frames_err d) (cmd_timeouts d).

Definition set_parse_state (v : parse_state_t) (d : mmwave_dev_s) : mmwave_dev_s :=
  Build_dev (data d) (eng_data d) (eng_mode d) (data_valid d) (rxbuf d) (rxpos d)
    v (frame_len d) (data_sem d) (cmd_sem d) (wait_sem d)
    (frames_ok d) (frames_err d) (cmd_timeouts d).

Definition set_frame_len (v : Z) (d : mmwave_dev_s) : mmwave_dev_s :=
  Build_dev (data d) (eng_data d) (eng_mode d) (data_valid d) (rxbuf d) (rxpos d)
    (parse_state d) v (data_sem d) (cmd_sem d) (wait_sem d)
    (frames_ok d) (frames_err d) (cmd_timeouts d).

Definition set_data_sem (v : Z) (d : mmwave_dev_s) : mmwave_dev_s :=
  Build_dev (data d) (eng_data d) (eng_mode d) (data_valid d) (rxbuf d) (rxpos d)
    (parse_state d) (frame_len d) v (cmd_sem d) (wait_sem d)
    (frames_ok d) (frames_err d) (cmd_timeouts d).

Definition set_cmd_sem (v : Z) (d : mmwave_dev_s) : mmwave_dev_s :=
  Build_dev (data d) (eng_data d) (eng_mode d) (data_valid d) (rxbuf d) (rxpos d)
    (parse_state d) (frame_len d) (data_sem d) v (wait_sem d)
    (frames_ok d) (frames_err d) (cmd_timeouts d).

Definition set_frames_ok (v : Z) (d : mmwave_dev_s) : mmwave_dev_s :=
  Build_dev (data d) (eng_data d) (eng_mode d) (data_valid d) (rxbuf d) (rxpos d)
    (parse_state d) (frame_len d) (data_sem d) (cmd_sem d) (wait_sem d)
    v (frames_err d) (cmd_timeouts d).

Definition set_frames_err (v : Z) (d : mmwave_dev_s) : mmwave_dev_s :=
  Build_dev (data d) (eng_data d) (eng_mode d) (data_valid d) (rxbuf d) (rxpos d)
    (parse_state d) (frame_len d) (data_sem d) (cmd_sem d) (wait_sem d)
    (frames_ok d) v (cmd_timeouts d).

(** The device as [mmwave_ld2410_register] leaves it: [kmm_zalloc] zeroes
    the structure, the parser starts in [PARSE_HEADER] at position 0, the
    data and command semaphores start at 1 and the wait semaphore at 0. *)

Definition data_zero : mmwave_data_s := Build_data 0 0 0 0 0 0 0.

Definition eng_zero : mmwave_eng_data_s :=
  Build_eng data_zero (replicate 9 0) (replicate 9 0).

Definition dev_init : mmwave_dev_s :=
  Build_dev data_zero eng_zero false false (replicate 64 0) 0
    PARSE_HEADER 0 1 1 0 0 0 0.

(** ** Receive buffer access *)

(** [rxbuf[i]] as an rvalue; an index outside the list reads 0. *)
Definition rd (buf : list Z) (i : Z) : Z := default 0 (buf !! Z.to_nat i).

(** [rxbuf[i] = v]; the list is left alone when [i] is outside it. *)
Definition wr (buf : list Z) (i v : Z) : list Z := <[Z.to_nat i := v]> buf.

(** The little-endian 32-bit word assembled from four buffer bytes:
    [(uint32_t)b[o] | (uint32_t)b[o+1] << 8 | ... << 16 | ... << 24]. *)
Definition le32 (buf : list Z) (o : Z) : Z :=
  Z.lor (Z.lor (Z.lor (rd buf o)
                      (Z.shiftl (rd buf (o + 1)) 8))
               (Z.shiftl (rd buf (o + 2)) 16))
        (Z.shiftl (rd buf (o + 3)) 24).

(** [memmove(rxbuf, rxbuf + 1, 3)]: three byte stores, lowest address first. *)
Definition memmove_window (buf : list Z) : list Z :=
  let b0 := wr buf 0 (rd buf 1) in
  let b1 := wr b0 1 (rd b0 2) in
  wr b1 2 (rd b1 3).

(** ** Frame parser ([mmwave_parse_byte]) *)

(** One call yields the updated device, the return value and the indices
    of the stores it made into [rxbuf], in program order. *)
Record parse_out := Build_parse_out {
  po_dev : mmwave_dev_s;
  po_ret : Z;
  po_stores : list Z
}.

Definition is_frame_header (header : Z) : bool :=
  (header =? LD2410_DATA_HEADER) || (header =? LD2410_CMD_HEADER).

(** [priv->rxbuf[priv->rxpos++] = byte] *)
Definition push_byte (priv : mmwave_dev_s) (byte : Z) : mmwave_dev_s :=
  set_rxpos (u8 (rxpos priv + 1)) (set_rxbuf (wr (rxbuf priv) (rxpos priv) byte) priv).

Definition parser_reset (priv : mmwave_dev_s) : mmwave_dev_s :=
  set_parse_state PARSE_HEADER (set_rxpos 0 priv).

Definition tail_ok (header tail : Z) : bool :=
  if (header =? LD2410_DATA_HEADER) && (tail =? LD2410_DATA_TAIL) then true
  else if (header =? LD2410_CMD_HEADER) && (tail =? LD2410_CMD_TAIL) then true
  else false.

Definition mmwave_parse_byte (priv : mmwave_dev_s) (byte : Z) : parse_out :=
  match parse_state priv with
  | PARSE_HEADER =>
      let p1 := if rxpos priv <? 4 then push_byte priv byte else priv in
      let s1 := if rxpos priv <? 4 then [rxpos priv] else [] in
      if rxpos p1 =? 4 then
        if is_frame_header (le32 (rxbuf p1) 0) then
          Build_parse_out (set_parse_state PARSE_LENGTH p1) 0 s1
        else
          Build_parse_out
            (set_rxpos 3 (set_rxbuf (memmove_window (rxbuf p1)) p1)) 0
            (s1 ++ [0; 1; 2])
      else Build_parse_out p1 0 s1
  | PARSE_LENGTH =>
      let p1 := push_byte priv byte in
      let s1 := [rxpos priv] in
      if rxpos p1 =? 6 then
        let p2 :=
          set_frame_len
            (u16 (Z.lor (rd (rxbuf p1) 4) (Z.shiftl (rd (rxbuf p1) 5) 8))) p1 in
        if frame_len p2 >? LD2410_MAX_FRAME_LEN - 10 then
          Build_parse_out
            (set_frames_err (u32 (frames_err p2 + 1)) (parser_reset p2)) 0 s1
        else Build_parse_out (set_parse_state PARSE_PAYLOAD p2) 0 s1
      else Build_parse_out p1 0 s1
  | PARSE_PAYLOAD =>
      let p1 := push_byte priv byte in
      let s1 := [rxpos priv] in
      if rxpos p1 >=? 6 + frame_len p1 + 4 then
        let tail_off := u16 (6 + frame_len p1) in
        let tail := le32 (rxbuf p1) tail_off in
        let header := le32 (rxbuf p1) 0 in
        if tail_ok header tail then
          Build_parse_out
            (parser_reset (set_frames_ok (u32 (frames_ok p1 + 1)) p1)) 1 s1
        else
          Build_parse_out
            (parser_reset (set_frames_err (u32 (frames_err p1 + 1)) p1)) 0 s1
      else Build_parse_out p1 0 s1
  | PARSE_TAIL => Build_parse_out (parser_reset priv) 0 []
  end.

(** Feeding a byte sequence one byte at a time: the final device, the
    return value of every call and every store index, in order. *)
Record feed_out := Build_feed_out {
  fo_dev : mmwave_dev_s;
  fo_rets : list Z;
  fo_stores : list Z
}.

Fixpoint parse_bytes (priv : mmwave_dev_s) (bs : list Z) : feed_out :=
  match bs with
  | [] => Build_feed_out priv [] []
  | b :: bs' =>
      let o := mmwave_parse_byte priv b in
      let r := parse_bytes (po_dev o) bs' in
      Build_feed_out (fo_dev r) (po_ret o :: fo_rets r)
        (po_stores o ++ fo_stores r)
  end.

(** [feed_bytes] of [tests/test_parser.c]: the number of complete frames. *)
Definition feed_bytes (priv : mmwave_dev_s) (bs : list Z) : Z :=
  fold_right Z.add 0 (fo_rets (parse_bytes priv bs)).

(** ** Frame constructors ([tests/helpers/frame_builder.h]) *)

Definition lo8 (x : Z) : Z := Z.land x 0xFF.
Definition hi8 (x : Z) : Z := Z.land (Z.shiftr x 8) 0xFF.

Definition build_data_frame
    (target_state motion_dist motion_energy static_dist static_energy
     detect_dist : Z) : list Z :=
  let payload_len := 11 in
  [0xF1; 0xF2; 0xF3; 0xF4; lo8 payload_len; hi8 payload_len;
   0x02; 0xAA; target_state;
   lo8 motion_dist; hi8 motion_dist; motion_energy;
   lo8 static_dist; hi8 static_dist; static_energy;
   lo8 detect_dist; hi8 detect_dist;
   0xF5; 0xF6; 0xF7; 0xF8].

Definition build_eng_frame
    (target_state motion_dist motion_energy static_dist static_energy
     detect_dist : Z) (motion_gates static_gates : list Z) : list Z :=
  let payload_len := 29 in
  [0xF1; 0xF2; 0xF3; 0xF4; lo8 payload_len; hi8 payload_len;
   0x01; 0xAA; target_state;
   lo8 motion_dist; hi8 motion_dist; motion_energy;
   lo8 static_dist; hi8 static_dist; static_energy;
   lo8 detect_dist; hi8 detect_dist]
  ++ take 9 motion_gates
  ++ take 9 static_gates
  ++ [0xF5; 0xF6; 0xF7; 0xF8].

Definition build_cmd_frame (cmd_code : Z) (data : option (list Z))
    (datalen : Z) : list Z :=
  let payload_len := u16 (2 + datalen) in
  [0xFA; 0xFB; 0xFC; 0xFD; lo8 payload_len; hi8 payload_len;
   lo8 cmd_code; hi8 cmd_code]
  ++ match data with
     | Some d => if datalen >? 0 then take (Z.to_nat datalen) d else []
     | None => []
     end
  ++ [0x01; 0x02; 0x03; 0x04].

(** The common on-wire shape of both families:
    magic, length (little-endian), payload, terminator. *)
Inductive family : Set := Data_family | Cmd_family.

Definition magic (f : family) : list Z :=
  match f with
  | Data_family => [0xF1; 0xF2; 0xF3; 0xF4]
  | Cmd_family => [0xFA; 0xFB; 0xFC; 0xFD]
  end.

Definition terminator (f : family) : list Z :=
  match f with
  | Data_family => [0xF5; 0xF6; 0xF7; 0xF8]
  | Cmd_family => [0x01; 0x02; 0x03; 0x04]
  end.

Definition frame_of (f : family) (payload : list Z) : list Z :=
  let len := Z.of_nat (length payload) in
  magic f ++ [lo8 len; hi8 len] ++ payload ++ terminator f.

(** ** The world outside the driver *)

(** Scripted results for the calls the driver makes into the kernel, the
    log of what it handed to [write], the time it spent in [usleep], the
    tick counter, and the bytes the radar has sent that were not read yet. *)
Record world := Build_world {
  sem_results : list Z;
  write_results : list (option Z);
  tx_log : list (list Z);
  slept_us : Z;
  systime_ticks : Z;
  rx_pending : list Z
}.

(** A quiet world: every semaphore is acquired, every write is complete,
    the radar sends nothing. *)
Definition world_init : world := Build_world [] [] [] 0 12345 [].

(** [nxsem_wait]: the next scripted result, 0 when the script is used up. *)
Definition nxsem_wait (w : world) : Z * world :=
  match sem_results w with
  | [] => (0, w)
  | r :: rs =>
      (r, Build_world rs (write_results w) (tx_log w) (slept_us w)
            (systime_ticks w) (rx_pending w))
  end.

(** [write(uart_fd, frame, pos)]: the frame is logged; the result is the
    next scripted one, the full count when there is none. *)
Definition uart_write (frame : list Z) (pos : Z) (w : world) : Z * world :=
  let log := tx_log w ++ [frame] in
  match write_results w with
  | [] =>
      (pos, Build_world (sem_results w) [] log (slept_us w)
              (systime_ticks w) (rx_pending w))
  | r :: rs =>
      (default pos r,
       Build_world (sem_results w) rs log (slept_us w)
         (systime_ticks w) (rx_pending w))
  end.

Definition usleep (us : Z) (w : world) : world :=
  Build_world (sem_results w) (write_results w) (tx_log w) (slept_us w + us)
    (systime_ticks w) (rx_pending w).

Definition TICK_PER_SEC : Z := 1000.

(** ** Data frame decoder ([mmwave_process_data_frame]) *)

(** [payload[i]] with [payload = &priv->rxbuf[6]]. *)
Definition payload_at (priv : mmwave_dev_s) (i : Z) : Z := rd (rxbuf priv) (6 + i).

(** [for (i = 0; i < LD2410_MAX_GATES && i < limit; i++) dst[i] = eng[i];]
    with [eng = &payload[off]] a pointer into [rxbuf]. The counter never
    passes 9, so 9 rounds are all the loop can make. *)
Fixpoint gate_loop (rounds : nat) (i limit off : Z) (buf : list Z)
    (dst : list Z) : list Z :=
  match rounds with
  | O => dst
  | S k =>
      if (i <? LD2410_MAX_GATES) && (i <? limit)
      then gate_loop k (i + 1) limit off buf (wr dst i (rd buf (6 + (off + i))))
      else dst
  end.

Record frame_out := Build_frame_out {
  fr_ret : Z;
  fr_dev : mmwave_dev_s;
  fr_world : world
}.

Definition mmwave_process_data_frame (priv : mmwave_dev_s) (w : world)
    : frame_out :=
  let data_type := payload_at priv 0 in
  if negb (data_type =? 0x02) && negb (data_type =? 0x01) then
    Build_frame_out (- EINVAL) priv w
  else if negb (payload_at priv 1 =? 0xAA) then
    Build_frame_out (- EINVAL) priv w
  else
    let '(ret, w1) := nxsem_wait w in
    if ret <? 0 then Build_frame_out ret priv w1
    else
      let p0 := set_data_sem (data_sem priv - 1) priv in
      let d :=
        Build_data
          (payload_at priv 2)
          (u16 (Z.lor (payload_at priv 3) (Z.shiftl (payload_at priv 4) 8)))
          (payload_at priv 5)
          (u16 (Z.lor (payload_at priv 6) (Z.shiftl (payload_at priv 7) 8)))
          (payload_at priv 8)
          (u16 (Z.lor (payload_at priv 9) (Z.shiftl (payload_at priv 10) 8)))
          (u32 (systime_ticks w1 * (1000 / TICK_PER_SEC))) in
      let p1 := set_data_valid true (set_data d p0) in
      let p2 :=
        if (data_type =? 0x01) && eng_mode p1 then
          let mg :=
            gate_loop 9 0 (frame_len p1 - 15) 11 (rxbuf p1)
              (motion_gate_energy (eng_data p1)) in
          let sg :=
            gate_loop 9 0 (frame_len p1 - 24) (11 + LD2410_MAX_GATES) (rxbuf p1)
              (static_gate_energy (eng_data p1)) in
          set_eng_data (Build_eng (data p1) mg sg) p1
        else p1 in
      Build_frame_out OK (set_data_sem (data_sem p2 + 1) p2) w1.

(** [parse_and_process] of [tests/test_data_extract.c]: feed the frame
    through the parser; when the last byte completes it, copy the frame
    into [rxbuf], set [frame_len] from its length bytes, and decode. *)
Definition parse_and_process (dev : mmwave_dev_s) (frame : list Z) (w : world)
    : frame_out :=
  let o := parse_bytes dev frame in
  match last (fo_rets o) with
  | Some 1 =>
      let d := fo_dev o in
      let buf := frame ++ drop (length frame) (rxbuf d) in
      let len := u16 (Z.lor (rd frame 4) (Z.shiftl (rd frame 5) 8)) in
      mmwave_process_data_frame (set_frame_len len (set_rxbuf buf d)) w
  | _ => Build_frame_out (-1) (fo_dev o) w
  end.

(** ** Poll task ([mmwave_poll_task]) *)

(** One iteration of the loop with a byte available on the UART: the byte
    goes to the parser and a completed frame to the decoder. Without a
    byte ([read] returns 0, or fails with [EAGAIN] or [EINTR]) the task
    sleeps 10 ms. The world delivers bytes or nothing: the third branch of
    the loop, a [read] that fails otherwise (a message and a pause of
    100 ms), has no counterpart here. *)
Definition mmwave_poll_step (priv : mmwave_dev_s) (w : world)
    : mmwave_dev_s * world :=
  match rx_pending w with
  | byte :: rest =>
      let w1 :=
        Build_world (sem_results w) (write_results w) (tx_log w) (slept_us w)
          (systime_ticks w) rest in
      let o := mmwave_parse_byte priv byte in
      if negb (po_ret o =? 0) then
        let f := mmwave_process_data_frame (po_dev o) w1 in
        (fr_dev f, fr_world f)
      else (po_dev o, w1)
  | [] => (priv, usleep 10000 w)
  end.

Fixpoint mmwave_poll (n : nat) (priv : mmwave_dev_s) (w : world)
    : mmwave_dev_s * world :=
  match n with
  | O => (priv, w)
  | S k => let '(p, w1) := mmwave_poll_step priv w in mmwave_poll k p w1
  end.

(** ** Command channel ([mmwave_send_command] and the config bracket) *)

(** The calls of [mmwave_send_command] that stay inside its buffers:
    [datalen] is a [uint16_t]; and when the length test lets the call
    through and there is data to copy, header, data and tail fit the
    [LD2410_MAX_FRAME_LEN] bytes of [frame] and [data] has [datalen] bytes
    to read. The length test is made on 16-bit sums: a call with data and a
    [datalen] from 65524 on passes it and then copies past the end of
    [frame]. Such a call is not among these, and [mmwave_send_command]
    below, whose frame is a list, does not describe it. *)
Definition send_command_defined (data : option (list Z)) (datalen : Z) : Prop :=
  0 <= datalen < 65536
  /\ (u16 (4 + 2 + u16 (2 + datalen) + 4) <= LD2410_MAX_FRAME_LEN ->
      match data with
      | Some bytes =>
          0 < datalen ->
          8 + datalen + 4 <= LD2410_MAX_FRAME_LEN
          /\ datalen <= Z.of_nat (length bytes)
      | None => True
      end).

Definition mmwave_send_command (priv : mmwave_dev_s) (cmd : Z)
    (data : option (list Z)) (datalen : Z) (w : world) : frame_out :=
  let payload_len := u16 (2 + datalen) in
  let frame_len := u16 (4 + 2 + payload_len + 4) in
  if frame_len >? LD2410_MAX_FRAME_LEN then Build_frame_out (- EINVAL) priv w
  else
    let '(ret, w1) := nxsem_wait w in
    if ret <? 0 then Build_frame_out ret priv w1
    else
      let p1 := set_cmd_sem (cmd_sem priv - 1) priv in
      let head :=
        [0xFA; 0xFB; 0xFC; 0xFD; lo8 payload_len; hi8 payload_len;
         lo8 cmd; hi8 cmd] in
      let body :=
        match data with
        | Some d => if datalen >? 0 then take (Z.to_nat datalen) d else []
        | None => []
        end in
      let pos :=
        match data with
        | Some _ => if datalen >? 0 then 8 + datalen + 4 else 8 + 4
        | None => 8 + 4
        end in
      let frame := head ++ body ++ [0x01; 0x02; 0x03; 0x04] in
      let '(written, w2) := uart_write frame pos w1 in
      let p2 := set_cmd_sem (cmd_sem p1 + 1) p1 in
      if negb (written =? pos) then Build_frame_out (- EIO) p2 w2
      else Build_frame_out OK p2 (usleep 50000 w2).

Definition mmwave_enter_config (priv : mmwave_dev_s) (w : world) : frame_out :=
  mmwave_send_command priv LD2410_CMD_ENABLE_CONFIG (Some [0x01; 0x00]) 2 w.

Definition mmwave_exit_config (priv : mmwave_dev_s) (w : world) : frame_out :=
  mmwave_send_command priv LD2410_CMD_DISABLE_CONFIG None 0 w.

(** ** Character device operations *)

(** [(int)arg] for the [unsigned long] argument of a request: the low 32
    bits of [arg], read as a two's complement number. *)
Definition int_of_ulong (arg : Z) : Z :=
  let m := u32 arg in
  if m <? 2147483648 then m else m - 4294967296.

Inductive ioctl_req : Type :=
  | MMWAVE_IOC_SET_SENSITIVITY (sens : mmwave_sensitivity_s)
  | MMWAVE_IOC_SET_MAXGATE (mg : mmwave_maxgate_s)
  | MMWAVE_IOC_ENG_MODE (arg : Z)
  | MMWAVE_IOC_RESTART
  | MMWAVE_IOC_FACTORY_RESET
  | MMWAVE_IOC_OTHER (cmd : Z).

Record ioctl_out := Build_ioctl_out {
  io_ret : Z;
  io_dev : option mmwave_dev_s;
  io_world : world
}.

(** The return of a case that ran its command: [ret] is what is returned,
    the device and world are those the trailing [mmwave_exit_config] left. *)
Definition after_exit (ret : Z) (x : frame_out) : ioctl_out :=
  Build_ioctl_out ret (Some (fr_dev x)) (fr_world x).

Definition enter_failed (e : frame_out) : ioctl_out :=
  Build_ioctl_out (fr_ret e) (Some (fr_dev e)) (fr_world e).

Definition mmwave_ioctl (g_mmwave_dev : option mmwave_dev_s) (req : ioctl_req)
    (w : world) : ioctl_out :=
  match g_mmwave_dev with
  | None => Build_ioctl_out (- ENODEV) None w
  | Some priv =>
      match req with
      | MMWAVE_IOC_SET_SENSITIVITY sens =>
          if gate sens >=? LD2410_MAX_GATES then
            Build_ioctl_out (- EINVAL) (Some priv) w
          else
            let e := mmwave_enter_config priv w in
            if fr_ret e <? 0 then enter_failed e
            else
              let data :=
                [0x00; 0x00; gate sens; 0x00; 0x00; 0x00;
                 0x01; 0x00; motion_threshold sens; 0x00; 0x00; 0x00;
                 0x02; 0x00; static_threshold sens; 0x00; 0x00; 0x00] in
              let c :=
                mmwave_send_command (fr_dev e) LD2410_CMD_SET_SENSITIVITY
                  (Some data) 18 (fr_world e) in
              after_exit (fr_ret c) (mmwave_exit_config (fr_dev c) (fr_world c))
      | MMWAVE_IOC_SET_MAXGATE mg =>
          let e := mmwave_enter_config priv w in
          if fr_ret e <? 0 then enter_failed e
          else
            let data :=
              [0x00; 0x00; max_motion_gate mg; 0x00; 0x00; 0x00;
               0x01; 0x00; max_static_gate mg; 0x00; 0x00; 0x00;
               0x02; 0x00; lo8 (timeout_s mg); hi8 (timeout_s mg); 0x00; 0x00] in
            let c :=
              mmwave_send_command (fr_dev e) LD2410_CMD_SET_MAXGATE
                (Some data) 18 (fr_world e) in
            after_exit (fr_ret c) (mmwave_exit_config (fr_dev c) (fr_world c))
      | MMWAVE_IOC_ENG_MODE arg =>
          let enable := int_of_ulong arg in
          let e := mmwave_enter_config priv w in
          if fr_ret e <? 0 then enter_failed e
          else
            let c :=
              if negb (enable =? 0) then
                mmwave_send_command (fr_dev e) LD2410_CMD_ENG_MODE_ON None 0
                  (fr_world e)
              else
                mmwave_send_command (fr_dev e) LD2410_CMD_ENG_MODE_OFF None 0
                  (fr_world e) in
            let p :=
              if fr_ret c =? OK
              then set_eng_mode (negb (enable =? 0)) (fr_dev c)
              else fr_dev c in
            after_exit (fr_ret c) (mmwave_exit_config p (fr_world c))
      | MMWAVE_IOC_RESTART =>
          let e := mmwave_enter_config priv w in
          if fr_ret e <? 0 then enter_failed e
          else
            let c :=
              mmwave_send_command (fr_dev e) LD2410_CMD_RESTART None 0
                (fr_world e) in
            after_exit (fr_ret c) (mmwave_exit_config (fr_dev c) (fr_world c))
      | MMWAVE_IOC_FACTORY_RESET =>
          let e := mmwave_enter_config priv w in
          if fr_ret e <? 0 then enter_failed e
          else
            let c :=
              mmwave_send_command (fr_dev e) LD2410_CMD_FACTORY_RESET None 0
                (fr_world e) in
            after_exit (fr_ret c) (mmwave_exit_config (fr_dev c) (fr_world c))
      | MMWAVE_IOC_OTHER _ => Build_ioctl_out (- ENOTTY) (Some priv) w
      end
  end.

(** What [read] leaves in the caller's buffer: one of the two packets. The
    sizes of the two structures depend on the target's layout rules and are
    taken as given. *)
Inductive packet : Type :=
  | Pkt_data (d : mmwave_data_s)
  | Pkt_eng (e : mmwave_eng_data_s).

Record layout := Build_layout {
  sizeof_mmwave_data_s : Z;
  sizeof_mmwave_eng_data_s : Z
}.

Record read_out := Build_read_out {
  rd_ret : Z;
  rd_buffer : option packet;
  rd_dev : option mmwave_dev_s;
  rd_world : world
}.

Definition mmwave_read (abi : layout) (g_mmwave_dev : option mmwave_dev_s)
    (buffer : option packet) (buflen : Z) (w : world) : read_out :=
  match g_mmwave_dev with
  | None => Build_read_out (- ENODEV) buffer None w
  | Some priv =>
      if negb (data_valid priv) then
        Build_read_out (- EAGAIN) buffer (Some priv) w
      else
        let '(ret, w1) := nxsem_wait w in
        if ret <? 0 then Build_read_out ret buffer (Some priv) w1
        else
          let p1 := set_data_sem (data_sem priv - 1) priv in
          let released := Some (set_data_sem (data_sem p1 + 1) p1) in
          if eng_mode p1 && (buflen >=? sizeof_mmwave_eng_data_s abi) then
            Build_read_out (sizeof_mmwave_eng_data_s abi)
              (Some (Pkt_eng (eng_data p1))) released w1
          else if buflen >=? sizeof_mmwave_data_s abi then
            Build_read_out (sizeof_mmwave_data_s abi)
              (Some (Pkt_data (data p1))) released w1
          else Build_read_out (- EINVAL) buffer released w1
  end.

(** ** Home Assistant reporter ([apps/hactl/hactl_cmd.c]) *)

Record ha_config_s := Build_ha_config {
  url : string;
  port : Z;
  token : string;
  report_interval_ms : Z
}.

(** What the network does during one [ha_post_state]: the results of
    [socket], [inet_pton], [gethostbyname], [connect], whether [send] took
    the whole request, and what [recv] delivers ([None]: an error or a
    timeout, a negative return). [net_errno] is [errno] after a failure. *)
Record net_s := Build_net {
  socket_ret : Z;
  net_errno : Z;
  inet_pton_ret : Z;
  gethostbyname_found : bool;
  connect_ret : Z;
  send_complete : bool;
  recv_result : option string
}.

Definition HA_HTTP_BUF_SIZE : nat := 512.

(** The characters of a C string: those before the first NUL. *)
Fixpoint c_string (s : string) : string :=
  match s with
  | EmptyString => EmptyString
  | String c s' =>
      if Ascii.eqb c zero then EmptyString else String c (c_string s')
  end.

(** [strstr(hay, needle)]: the offset of the first occurrence, if any. *)
Definition strstr (hay needle : string) : option nat :=
  String.index 0 needle (c_string hay).

Definition ha_post_state (cfg : ha_config_s) (net : net_s)
    (data : mmwave_data_s) : Z :=
  if String.eqb (url cfg) EmptyString || String.eqb (token cfg) EmptyString
  then - EINVAL
  else if socket_ret net <? 0 then - net_errno net
  else if (inet_pton_ret net <=? 0) && negb (gethostbyname_found net)
  then - ENOENT
  else if connect_ret net <? 0 then - net_errno net
  else if negb (send_complete net) then - EIO
  else
    match recv_result net with
    | Some resp =>
        let http_buf := String.substring 0 (HA_HTTP_BUF_SIZE - 1) resp in
        if (0 <? String.length http_buf)%nat then
          match strstr http_buf "200", strstr http_buf "201" with
          | None, None => - EIO
          | _, _ => OK
          end
        else - EIO
    | None => - EIO
    end.

(** One round of the loop of [ha_report_task]: [reading] is the outcome of
    the [read] on the sensor ([None] when it did not return a whole
    reading); the result is the next [prev_state]. *)
Definition ha_report_tick (cfg : ha_config_s) (net : net_s) (prev_state : Z)
    (reading : option mmwave_data_s) : Z :=
  match reading with
  | Some data =>
      if negb (target_state data =? prev_state) then
        if ha_post_state cfg net data =? OK then target_state data
        else prev_state
      else prev_state
  | None => prev_state
  end.

(** What the status line of a response says: the three characters after
    the protocol version and the blank, as in [HTTP/1.1 200 OK]. *)
Definition status_code (resp : string) : string := String.substring 9 3 resp.

Definition status_is_200_or_201 (resp : string) : bool :=
  String.eqb (status_code resp) "200" || String.eqb (status_code resp) "201".

(** ** Vocabulary of the statements *)

(** What holds of the parser between two calls: the position is tied to
    the state, and a payload is only awaited once its length passed the
    guard. [PARSE_TAIL] is only ever set and left inside one call. *)
Definition parser_inv (d : mmwave_dev_s) : Prop :=
  match parse_state d with
  | PARSE_HEADER => 0 <= rxpos d <= 3
  | PARSE_LENGTH => 4 <= rxpos d <= 5
  | PARSE_PAYLOAD =>
      0 <= frame_len d <= 54 /\ 6 <= rxpos d < 6 + frame_len d + 4
  | PARSE_TAIL => False
  end.

(** The receive buffer as the C type has it: 64 bytes. *)
Definition buf_inv (d : mmwave_dev_s) : Prop :=
  length (rxbuf d) = 64%nat /\ Forall is_byte (rxbuf d).

(** One call in [PARSE_HEADER] with the window at position [k <= 3],
    as a function of the position and the buffer alone. *)
Definition header_next (k : Z) (buf : list Z) (b : Z)
    : parse_state_t * Z * list Z :=
  if k <? 3 then (PARSE_HEADER, k + 1, wr buf k b)
  else if is_frame_header (le32 (wr buf k b) 0)
       then (PARSE_LENGTH, 4, wr buf k b)
       else (PARSE_HEADER, 3, memmove_window (wr buf k b)).

(** The header test on a window of four bytes, last byte first. *)
Definition window_is_header (a b c d : Z) : bool :=
  ((d =? 0xF4) && ((c =? 0xF3) && ((b =? 0xF2) && (a =? 0xF1))))
  || ((d =? 0xFD) && ((c =? 0xFC) && ((b =? 0xFB) && (a =? 0xFA)))).

Definition in_rxbuf (i : Z) : Prop := 0 <= i < LD2410_MAX_FRAME_LEN.

(** What the specification says a configuration operation returns: the
    first error among enter, command and exit. *)
Definition first_error (r_enter r_cmd r_exit : Z) : Z :=
  if r_enter <? 0 then r_enter
  else if r_cmd <? 0 then r_cmd
  else r_exit.

(** The command a configuration request puts on the wire. *)
Definition req_cmd (req : ioctl_req) : Z :=
  match req with
  | MMWAVE_IOC_SET_SENSITIVITY _ => LD2410_CMD_SET_SENSITIVITY
  | MMWAVE_IOC_SET_MAXGATE _ => LD2410_CMD_SET_MAXGATE
  | MMWAVE_IOC_ENG_MODE arg =>
      if int_of_ulong arg =? 0 then LD2410_CMD_ENG_MODE_OFF
      else LD2410_CMD_ENG_MODE_ON
  | MMWAVE_IOC_RESTART => LD2410_CMD_RESTART
  | MMWAVE_IOC_FACTORY_RESET => LD2410_CMD_FACTORY_RESET
  | MMWAVE_IOC_OTHER _ => 0
  end.

Definition req_data (req : ioctl_req) : option (list Z) :=
  match req with
  | MMWAVE_IOC_SET_SENSITIVITY sens =>
      Some [0x00; 0x00; gate sens; 0x00; 0x00; 0x00;
            0x01; 0x00; motion_threshold sens; 0x00; 0x00; 0x00;
            0x02; 0x00; static_threshold sens; 0x00; 0x00; 0x00]
  | MMWAVE_IOC_SET_MAXGATE mg =>
      Some [0x00; 0x00; max_motion_gate mg; 0x00; 0x00; 0x00;
            0x01; 0x00; max_static_gate mg; 0x00; 0x00; 0x00;
            0x02; 0x00; lo8 (timeout_s mg); hi8 (timeout_s mg); 0x00; 0x00]
  | _ => None
  end.

Definition req_datalen (req : ioctl_req) : Z :=
  match req with
  | MMWAVE_IOC_SET_SENSITIVITY _ | MMWAVE_IOC_SET_MAXGATE _ => 18
  | _ => 0
  end.

Definition is_config_req (req : ioctl_req) : bool :=
  match req with
  | MMWAVE_IOC_OTHER _ => false
  | _ => true
  end.

(** The one argument check [mmwave_ioctl] makes. *)
Definition passes_validation (req : ioctl_req) : bool :=
  match req with
  | MMWAVE_IOC_SET_SENSITIVITY sens => gate sens <? LD2410_MAX_GATES
  | _ => true
  end.

(** The bracket as the driver runs it: enter; when that fails, its error
    and nothing more; otherwise the command, then exit whatever the command
    did, and the command's result. *)
Definition config_bracket (priv : mmwave_dev_s) (req : ioctl_req) (w : world)
    : ioctl_out :=
  let e := mmwave_enter_config priv w in
  if fr_ret e <? 0 then enter_failed e
  else
    let c :=
      mmwave_send_command (fr_dev e) (req_cmd req) (req_data req)
        (req_datalen req) (fr_world e) in
    let p :=
      match req with
      | MMWAVE_IOC_ENG_MODE arg =>
          if fr_ret c =? OK
          then set_eng_mode (negb (int_of_ulong arg =? 0)) (fr_dev c)
          else fr_dev c
      | _ => fr_dev c
      end in
    after_exit (fr_ret c) (mmwave_exit_config p (fr_world c)).

(** The three frames of a bracket, as [build_cmd_frame] makes them. *)
Definition enter_frame : list Z :=
  build_cmd_frame LD2410_CMD_ENABLE_CONFIG (Some [0x01; 0x00]) 2.

Definition exit_frame : list Z :=
  build_cmd_frame LD2410_CMD_DISABLE_CONFIG None 0.

Definition req_frame (req : ioctl_req) : list Z :=
  build_cmd_frame (req_cmd req) (req_data req) (req_datalen req).

(** The result of the [i]-th coming [write] of [count] bytes. *)
Definition write_result_at (w : world) (i : nat) (count : Z) : Z :=
  default count (default None (write_results w !! i)).

(** ** Concrete devices, worlds and responses used in the examples *)

(** A device that holds a reading and whose parser has just completed a
    data frame with type byte 0x05. *)
Definition dev_after_odd_frame : mmwave_dev_s :=
  fo_dev (parse_bytes
            (fr_dev (parse_and_process dev_init
                       (build_data_frame 1 150 80 200 40 150) world_init))
            (frame_of Data_family [0x05; 0xAA; 0; 0; 0; 0; 0; 0; 0; 0; 0])).

(** A fresh device with engineering mode on, as after a successful
    [MMWAVE_IOC_ENG_MODE] request. *)
Definition dev_eng : mmwave_dev_s := set_eng_mode true dev_init.

Definition eng_frame_example : list Z :=
  build_eng_frame 2 0 0 300 50 300
    [0; 0; 0; 0; 0; 0; 0; 0; 0] [5; 15; 25; 35; 45; 55; 65; 75; 85].

(** A world in which the first two writes are complete and the third
    writes nothing. *)
Definition world_exit_fails : world :=
  Build_world [] [None; None; Some 0] [] 0 12345 [].

(** A world in which the first write fails. *)
Definition world_enter_fails : world :=
  Build_world [] [Some (-1)] [] 0 12345 [].

(** A device that holds a reading. *)
Definition dev_with_reading : mmwave_dev_s :=
  fr_dev (parse_and_process dev_init
            (build_data_frame 1 150 80 200 40 150) world_init).

(** The layout on a 32-bit target with natural alignment. *)
Definition abi32 : layout := Build_layout 16 36.

Definition crlf : string := String "013"%char (String "010"%char EmptyString).

(** A response whose status is 500 and whose headers contain "200". *)
Definition response_500 : string :=
  ("HTTP/1.1 500 Internal Server Error" ++ crlf
   ++ "Content-Length: 200" ++ crlf ++ crlf)%string.

Definition ha_config_example : ha_config_s :=
  Build_ha_config "192.168.1.100" 8123 "token" 500.

(** A network on which everything works and the server answers [resp]. *)
Definition net_answers (resp : string) : net_s :=
  Build_net 3 0 1 false 0 true (Some resp).

Definition reading_motion : mmwave_data_s := Build_data 1 150 80 0 0 150 12345.

(** ** Vocabulary of the further properties *)

(** A parser that is seeking a header. *)
Definition seeking (d : mmwave_dev_s) : Prop :=
  parse_state d = PARSE_HEADER /\ 0 <= rxpos d <= 3.

(** A byte that ends neither magic. *)
Definition not_magic_end (b : Z) : Prop := b <> 0xF4 /\ b <> 0xFD.

(** Several frames, one after the other on the wire. *)
Definition stream_of (frames : list (family * list Z)) : list Z :=
  concat (map (fun fp => frame_of (fst fp) (snd fp)) frames).

Definition u32_range (x : Z) : Prop := 0 <= x < 4294967296.

(** The world with the bytes pending on the UART replaced. *)
Definition with_rx (rest : list Z) (w : world) : world :=
  Build_world (sem_results w) (write_results w) (tx_log w) (slept_us w)
    (systime_ticks w) rest.

(** The fields of a device other than the reading. *)
Definition same_but_reading (p q : mmwave_dev_s) : Prop :=
  eng_mode q = eng_mode p
  /\ rxbuf q = rxbuf p /\ rxpos q = rxpos p /\ parse_state q = parse_state p
  /\ frame_len q = frame_len p
  /\ data_sem q = data_sem p /\ cmd_sem q = cmd_sem p /\ wait_sem q = wait_sem p
  /\ frames_ok q = frames_ok p /\ frames_err q = frames_err p
  /\ cmd_timeouts q = cmd_timeouts p.

(** [read_sensor] of [apps/mmwave/mmwave_cmd.c]. [read] on the device
    node reaches [mmwave_read]; a negative result of the driver comes back
    from [read] as -1. *)
Definition vfs_nread (r : read_out) : Z :=
  if rd_ret r <? 0 then -1 else rd_ret r.

Record sensor_out := Build_sensor_out {
  rs_ret : Z;
  rs_data : option packet;
  rs_eng : option packet;
  rs_dev : option mmwave_dev_s;
  rs_world : world
}.

Definition read_sensor (abi : layout) (g_mmwave_dev : option mmwave_dev_s)
    (data eng : option packet) (eng_given eng_mode : bool) (w : world)
    : sensor_out :=
  let basic_read (g : option mmwave_dev_s) (eng' : option packet) (w' : world) :=
    let r := mmwave_read abi g data (sizeof_mmwave_data_s abi) w' in
    if vfs_nread r =? sizeof_mmwave_data_s abi
    then Build_sensor_out 0 (rd_buffer r) eng' (rd_dev r) (rd_world r)
    else Build_sensor_out (-1) (rd_buffer r) eng' (rd_dev r) (rd_world r) in
  if eng_mode && eng_given then
    let r := mmwave_read abi g_mmwave_dev eng (sizeof_mmwave_eng_data_s abi) w in
    if vfs_nread r =? sizeof_mmwave_eng_data_s abi
    then Build_sensor_out 1 data (rd_buffer r) (rd_dev r) (rd_world r)
    else basic_read (rd_dev r) (rd_buffer r) (rd_world r)
  else basic_read g_mmwave_dev eng w.

(** The arguments of a command as its callers give them: [datalen] bytes
    of data, or no data and a length of 0. *)
Definition cmd_args_ok (data : option (list Z)) (datalen : Z) : Prop :=
  match data with
  | Some bytes => Z.of_nat (length bytes) = datalen
  | None => datalen = 0
  end.

Definition cmd_payload (cmd : Z) (data : option (list Z)) : list Z :=
  lo8 cmd :: hi8 cmd :: match data with Some bytes => bytes | None => [] end.

(** What a request does to the device when it returns [ret]. *)
Definition ioctl_effect (req : ioctl_req) (ret : Z) (priv : mmwave_dev_s)
    : mmwave_dev_s :=
  match req with
  | MMWAVE_IOC_ENG_MODE arg =>
      if ret =? OK then set_eng_mode (negb (int_of_ulong arg =? 0)) priv
      else priv
  | _ => priv
  end.


(** ** Formatting of the report ([apps/hactl/ha_format.h]) *)

Definition digit (d : Z) : ascii := ascii_of_nat (48 + Z.to_nat d).

(** The decimal digits of a number below [10 ^ fuel], most significant
    first. *)
Fixpoint decimal (fuel : nat) (n : Z) : string :=
  match fuel with
  | O => EmptyString
  | S fuel' =>
      if n <? 10 then String (digit n) EmptyString
      else (decimal fuel' (n / 10) ++ String (digit (n mod 10)) EmptyString)%string
  end.

(** [%u] and [%d] of a 32-bit argument. *)
Definition fmt_u (n : Z) : string := decimal 10 (u32 n).

Definition fmt_d (n : Z) : string :=
  if n <? 0 then ("-" ++ decimal 10 (- n))%string else decimal 10 n.

(** [snprintf(buf, bufsize, ...)] on the formatted text: the return is the
    length of the whole text, the buffer holds what fits before the NUL. *)
Definition snprintf (bufsize : nat) (text : string) : Z * string :=
  (Z.of_nat (String.length text), String.substring 0 (bufsize - 1) text).

(** A word between double quotes. *)
Definition quoted (s : string) : string :=
  (String "034"%char s ++ String "034"%char EmptyString)%string.

Definition state_json_text (data : mmwave_data_s) : string :=
  let state :=
    if negb (target_state data =? LD2410_TARGET_NONE) then "on"%string
    else "off"%string in
  ("{" ++ quoted "state" ++ ":" ++ quoted state ++ ","
   ++ quoted "attributes" ++ ":{"
   ++ quoted "friendly_name" ++ ":" ++ quoted "mmWave Presence" ++ ","
   ++ quoted "device_class" ++ ":" ++ quoted "occupancy" ++ ","
   ++ quoted "motion_energy" ++ ":" ++ fmt_u (motion_energy data) ++ ","
   ++ quoted "static_energy" ++ ":" ++ fmt_u (static_energy data) ++ ","
   ++ quoted "motion_distance" ++ ":" ++ fmt_u (motion_distance data) ++ ","
   ++ quoted "static_distance" ++ ":" ++ fmt_u (static_distance data) ++ ","
   ++ quoted "detection_distance" ++ ":" ++ fmt_u (detection_distance data)
   ++ "}}")%string.

Definition ha_format_state_json (bufsize : nat) (data : mmwave_data_s)
    : Z * string :=
  let '(n, buf) := snprintf bufsize (state_json_text data) in
  if (n <? 0) || (n >=? Z.of_nat bufsize) then (-1, buf) else (n, buf).

Definition http_request_text (entity_id host : string) (port : Z)
    (token json_body : string) (body_len : Z) : string :=
  ("POST /api/states/" ++ entity_id ++ " HTTP/1.1" ++ crlf
   ++ "Host: " ++ host ++ ":" ++ fmt_u port ++ crlf
   ++ "Authorization: Bearer " ++ token ++ crlf
   ++ "Content-Type: application/json" ++ crlf
   ++ "Content-Length: " ++ fmt_d body_len ++ crlf
   ++ "Connection: close" ++ crlf
   ++ crlf
   ++ json_body)%string.

Definition ha_format_http_request (bufsize : nat) (entity_id host : string)
    (port : Z) (token json_body : string) (body_len : Z) : Z * string :=
  let '(n, buf) :=
    snprintf bufsize
      (http_request_text entity_id host port token json_body body_len) in
  if (n <? 0) || (n >=? Z.of_nat bufsize) then (-1, buf) else (n, buf).

(** The request [ha_post_state] of [apps/hactl/hactl_cmd.c] builds before
    it calls [send]: the body in a buffer of 256 bytes, the request in
    [http_buf]; [send] is given [http_buf] and the length [httplen]. *)
Definition HA_ENTITY_ID : string := "binary_sensor.mmwave_presence"%string.

Record request_s := Build_request {
  bodylen : Z;
  body : string;
  httplen : Z;
  http_buf : string
}.

Definition ha_post_request (cfg : ha_config_s) (data : mmwave_data_s)
    : request_s :=
  let '(bodylen, body) := snprintf 256 (state_json_text data) in
  let '(httplen, http_buf) :=
    snprintf HA_HTTP_BUF_SIZE
      (http_request_text HA_ENTITY_ID (url cfg) (port cfg) (token cfg)
         body bodylen) in
  Build_request bodylen body httplen http_buf.

(** A reading whose fields are in the ranges of their C types. *)
Definition reading_in_range (data : mmwave_data_s) : Prop :=
  is_byte (target_state data)
  /\ is_byte (motion_energy data) /\ is_byte (static_energy data)
  /\ 0 <= motion_distance data < 65536
  /\ 0 <= static_distance data < 65536
  /\ 0 <= detection_distance data < 65536.

(** The loop of [ha_report_task]: one [ha_report_tick] per round, each
    round with what the network does in it and the outcome of its [read];
    the result is [prev_state] when the loop is left. *)
Fixpoint ha_report_task (cfg : ha_config_s)
    (rounds : list (net_s * option mmwave_data_s)) (prev_state : Z) : Z :=
  match rounds with
  | [] => prev_state
  | (net, reading) :: rounds' =>
      ha_report_task cfg rounds' (ha_report_tick cfg net prev_state reading)
  end.

(** A reporter configured with an access token of 192 characters (the
    configuration holds up to 255). *)
Definition long_token_example : string :=
  ("eyJhbGciOiJIUzI1NiIsInR5cCI6IkpXVCJ9."
   ++ "eyJpc3MiOiIwMTIzNDU2Nzg5YWJjZGVmMDEyMzQ1Njc4OWFiY2RlZiIsImlhdCI6MTcwMDAw"
   ++ "MDAwMCwiZXhwIjoyMDE1MzYwMDAwfQ."
   ++ "c2lnbmF0dXJlX3NpZ25hdHVyZV9zaWduYXR1cmVfc2lnbmF0dXJl")%string.

Definition ha_config_long_token : ha_config_s :=
  Build_ha_config "192.168.1.100" 8123 long_token_example 500.

(** A world in which the next semaphore wait is interrupted by a signal. *)
Definition world_wait_interrupted : world :=
  Build_world [- EINTR] [] [] 0 12345 [].

(** A world in which a data frame is waiting on the UART. *)
Definition world_with_frame : world :=
  Build_world [] [] [] 0 12345 (build_data_frame 1 150 80 200 40 150).

(** A device whose parser has just completed a basic data frame. *)
Definition dev_holding_frame : mmwave_dev_s :=
  fo_dev (parse_bytes dev_init (build_data_frame 1 150 80 200 40 150)).

(** * Properties *)

Ltac Zify.zify_post_hook ::= Z.to_euclidean_division_equations.

(** Case analysis on the comparisons a goal branches on. *)
Ltac split_tests :=
  repeat match goal with
    | |- context [?a <? ?b] => destruct (Z.ltb_spec a b)
    | |- context [?a =? ?b] => destruct (Z.eqb_spec a b)
    | |- context [?a >? ?b] => rewrite (Z.gtb_ltb a b)
    | |- context [?a >=? ?b] => rewrite (Z.geb_leb a b)
    | |- context [?a <=? ?b] => destruct (Z.leb_spec a b)
    end.

Ltac step_done :=
  repeat split;
  try (left; reflexivity); try (right; reflexivity);
  repeat constructor; try lia.

Section Parser_step.

Variable d : mmwave_dev_s.
Variable b : Z.
Hypothesis Hinv : parser_inv d.

Lemma parse_byte_facts :
  parser_inv (po_dev (mmwave_parse_byte d b))
  /\ Forall in_rxbuf (po_stores (mmwave_parse_byte d b))
  /\ (po_ret (mmwave_parse_byte d b) = 0 \/ po_ret (mmwave_parse_byte d b) = 1)
  /\ 10 * po_ret (mmwave_parse_byte d b) + rxpos (po_dev (mmwave_parse_byte d b))
     <= rxpos d + 1.
Proof using Hinv.
  revert Hinv. destruct d as [dt ed em dv buf pos st fl s1 s2 s3 fo fe ct].
  unfold parser_inv, mmwave_parse_byte, push_byte, parser_reset, in_rxbuf,
    LD2410_MAX_FRAME_LEN, u8, u16; cbn [parse_state rxpos frame_len].
  destruct st; cbn -[Z.mul Z.add Z.modulo le32 rd wr memmove_window]; intros H.
  - destruct (Z.ltb_spec pos 4); [|lia].
    cbn -[Z.mul Z.add Z.modulo le32 rd wr memmove_window].
    destruct (Z.eqb_spec ((pos + 1) mod 256) 4).
    + destruct (is_frame_header _);
        cbn -[Z.mul Z.add Z.modulo le32 rd wr memmove_window];
        step_done.
    + cbn -[Z.mul Z.add Z.modulo le32 rd wr memmove_window].
      step_done.
  - destruct (Z.eqb_spec ((pos + 1) mod 256) 6).
    + cbn -[Z.mul Z.add Z.modulo le32 rd wr memmove_window Z.lor Z.shiftl].
      set (len := Z.lor _ _ mod 65536).
      rewrite Z.gtb_ltb.
      destruct (Z.ltb_spec (64 - 10) len);
        cbn -[Z.mul Z.add Z.modulo le32 rd wr memmove_window Z.lor Z.shiftl];
        step_done.
    + cbn -[Z.mul Z.add Z.modulo le32 rd wr memmove_window].
      step_done.
  - rewrite Z.geb_leb.
    destruct (Z.leb_spec (6 + fl + 4) ((pos + 1) mod 256)).
    + destruct (tail_ok _ _);
        cbn -[Z.mul Z.add Z.modulo le32 rd wr memmove_window];
        step_done.
    + cbn -[Z.mul Z.add Z.modulo le32 rd wr memmove_window].
      step_done.
  - contradiction.
Qed.

End Parser_step.

(** ** The parser over a whole byte sequence *)

Lemma feed_bytes_cons (d : mmwave_dev_s) (b : Z) (bs : list Z) :
  feed_bytes d (b :: bs)
  = po_ret (mmwave_parse_byte d b) + feed_bytes (po_dev (mmwave_parse_byte d b)) bs.
Proof. reflexivity. Qed.

Lemma parse_bytes_facts (bs : list Z) :
  forall d : mmwave_dev_s,
    parser_inv d ->
    parser_inv (fo_dev (parse_bytes d bs))
    /\ Forall in_rxbuf (fo_stores (parse_bytes d bs))
    /\ 0 <= feed_bytes d bs
    /\ 10 * feed_bytes d bs + rxpos (fo_dev (parse_bytes d bs))
       <= rxpos d + Z.of_nat (length bs).
Proof.
  induction bs as [|b bs IH]; intros d Hd.
  - cbn. unfold feed_bytes; cbn. repeat split; try constructor; try lia; exact Hd.
  - destruct (parse_byte_facts d b Hd) as (Hi & Hs & Hr & Hc).
    destruct (IH _ Hi) as (Hi' & Hs' & Hn' & Hc').
    rewrite feed_bytes_cons. cbn [parse_bytes fo_dev fo_stores length].
    repeat split.
    + exact Hi'.
    + apply Forall_app; split; assumption.
    + lia.
    + lia.
Qed.

Lemma dev_init_inv : parser_inv dev_init.
Proof. unfold parser_inv; cbn; lia. Qed.

Lemma parser_inv_start (priv : mmwave_dev_s) :
  parse_state priv = PARSE_HEADER -> rxpos priv = 0 -> parser_inv priv.
Proof. unfold parser_inv; intros -> ->; lia. Qed.

(** C1. Whatever bytes are fed, one at a time, to a parser that starts in
    [PARSE_HEADER] at position 0, every store into the 64-byte [rxbuf]
    has an index below 64; and whenever a payload is awaited its length
    passed the guard, so that the last position of the frame,
    [6 + frame_len + 4], is at most 64 and the write position is below it. *)
Theorem rxbuf_stores_in_bounds (priv : mmwave_dev_s) (bs : list Z) :
  parse_state priv = PARSE_HEADER ->
  rxpos priv = 0 ->
  Forall (fun i => 0 <= i < 64) (fo_stores (parse_bytes priv bs))
  /\ (parse_state (fo_dev (parse_bytes priv bs)) = PARSE_PAYLOAD ->
      frame_len (fo_dev (parse_bytes priv bs)) <= 54
      /\ rxpos (fo_dev (parse_bytes priv bs))
         < 6 + frame_len (fo_dev (parse_bytes priv bs)) + 4 <= 64).
Proof.
  intros Hs Hp.
  destruct (parse_bytes_facts bs priv (parser_inv_start _ Hs Hp))
    as (Hi & Hst & _).
  split; [exact Hst|].
  intros Hpay. unfold parser_inv in Hi. rewrite Hpay in Hi. lia.
Qed.

Lemma rxbuf_stores_in_bounds_witness :
  Forall (fun i => 0 <= i < 64)
    (fo_stores (parse_bytes dev_init
       (build_data_frame 1 150 80 200 40 150 ++ [0xF1; 0xF2; 0xF3; 0xF4; 54; 0; 7])))
  /\ (parse_state (fo_dev (parse_bytes dev_init
       (build_data_frame 1 150 80 200 40 150 ++ [0xF1; 0xF2; 0xF3; 0xF4; 54; 0; 7])))
      = PARSE_PAYLOAD ->
      frame_len (fo_dev (parse_bytes dev_init
       (build_data_frame 1 150 80 200 40 150 ++ [0xF1; 0xF2; 0xF3; 0xF4; 54; 0; 7])))
      <= 54
      /\ rxpos (fo_dev (parse_bytes dev_init
       (build_data_frame 1 150 80 200 40 150 ++ [0xF1; 0xF2; 0xF3; 0xF4; 54; 0; 7])))
         < 6 + frame_len (fo_dev (parse_bytes dev_init
       (build_data_frame 1 150 80 200 40 150 ++ [0xF1; 0xF2; 0xF3; 0xF4; 54; 0; 7])))
           + 4 <= 64).
Proof.
  apply (rxbuf_stores_in_bounds dev_init
           (build_data_frame 1 150 80 200 40 150 ++ [0xF1; 0xF2; 0xF3; 0xF4; 54; 0; 7]));
    reflexivity.
Defined.

(** The shortest frame the parser completes: a data frame with an empty
    payload, 4 + 2 + 0 + 4 = 10 bytes. *)
Example empty_frame_completes :
  feed_bytes dev_init (frame_of Data_family []) = 1
  /\ length (frame_of Data_family []) = 10%nat.
Proof. split; reflexivity. Qed.

(** C5, as stated, fails: the ten bytes [F1 F2 F3 F4 00 00 F5 F6 F7 F8]
    give one Complete event, and 10 / 14 = 0. *)
Lemma complete_events_bound_14_fails :
  ~ (feed_bytes dev_init (frame_of Data_family [])
     <= Z.of_nat (length (frame_of Data_family [])) / 14).
Proof. vm_compute. intros H; apply H; reflexivity. Qed.

(** C5, amended. For every byte sequence fed to a freshly initialised
    parser the number of Complete events is at most the length of the
    sequence divided by 10, the length of a frame with an empty payload. *)
Theorem complete_events_bound (bs : list Z) :
  feed_bytes dev_init bs <= Z.of_nat (length bs) / 10.
Proof.
  destruct (parse_bytes_facts bs dev_init dev_init_inv) as (Hi & _ & Hn & Hc).
  assert (0 <= rxpos (fo_dev (parse_bytes dev_init bs))).
  { unfold parser_inv in Hi.
    destruct (parse_state (fo_dev (parse_bytes dev_init bs))); lia. }
  change (rxpos dev_init) with 0 in Hc.
  apply Z.div_le_lower_bound; lia.
Qed.

(** ** Bytes and little-endian words *)

Lemma land_shiftl_disjoint (x y n : Z) :
  0 <= n -> 0 <= x < 2 ^ n -> Z.land x (Z.shiftl y n) = 0.
Proof.
  intros Hn Hx. apply Z.bits_inj'; intros k Hk.
  rewrite Z.land_spec, Z.bits_0.
  destruct (Z.lt_ge_cases k n) as [Hlt|Hge].
  - rewrite (Z.shiftl_spec_low y n k Hlt). apply andb_false_r.
  - rewrite <- (Z.mod_small x (2 ^ n) Hx).
    rewrite Z.mod_pow2_bits_high by lia. reflexivity.
Qed.

Lemma lor_shiftl_add (x y n : Z) :
  0 <= n -> 0 <= x < 2 ^ n -> Z.lor x (Z.shiftl y n) = x + y * 2 ^ n.
Proof.
  intros Hn Hx.
  rewrite <- Z.lxor_lor by (apply land_shiftl_disjoint; assumption).
  rewrite <- Z.add_nocarry_lxor by (apply land_shiftl_disjoint; assumption).
  rewrite Z.shiftl_mul_pow2 by assumption. reflexivity.
Qed.

Lemma le32_word (a b c d : Z) :
  is_byte a -> is_byte b -> is_byte c -> is_byte d ->
  Z.lor (Z.lor (Z.lor a (Z.shiftl b 8)) (Z.shiftl c 16)) (Z.shiftl d 24)
  = a + 256 * b + 65536 * c + 16777216 * d.
Proof.
  unfold is_byte; intros Ha Hb Hc Hd.
  rewrite (lor_shiftl_add a b 8) by lia.
  rewrite (lor_shiftl_add _ c 16) by lia.
  rewrite (lor_shiftl_add _ d 24) by lia.
  lia.
Qed.

Lemma header_test_window (a b c d : Z) (rest : list Z) :
  is_byte a -> is_byte b -> is_byte c -> is_byte d ->
  is_frame_header (le32 (a :: b :: c :: d :: rest) 0) = window_is_header a b c d.
Proof.
  intros Ha Hb Hc Hd.
  change (le32 (a :: b :: c :: d :: rest) 0)
    with (Z.lor (Z.lor (Z.lor a (Z.shiftl b 8)) (Z.shiftl c 16)) (Z.shiftl d 24)).
  rewrite le32_word by assumption.
  unfold is_frame_header, window_is_header, LD2410_DATA_HEADER, LD2410_CMD_HEADER,
    is_byte in *.
  split_tests; try reflexivity; cbn; lia.
Qed.

Lemma lo8_small (n : Z) : 0 <= n < 256 -> lo8 n = n.
Proof.
  intros Hn. unfold lo8. change 0xFF with (Z.ones 8).
  rewrite Z.land_ones by lia. apply Z.mod_small. lia.
Qed.

Lemma hi8_small (n : Z) : 0 <= n < 256 -> hi8 n = 0.
Proof.
  intros Hn. unfold hi8. rewrite Z.shiftr_div_pow2 by lia.
  rewrite Z.div_small by lia. reflexivity.
Qed.

(** ** Reading the receive buffer *)

Lemma rd_is_byte (buf : list Z) (i : Z) : Forall is_byte buf -> is_byte (rd buf i).
Proof.
  intros H. unfold rd.
  destruct (buf !! Z.to_nat i) as [x|] eqn:E; cbn.
  - exact (proj1 (Forall_lookup _ _) H _ _ E).
  - unfold is_byte; lia.
Qed.

Lemma wr_length (buf : list Z) (i v : Z) : length (wr buf i v) = length buf.
Proof. apply length_insert. Qed.

Lemma wr_is_byte (buf : list Z) (i v : Z) :
  Forall is_byte buf -> is_byte v -> Forall is_byte (wr buf i v).
Proof. intros; apply Forall_insert; assumption. Qed.

Lemma rd_take (buf : list Z) (n : nat) (i : Z) :
  (Z.to_nat i < n)%nat -> rd (take n buf) i = rd buf i.
Proof. intros H. unfold rd. rewrite lookup_take_lt by exact H. reflexivity. Qed.

Lemma rd_app_r (pre post : list Z) (k : Z) :
  0 <= k -> rd (pre ++ post) (Z.of_nat (length pre) + k) = rd post k.
Proof.
  intros Hk. unfold rd.
  rewrite lookup_app_r by lia.
  replace (Z.to_nat (Z.of_nat (length pre) + k) - length pre)%nat
    with (Z.to_nat k) by lia.
  reflexivity.
Qed.

Lemma take_wr_next (buf : list Z) (n : nat) (v : Z) :
  (n < length buf)%nat ->
  take (S n) (wr buf (Z.of_nat n) v) = take n buf ++ [v].
Proof.
  intros Hn. unfold wr. rewrite Nat2Z.id.
  rewrite (take_S_r _ n v) by (apply list_lookup_insert_eq; exact Hn).
  rewrite take_insert_ge by lia. reflexivity.
Qed.

(** ** The buffer stays a 64-byte array *)

Lemma memmove_window_length (buf : list Z) :
  length (memmove_window buf) = length buf.
Proof. unfold memmove_window. rewrite !wr_length. reflexivity. Qed.

Lemma memmove_window_is_byte (buf : list Z) :
  Forall is_byte buf -> Forall is_byte (memmove_window buf).
Proof.
  intros H. unfold memmove_window.
  repeat (apply wr_is_byte || apply rd_is_byte || assumption).
Qed.

Lemma parse_byte_rxbuf (d : mmwave_dev_s) (b : Z) :
  let buf' := rxbuf (po_dev (mmwave_parse_byte d b)) in
  buf' = rxbuf d
  \/ buf' = wr (rxbuf d) (rxpos d) b
  \/ buf' = memmove_window (wr (rxbuf d) (rxpos d) b)
  \/ buf' = memmove_window (rxbuf d).
Proof.
  destruct d as [dt ed em dv buf pos st fl s1 s2 s3 fo fe ct].
  unfold mmwave_parse_byte, push_byte, parser_reset.
  cbn [parse_state rxpos rxbuf].
  destruct st;
    repeat match goal with
      | |- context [if ?c then _ else _] => destruct c
      end;
    cbn [po_dev rxbuf set_rxpos set_rxbuf set_parse_state set_frame_len
         set_frames_ok set_frames_err rxpos parse_state frame_len];
    auto.
Qed.

Lemma parse_byte_buf_inv (d : mmwave_dev_s) (b : Z) :
  buf_inv d -> is_byte b -> buf_inv (po_dev (mmwave_parse_byte d b)).
Proof.
  intros [Hl Hb] Hbyte. unfold buf_inv.
  destruct (parse_byte_rxbuf d b) as [E|[E|[E|E]]]; rewrite E.
  - split; assumption.
  - split; [rewrite wr_length; exact Hl | apply wr_is_byte; assumption].
  - split.
    + rewrite memmove_window_length, wr_length. exact Hl.
    + apply memmove_window_is_byte, wr_is_byte; assumption.
  - split.
    + rewrite memmove_window_length. exact Hl.
    + apply memmove_window_is_byte; assumption.
Qed.

Lemma parse_bytes_buf_inv (bs : list Z) :
  forall d : mmwave_dev_s,
    buf_inv d -> Forall is_byte bs -> buf_inv (fo_dev (parse_bytes d bs)).
Proof.
  induction bs as [|b bs IH]; intros d Hd Hbs; [exact Hd|].
  inversion Hbs; subst. cbn [parse_bytes fo_dev].
  apply IH; [apply parse_byte_buf_inv|]; assumption.
Qed.

Lemma dev_init_buf_inv : buf_inv dev_init.
Proof.
  split; [reflexivity|].
  apply Forall_forall. intros x Hx.
  apply elem_of_replicate in Hx as [-> _]. unfold is_byte; lia.
Qed.

Lemma parse_bytes_app (xs ys : list Z) :
  forall d : mmwave_dev_s,
    fo_dev (parse_bytes d (xs ++ ys))
    = fo_dev (parse_bytes (fo_dev (parse_bytes d xs)) ys)
    /\ fo_rets (parse_bytes d (xs ++ ys))
       = fo_rets (parse_bytes d xs)
         ++ fo_rets (parse_bytes (fo_dev (parse_bytes d xs)) ys).
Proof.
  induction xs as [|x xs IH]; intros d; [split; reflexivity|].
  cbn [app parse_bytes fo_dev fo_rets].
  destruct (IH (po_dev (mmwave_parse_byte d x))) as [-> ->].
  split; reflexivity.
Qed.

(** ** Synchronising on the magic *)

Lemma step_header (d : mmwave_dev_s) (b : Z) :
  parse_state d = PARSE_HEADER ->
  0 <= rxpos d <= 3 ->
  po_ret (mmwave_parse_byte d b) = 0
  /\ (parse_state (po_dev (mmwave_parse_byte d b)),
      rxpos (po_dev (mmwave_parse_byte d b)),
      rxbuf (po_dev (mmwave_parse_byte d b)))
     = header_next (rxpos d) (rxbuf d) b.
Proof.
  destruct d as [dt ed em dv buf pos st fl s1 s2 s3 fo fe ct].
  cbn [parse_state rxpos rxbuf]. intros -> Hpos.
  unfold mmwave_parse_byte, header_next, push_byte, u8.
  cbn [parse_state rxpos rxbuf set_rxpos set_rxbuf].
  destruct (Z.ltb_spec pos 4); [|lia].
  cbn [parse_state rxpos rxbuf set_rxpos set_rxbuf].
  destruct (Z.ltb_spec pos 3).
  - destruct (Z.eqb_spec ((pos + 1) mod 256) 4); [lia|].
    cbn. split; [reflexivity|]. f_equal. f_equal. lia.
  - assert (pos = 3) as -> by lia.
    change ((3 + 1) mod 256 =? 4) with true. cbv iota.
    destruct (is_frame_header _); cbn; split; reflexivity.
Qed.

Lemma step_header_known (d : mmwave_dev_s) (b k : Z) (buf : list Z) :
  parse_state d = PARSE_HEADER ->
  rxpos d = k ->
  rxbuf d = buf ->
  0 <= k <= 3 ->
  forall (st' : parse_state_t) (k' : Z) (buf' : list Z),
    header_next k buf b = (st', k', buf') ->
    po_ret (mmwave_parse_byte d b) = 0
    /\ parse_state (po_dev (mmwave_parse_byte d b)) = st'
    /\ rxpos (po_dev (mmwave_parse_byte d b)) = k'
    /\ rxbuf (po_dev (mmwave_parse_byte d b)) = buf'.
Proof.
  intros Hs Hp Hb Hk st' k' buf' E. subst k buf.
  destruct (step_header d b Hs Hk) as [R E'].
  rewrite E in E'. injection E' as -> -> ->. auto.
Qed.

(** Decide [header_next] on a buffer whose first four cells are known. *)
Ltac header_next_eval :=
  lazy beta iota zeta delta
    [header_next wr rd memmove_window insert list_insert lookup list_lookup
     default id Z.to_nat Pos.to_nat Pos.iter_op Nat.add Init.Nat.add Z.add
     Pos.add Pos.succ Z.ltb Z.compare Pos.compare Pos.compare_cont];
  rewrite ?header_test_window by (assumption || (unfold is_byte; lia));
  lazy beta iota zeta delta
    [window_is_header Z.eqb Pos.eqb andb orb id];
  reflexivity.

(** Run the parser over the bytes still to be fed in the goal, one call
    at a time, from a device known by its state, position and buffer. *)
Ltac sync d Hs Hp Hb :=
  match goal with
  | |- context [mmwave_parse_byte d ?b] =>
      let Hs1 := fresh "Hs" in
      let Hp1 := fresh "Hp" in
      let Hb1 := fresh "Hb" in
      edestruct (step_header_known d b _ _ Hs Hp Hb) as (-> & Hs1 & Hp1 & Hb1);
      [lia | header_next_eval |];
      sync (po_dev (mmwave_parse_byte d b)) Hs1 Hp1 Hb1
  | _ => idtac
  end.

Lemma header_sync (f : family) (d : mmwave_dev_s) :
  parse_state d = PARSE_HEADER ->
  0 <= rxpos d <= 3 ->
  buf_inv d ->
  fo_rets (parse_bytes d (magic f)) = [0; 0; 0; 0]
  /\ parse_state (fo_dev (parse_bytes d (magic f))) = PARSE_LENGTH
  /\ rxpos (fo_dev (parse_bytes d (magic f))) = 4
  /\ length (rxbuf (fo_dev (parse_bytes d (magic f)))) = 64%nat
  /\ take 4 (rxbuf (fo_dev (parse_bytes d (magic f)))) = magic f.
Proof.
  intros Hs Hpos [Hlen Hb].
  destruct (rxbuf d) as [|b0 [|b1 [|b2 [|b3 rest]]]] eqn:Hbuf;
    try discriminate Hlen.
  apply Forall_cons in Hb as [H0 Hb]. apply Forall_cons in Hb as [H1 Hb].
  apply Forall_cons in Hb as [H2 Hb]. apply Forall_cons in Hb as [H3 Hb].
  assert (Hcase : rxpos d = 0 \/ rxpos d = 1 \/ rxpos d = 2 \/ rxpos d = 3) by lia.
  destruct f; cbn [magic parse_bytes fo_rets fo_dev];
    destruct Hcase as [Hp | [Hp | [Hp | Hp]]].
  all: sync d Hs Hp Hbuf.
  all: match goal with
       | Hst : parse_state ?x = PARSE_LENGTH, Hps : rxpos ?x = _,
         Hbf : rxbuf ?x = _ |- _ =>
           rewrite Hst, Hps, !Hbf
       end.
  all: cbn in Hlen |- *; repeat split; try reflexivity; exact Hlen.
Qed.

(** ** Length, payload and terminator *)

Lemma rd_wr_same (buf : list Z) (i v : Z) :
  (Z.to_nat i < length buf)%nat -> rd (wr buf i v) i = v.
Proof.
  intros H. unfold rd, wr. rewrite list_lookup_insert_eq by exact H. reflexivity.
Qed.

Lemma rd_wr_other (buf : list Z) (i j v : Z) :
  0 <= i -> 0 <= j -> i <> j -> rd (wr buf i v) j = rd buf j.
Proof.
  intros Hi Hj Hne. unfold rd, wr.
  rewrite list_lookup_insert_ne by lia. reflexivity.
Qed.

Lemma step_length_first (d : mmwave_dev_s) (b : Z) :
  parse_state d = PARSE_LENGTH ->
  rxpos d = 4 ->
  mmwave_parse_byte d b = Build_parse_out (push_byte d b) 0 [4].
Proof.
  destruct d as [dt ed em dv buf pos st fl s1 s2 s3 fo fe ct].
  cbn [parse_state rxpos]. intros -> ->. reflexivity.
Qed.

Lemma step_length_second (d : mmwave_dev_s) (b : Z) :
  parse_state d = PARSE_LENGTH ->
  rxpos d = 5 ->
  u16 (Z.lor (rd (wr (rxbuf d) 5 b) 4) (Z.shiftl (rd (wr (rxbuf d) 5 b) 5) 8)) <= 54 ->
  mmwave_parse_byte d b
  = Build_parse_out
      (set_parse_state PARSE_PAYLOAD
         (set_frame_len
            (u16 (Z.lor (rd (wr (rxbuf d) 5 b) 4)
                        (Z.shiftl (rd (wr (rxbuf d) 5 b) 5) 8)))
            (push_byte d b)))
      0 [5].
Proof.
  destruct d as [dt ed em dv buf pos st fl s1 s2 s3 fo fe ct].
  cbn [parse_state rxpos rxbuf]. intros -> -> Hlen.
  unfold mmwave_parse_byte, push_byte.
  cbn [parse_state rxpos rxbuf set_rxpos set_rxbuf set_frame_len frame_len].
  change (u8 (5 + 1) =? 6) with true. cbv iota.
  unfold LD2410_MAX_FRAME_LEN. rewrite Z.gtb_ltb.
  destruct (Z.ltb_spec (64 - 10) (u16 (Z.lor (rd (wr buf 5 b) 4)
                                        (Z.shiftl (rd (wr buf 5 b) 5) 8)))).
  - lia.
  - reflexivity.
Qed.

Lemma step_payload_more (d : mmwave_dev_s) (b : Z) :
  parse_state d = PARSE_PAYLOAD ->
  0 <= rxpos d < 255 ->
  rxpos d + 1 < 6 + frame_len d + 4 ->
  mmwave_parse_byte d b = Build_parse_out (push_byte d b) 0 [rxpos d].
Proof.
  destruct d as [dt ed em dv buf pos st fl s1 s2 s3 fo fe ct].
  cbn [parse_state rxpos rxbuf frame_len]. intros -> Hpos Hlt.
  unfold mmwave_parse_byte, push_byte, u8.
  cbn [parse_state rxpos rxbuf set_rxpos set_rxbuf frame_len].
  rewrite Z.geb_leb.
  destruct (Z.leb_spec (6 + fl + 4) ((pos + 1) mod 256)); [lia|reflexivity].
Qed.

Lemma step_payload_last (d : mmwave_dev_s) (b : Z) :
  parse_state d = PARSE_PAYLOAD ->
  0 <= frame_len d <= 54 ->
  rxpos d + 1 = 6 + frame_len d + 4 ->
  tail_ok (le32 (wr (rxbuf d) (rxpos d) b) 0)
          (le32 (wr (rxbuf d) (rxpos d) b) (6 + frame_len d)) = true ->
  mmwave_parse_byte d b
  = Build_parse_out
      (parser_reset (set_frames_ok (u32 (frames_ok d + 1)) (push_byte d b)))
      1 [rxpos d].
Proof.
  destruct d as [dt ed em dv buf pos st fl s1 s2 s3 fo fe ct].
  cbn [parse_state rxpos rxbuf frame_len]. intros -> Hfl Hpos Htail.
  unfold mmwave_parse_byte, push_byte, u8, u16.
  cbn [parse_state rxpos rxbuf set_rxpos set_rxbuf frame_len frames_ok].
  rewrite Z.geb_leb.
  destruct (Z.leb_spec (6 + fl + 4) ((pos + 1) mod 256)); [|lia].
  rewrite (Z.mod_small (6 + fl)) by lia.
  rewrite Htail. reflexivity.
Qed.

(** While the payload and the first bytes of the terminator arrive the
    parser only stores them, one after the other. *)
Lemma payload_fill (bs : list Z) :
  forall d : mmwave_dev_s,
    parse_state d = PARSE_PAYLOAD ->
    0 <= frame_len d <= 54 ->
    6 <= rxpos d ->
    rxpos d + Z.of_nat (length bs) < 6 + frame_len d + 4 ->
    length (rxbuf d) = 64%nat ->
    fo_rets (parse_bytes d bs) = replicate (length bs) 0
    /\ parse_state (fo_dev (parse_bytes d bs)) = PARSE_PAYLOAD
    /\ frame_len (fo_dev (parse_bytes d bs)) = frame_len d
    /\ frames_ok (fo_dev (parse_bytes d bs)) = frames_ok d
    /\ rxpos (fo_dev (parse_bytes d bs)) = rxpos d + Z.of_nat (length bs)
    /\ length (rxbuf (fo_dev (parse_bytes d bs))) = 64%nat
    /\ take (Z.to_nat (rxpos d) + length bs) (rxbuf (fo_dev (parse_bytes d bs)))
       = take (Z.to_nat (rxpos d)) (rxbuf d) ++ bs.
Proof.
  induction bs as [|b bs IH]; intros d Hs Hfl Hlo Hhi Hlen.
  - cbn [parse_bytes fo_rets fo_dev length replicate].
    rewrite Nat.add_0_r, app_nil_r, Z.add_0_r. auto 10.
  - cbn [length] in Hhi. cbn [parse_bytes fo_rets fo_dev length replicate].
    rewrite step_payload_more by (assumption || lia).
    cbn [po_dev po_ret].
    assert (Hpos' : rxpos (push_byte d b) = rxpos d + 1).
    { unfold push_byte, u8. destruct d; cbn in *. apply Z.mod_small. lia. }
    assert (Hbuf' : rxbuf (push_byte d b) = wr (rxbuf d) (rxpos d) b).
    { destruct d; reflexivity. }
    destruct (IH (push_byte d b)) as (Hr & Hst & Hf & Hok & Hp & Hl & Ht).
    + destruct d; exact Hs.
    + destruct d; exact Hfl.
    + lia.
    + rewrite Hpos'. destruct d; cbn in *. lia.
    + rewrite Hbuf', wr_length. exact Hlen.
    + rewrite Hr, Hst, Hf, Hok, Hp, Hl, Hpos'.
      repeat split; try (destruct d; reflexivity); try lia.
      replace (Z.to_nat (rxpos d) + S (length bs))%nat
        with (Z.to_nat (rxpos d + 1) + length bs)%nat by lia.
      rewrite <- Hpos', Ht, Hbuf', Hpos'.
      replace (Z.to_nat (rxpos d + 1)) with (S (Z.to_nat (rxpos d))) by lia.
      replace (rxpos d) with (Z.of_nat (Z.to_nat (rxpos d))) at 2 by lia.
      rewrite take_wr_next by lia.
      rewrite <- app_assoc. reflexivity.
Qed.

Lemma length_phase (d : mmwave_dev_s) (len : Z) :
  parse_state d = PARSE_LENGTH ->
  rxpos d = 4 ->
  length (rxbuf d) = 64%nat ->
  0 <= len <= 54 ->
  fo_rets (parse_bytes d [lo8 len; hi8 len]) = [0; 0]
  /\ parse_state (fo_dev (parse_bytes d [lo8 len; hi8 len])) = PARSE_PAYLOAD
  /\ rxpos (fo_dev (parse_bytes d [lo8 len; hi8 len])) = 6
  /\ frame_len (fo_dev (parse_bytes d [lo8 len; hi8 len])) = len
  /\ length (rxbuf (fo_dev (parse_bytes d [lo8 len; hi8 len]))) = 64%nat
  /\ take 6 (rxbuf (fo_dev (parse_bytes d [lo8 len; hi8 len])))
     = take 4 (rxbuf d) ++ [lo8 len; hi8 len].
Proof.
  intros Hs Hp Hlen Hl.
  rewrite lo8_small, hi8_small by lia.
  cbn [parse_bytes fo_rets fo_dev].
  rewrite step_length_first by assumption. cbn [po_dev po_ret].
  assert (Hs1 : parse_state (push_byte d len) = PARSE_LENGTH)
    by (destruct d; exact Hs).
  assert (Hp1 : rxpos (push_byte d len) = 5)
    by (destruct d; cbn in *; subst; reflexivity).
  assert (Hb1 : rxbuf (push_byte d len) = wr (rxbuf d) 4 len)
    by (destruct d; cbn in *; subst; reflexivity).
  assert (Hword :
    u16 (Z.lor (rd (wr (rxbuf (push_byte d len)) 5 0) 4)
               (Z.shiftl (rd (wr (rxbuf (push_byte d len)) 5 0) 5) 8)) = len).
  { rewrite Hb1.
    rewrite rd_wr_other, rd_wr_same by (rewrite ?wr_length; lia).
    rewrite rd_wr_same by (rewrite ?wr_length; lia).
    rewrite Z.shiftl_0_l, Z.lor_0_r. unfold u16. apply Z.mod_small. lia. }
  rewrite step_length_second by (assumption || (rewrite Hword; lia)).
  rewrite Hword. cbn [po_dev po_ret].
  repeat split.
  - destruct d; cbn in *; subst; reflexivity.
  - destruct d; cbn in *. rewrite !wr_length. exact Hlen.
  - replace (rxbuf _) with (wr (wr (rxbuf d) 4 len) 5 0)
      by (destruct d; cbn in *; subst; reflexivity).
    rewrite (take_wr_next _ 5) by (rewrite wr_length; lia).
    rewrite (take_wr_next _ 4) by lia.
    rewrite <- app_assoc. reflexivity.
Qed.

Lemma le32_take (buf : list Z) (n : nat) (o : Z) :
  0 <= o -> (Z.to_nat o + 3 < n)%nat -> le32 (take n buf) o = le32 buf o.
Proof.
  intros Ho Hn. unfold le32. rewrite !rd_take by lia. reflexivity.
Qed.

Lemma le32_app_r (pre post : list Z) :
  le32 (pre ++ post) (Z.of_nat (length pre)) = le32 post 0.
Proof.
  unfold le32.
  rewrite <- (Z.add_0_r (Z.of_nat (length pre))) at 1.
  rewrite !rd_app_r by lia. reflexivity.
Qed.

Lemma tail_ok_family (f : family) (rest : list Z) :
  tail_ok (le32 (magic f ++ rest) 0) (le32 (terminator f) 0) = true.
Proof. destruct f; reflexivity. Qed.

(** A whole frame fed to a parser that is seeking a header, whatever its
    window holds, is completed at its last byte. *)
Lemma frame_completes (f : family) (payload : list Z) (d : mmwave_dev_s) :
  parse_state d = PARSE_HEADER ->
  0 <= rxpos d <= 3 ->
  buf_inv d ->
  (length payload <= 54)%nat ->
  fo_rets (parse_bytes d (frame_of f payload))
  = replicate (9 + length payload) 0 ++ [1]
  /\ take (10 + length payload) (rxbuf (fo_dev (parse_bytes d (frame_of f payload))))
     = frame_of f payload
  /\ frame_len (fo_dev (parse_bytes d (frame_of f payload)))
     = Z.of_nat (length payload)
  /\ parse_state (fo_dev (parse_bytes d (frame_of f payload))) = PARSE_HEADER
  /\ rxpos (fo_dev (parse_bytes d (frame_of f payload))) = 0.
Proof.
  intros Hs Hpos Hbuf Hlen.
  set (len := Z.of_nat (length payload)).
  assert (Hterm : exists t3 ts, terminator f = ts ++ [t3] /\ length ts = 3%nat).
  { destruct f; [exists 0xF8, [0xF5; 0xF6; 0xF7] | exists 0x04, [0x01; 0x02; 0x03]];
      split; reflexivity. }
  destruct Hterm as (t3 & ts & Hts & Hts3).
  assert (Hshape : frame_of f payload
                   = magic f ++ [lo8 len; hi8 len] ++ (payload ++ ts) ++ [t3]).
  { unfold frame_of. fold len. rewrite Hts, <- !app_assoc. reflexivity. }
  rewrite Hshape.
  destruct (header_sync f d Hs Hpos Hbuf) as (Ra & Sa & Pa & La & Ta).
  set (da := fo_dev (parse_bytes d (magic f))) in *.
  destruct (length_phase da len Sa Pa La ltac:(lia)) as (Rb & Sb & Pb & Fb & Lb & Tb).
  set (db := fo_dev (parse_bytes da [lo8 len; hi8 len])) in *.
  destruct (payload_fill (payload ++ ts) db Sb ltac:(lia) ltac:(lia))
    as (Rc & Sc & Fc & _ & Pc & Lc & Tc);
    [rewrite Pb, Fb, length_app, Hts3; lia | exact Lb |].
  set (dc := fo_dev (parse_bytes db (payload ++ ts))) in *.
  rewrite Pb, Fb in *. change (Z.to_nat 6) with 6%nat in Tc.
  rewrite Tb, Ta in Tc.
  rewrite length_app, Hts3 in Pc, Tc, Rc.
  assert (Hfinal : take (10 + length payload) (wr (rxbuf dc) (rxpos dc) t3)
                   = magic f ++ [lo8 len; hi8 len] ++ (payload ++ ts) ++ [t3]).
  { replace (10 + length payload)%nat with (S (9 + length payload)) by lia.
    replace (rxpos dc) with (Z.of_nat (9 + length payload)) by lia.
    rewrite take_wr_next by lia.
    replace (9 + length payload)%nat
      with (6 + (length payload + 3))%nat by lia.
    rewrite Tc, <- !app_assoc. reflexivity. }
  assert (Hlast : mmwave_parse_byte dc t3
                  = Build_parse_out
                      (parser_reset
                         (set_frames_ok (u32 (frames_ok dc + 1)) (push_byte dc t3)))
                      1 [rxpos dc]).
  { apply step_payload_last; try assumption; try lia.
    rewrite <- (le32_take _ (10 + length payload) 0) by lia.
    rewrite <- (le32_take _ (10 + length payload) (6 + frame_len dc)) by lia.
    rewrite Hfinal, Fc.
    replace (magic f ++ [lo8 len; hi8 len] ++ (payload ++ ts) ++ [t3])
      with ((magic f ++ [lo8 len; hi8 len] ++ payload) ++ terminator f) at 2
      by (rewrite Hts, <- !app_assoc; reflexivity).
    replace (6 + len) with
      (Z.of_nat (length (magic f ++ [lo8 len; hi8 len] ++ payload)))
      by (rewrite !length_app; destruct f; cbn [magic length]; lia).
    rewrite le32_app_r. apply tail_ok_family. }
  destruct (parse_bytes_app (magic f) ([lo8 len; hi8 len] ++ (payload ++ ts) ++ [t3]) d)
    as [-> ->].
  fold da.
  destruct (parse_bytes_app [lo8 len; hi8 len] ((payload ++ ts) ++ [t3]) da)
    as [-> ->].
  fold db.
  destruct (parse_bytes_app (payload ++ ts) [t3] db) as [-> ->].
  fold dc.
  change (parse_bytes dc [t3])
    with (Build_feed_out (po_dev (mmwave_parse_byte dc t3))
            [po_ret (mmwave_parse_byte dc t3)]
            (po_stores (mmwave_parse_byte dc t3) ++ [])).
  cbn [fo_rets fo_dev]. rewrite Hlast. cbn [po_dev po_ret].
  rewrite Ra, Rb, Rc.
  repeat split.
  - change [0; 0; 0; 0] with (replicate 4 0). change [0; 0] with (replicate 2 0).
    rewrite !app_assoc, <- !replicate_add.
    do 2 f_equal. lia.
  - replace (rxbuf _) with (wr (rxbuf dc) (rxpos dc) t3)
      by (destruct dc; reflexivity).
    exact Hfinal.
  - destruct dc; cbn in *; congruence.
Qed.

(** C6, as stated, fails: a prefix that ends in a frame magic makes the
    parser take the first bytes of the frame for a length; here the four
    bytes [F1 F2 F3 F4] before a valid data frame leave no Complete event
    at all, while the frame alone gives one. *)
Lemma prefix_can_swallow_frame :
  feed_bytes dev_init (build_data_frame 1 150 80 200 40 150) = 1
  /\ Forall (fun r => r = 0)
       (fo_rets (parse_bytes dev_init
          ([0xF1; 0xF2; 0xF3; 0xF4] ++ build_data_frame 1 150 80 200 40 150))).
Proof. split; [reflexivity|]. vm_compute. repeat constructor. Qed.

(** C6, amended. For every valid frame (either family, payload of at most
    54 bytes) and every prefix of bytes after which the parser is seeking
    a header, feeding the prefix and then the frame to a fresh parser gives
    the events of the prefix, then no event until the last byte of the
    frame, then Complete; and the buffer then holds the frame. *)
Theorem frame_after_prefix_completes
    (f : family) (payload prefix : list Z) :
  Forall is_byte prefix ->
  (length payload <= 54)%nat ->
  parse_state (fo_dev (parse_bytes dev_init prefix)) = PARSE_HEADER ->
  fo_rets (parse_bytes dev_init (prefix ++ frame_of f payload))
  = fo_rets (parse_bytes dev_init prefix)
    ++ replicate (9 + length payload) 0 ++ [1]
  /\ take (10 + length payload)
       (rxbuf (fo_dev (parse_bytes dev_init (prefix ++ frame_of f payload))))
     = frame_of f payload.
Proof.
  intros Hbytes Hlen Hseek.
  destruct (parse_bytes_app prefix (frame_of f payload) dev_init) as [-> ->].
  destruct (parse_bytes_facts prefix dev_init dev_init_inv) as (Hinv & _).
  pose proof (parse_bytes_buf_inv prefix dev_init dev_init_buf_inv Hbytes) as Hbuf.
  unfold parser_inv in Hinv. rewrite Hseek in Hinv.
  destruct (frame_completes f payload _ Hseek Hinv Hbuf Hlen) as (-> & -> & _).
  split; reflexivity.
Qed.

Lemma frame_after_prefix_completes_witness :
  fo_rets (parse_bytes dev_init
     ([0xDE; 0xAD; 0xBE; 0xEF; 0x00; 0x11; 0x22; 0x33]
      ++ frame_of Data_family [0x02; 0xAA; 1; 150; 0; 80; 0; 0; 0; 150; 0]))
  = fo_rets (parse_bytes dev_init [0xDE; 0xAD; 0xBE; 0xEF; 0x00; 0x11; 0x22; 0x33])
    ++ replicate (9 + 11) 0 ++ [1]
  /\ take (10 + 11)
       (rxbuf (fo_dev (parse_bytes dev_init
          ([0xDE; 0xAD; 0xBE; 0xEF; 0x00; 0x11; 0x22; 0x33]
           ++ frame_of Data_family [0x02; 0xAA; 1; 150; 0; 80; 0; 0; 0; 150; 0]))))
     = frame_of Data_family [0x02; 0xAA; 1; 150; 0; 80; 0; 0; 0; 150; 0].
Proof.
  apply (frame_after_prefix_completes Data_family
           [0x02; 0xAA; 1; 150; 0; 80; 0; 0; 0; 150; 0]
           [0xDE; 0xAD; 0xBE; 0xEF; 0x00; 0x11; 0x22; 0x33]).
  - repeat constructor; unfold is_byte; lia.
  - cbn; lia.
  - reflexivity.
Defined.

(** The frames of the documented constructors are frames of this shape. *)
Lemma build_data_frame_shape (ts md me sd se dd : Z) :
  build_data_frame ts md me sd se dd
  = frame_of Data_family
      [0x02; 0xAA; ts; lo8 md; hi8 md; me; lo8 sd; hi8 sd; se; lo8 dd; hi8 dd].
Proof. reflexivity. Qed.

(** ** The data frame decoder *)

(** C3. When the decoder rejects the payload (its type byte is neither
    0x02 nor 0x01, or its head marker is not 0xAA) it returns [-EINVAL] and
    the device is exactly as before: the latest reading, the engineering
    reading, [frames_ok] and [data_valid] keep their values. *)
Theorem rejected_payload_changes_nothing (priv : mmwave_dev_s) (w : world) :
  (payload_at priv 0 <> 0x02 /\ payload_at priv 0 <> 0x01)
  \/ payload_at priv 1 <> 0xAA ->
  fr_ret (mmwave_process_data_frame priv w) = - EINVAL
  /\ fr_dev (mmwave_process_data_frame priv w) = priv
  /\ data (fr_dev (mmwave_process_data_frame priv w)) = data priv
  /\ eng_data (fr_dev (mmwave_process_data_frame priv w)) = eng_data priv
  /\ frames_ok (fr_dev (mmwave_process_data_frame priv w)) = frames_ok priv
  /\ data_valid (fr_dev (mmwave_process_data_frame priv w)) = data_valid priv.
Proof.
  intros Hrej.
  assert (E : mmwave_process_data_frame priv w = Build_frame_out (- EINVAL) priv w).
  { unfold mmwave_process_data_frame.
    destruct (Z.eqb_spec (payload_at priv 0) 0x02) as [E2|N2];
      destruct (Z.eqb_spec (payload_at priv 0) 0x01) as [E1|N1];
      cbn [negb andb]; try reflexivity;
      destruct (Z.eqb_spec (payload_at priv 1) 0xAA) as [Ea|Na];
      cbn [negb]; try reflexivity;
      exfalso; destruct Hrej as [[? ?]|?]; congruence. }
  rewrite E. cbn [fr_ret fr_dev]. repeat split.
Qed.

Lemma rejected_payload_changes_nothing_witness :
  fr_ret (mmwave_process_data_frame dev_after_odd_frame world_init) = - EINVAL
  /\ fr_dev (mmwave_process_data_frame dev_after_odd_frame world_init)
     = dev_after_odd_frame
  /\ data (fr_dev (mmwave_process_data_frame dev_after_odd_frame world_init))
     = data dev_after_odd_frame
  /\ eng_data (fr_dev (mmwave_process_data_frame dev_after_odd_frame world_init))
     = eng_data dev_after_odd_frame
  /\ frames_ok (fr_dev (mmwave_process_data_frame dev_after_odd_frame world_init))
     = frames_ok dev_after_odd_frame
  /\ data_valid (fr_dev (mmwave_process_data_frame dev_after_odd_frame world_init))
     = data_valid dev_after_odd_frame.
Proof.
  apply (rejected_payload_changes_nothing dev_after_odd_frame world_init).
  left. split; vm_compute; discriminate.
Defined.

Example dev_after_odd_frame_holds_reading :
  data_valid dev_after_odd_frame = true
  /\ frames_ok dev_after_odd_frame = 2
  /\ data dev_after_odd_frame = Build_data 1 150 80 200 40 150 12345.
Proof. vm_compute. repeat split. Qed.

(** C4, at the input where the code departs from it. With engineering
    mode on, the frame [build_eng_frame] makes for static gate energies
    5, 15, ..., 85 is decoded with every common field and all nine motion
    gate energies as given, but only the first five static gate energies:
    gates 5 to 8 keep what the device held before (here 0). The second
    loop of the decoder runs while [i < frame_len - 24], and the payload the
    constructor documents is 29 bytes long. The same happens when the bytes
    arrive through the poll task. *)
Theorem eng_frame_static_gates_cut :
  let r := parse_and_process dev_eng eng_frame_example world_init in
  fr_ret r = OK
  /\ basic (eng_data (fr_dev r)) = Build_data 2 0 0 300 50 300 12345
  /\ motion_gate_energy (eng_data (fr_dev r)) = [0; 0; 0; 0; 0; 0; 0; 0; 0]
  /\ static_gate_energy (eng_data (fr_dev r)) = [5; 15; 25; 35; 45; 0; 0; 0; 0]
  /\ static_gate_energy (eng_data (fr_dev r)) <> [5; 15; 25; 35; 45; 55; 65; 75; 85]
  /\ static_gate_energy
       (eng_data
          (fst (mmwave_poll 39 dev_eng
                  (Build_world [] [] [] 0 12345 eng_frame_example))))
     = [5; 15; 25; 35; 45; 0; 0; 0; 0].
Proof. vm_compute. repeat split. discriminate. Qed.

(** ** The command channel *)

Lemma parse_byte_keeps_command_state (d : mmwave_dev_s) (b : Z) :
  wait_sem (po_dev (mmwave_parse_byte d b)) = wait_sem d
  /\ cmd_timeouts (po_dev (mmwave_parse_byte d b)) = cmd_timeouts d.
Proof.
  destruct d as [dt ed em dv buf pos st fl s1 s2 s3 fo fe ct].
  unfold mmwave_parse_byte, push_byte, parser_reset.
  cbn [parse_state rxpos rxbuf].
  destruct st;
    repeat match goal with
      | |- context [if ?c then _ else _] => destruct c
      end;
    split; reflexivity.
Qed.

Lemma process_data_frame_keeps_command_state (d : mmwave_dev_s) (w : world) :
  wait_sem (fr_dev (mmwave_process_data_frame d w)) = wait_sem d
  /\ cmd_timeouts (fr_dev (mmwave_process_data_frame d w)) = cmd_timeouts d.
Proof.
  unfold mmwave_process_data_frame.
  destruct (nxsem_wait w) as [ret w1].
  repeat match goal with
    | |- context [if ?c then _ else _] => destruct c
    end;
    destruct d; split; reflexivity.
Qed.

Lemma nxsem_wait_keeps (w : world) :
  rx_pending (snd (nxsem_wait w)) = rx_pending w
  /\ slept_us (snd (nxsem_wait w)) = slept_us w.
Proof. unfold nxsem_wait. destruct (sem_results w); split; reflexivity. Qed.

Lemma uart_write_keeps (frame : list Z) (pos : Z) (w : world) :
  rx_pending (snd (uart_write frame pos w)) = rx_pending w
  /\ slept_us (snd (uart_write frame pos w)) = slept_us w.
Proof. unfold uart_write. destruct (write_results w); split; reflexivity. Qed.

(** C2, as stated, fails: with a radar that never answers, a restart
    command sent from a fresh device returns [OK] after a pause of 50 ms,
    not a timeout error after 1 s, and [cmd_timeouts] is not incremented. *)
Lemma send_command_silent_radar_no_timeout :
  let r := mmwave_send_command dev_init LD2410_CMD_RESTART None 0 world_init in
  rx_pending world_init = []
  /\ fr_ret r = OK
  /\ fr_ret r <> - ETIMEDOUT
  /\ slept_us (fr_world r) = 50000
  /\ cmd_timeouts (fr_dev r) = cmd_timeouts dev_init
  /\ cmd_timeouts (fr_dev r) <> cmd_timeouts dev_init + 1.
Proof. vm_compute. repeat split; discriminate. Qed.

Lemma sem_balance (priv : mmwave_dev_s) :
  set_cmd_sem (cmd_sem (set_cmd_sem (cmd_sem priv - 1) priv) + 1)
    (set_cmd_sem (cmd_sem priv - 1) priv) = priv.
Proof. destruct priv; unfold set_cmd_sem; cbn. f_equal. lia. Qed.

Lemma send_command_untouched
    (priv : mmwave_dev_s) (cmd : Z) (data : option (list Z)) (datalen : Z)
    (w : world) :
  let r := mmwave_send_command priv cmd data datalen w in
  (fr_ret r = - EINVAL \/ fr_ret r = fst (nxsem_wait w)
   \/ fr_ret r = - EIO \/ fr_ret r = OK)
  /\ cmd_timeouts (fr_dev r) = cmd_timeouts priv
  /\ wait_sem (fr_dev r) = wait_sem priv
  /\ rx_pending (fr_world r) = rx_pending w
  /\ slept_us (fr_world r)
     = (if fr_ret r =? OK then slept_us w + 50000 else slept_us w)
  /\ cmd_timeouts (fst (mmwave_poll_step priv w)) = cmd_timeouts priv
  /\ wait_sem (fst (mmwave_poll_step priv w)) = wait_sem priv.
Proof.
  cbv zeta. split; [|split; [|split; [|split; [|split]]]].
  6: { unfold mmwave_poll_step.
       destruct (rx_pending w) as [|byte rest]; [split; reflexivity|].
       destruct (parse_byte_keeps_command_state priv byte) as [Hw Hc].
       destruct (negb _); cbn [fst]; [|split; assumption].
       match goal with
       | |- context [mmwave_process_data_frame ?d ?w'] =>
           destruct (process_data_frame_keeps_command_state d w') as [Hw' Hc']
       end.
       split; congruence. }
  all: unfold mmwave_send_command.
  all: destruct (u16 _ >? LD2410_MAX_FRAME_LEN); cbn [fr_ret fr_dev fr_world];
    [first [reflexivity | auto] |].
  all: pose proof (nxsem_wait_keeps w) as (Hrx1 & Hsl1).
  all: destruct (nxsem_wait w) as [ret w1]; cbn [fst snd] in *.
  all: destruct (Z.ltb_spec ret 0); cbn [fr_ret fr_dev fr_world];
    [first [ destruct (Z.eqb_spec ret OK); [unfold OK in *; lia | assumption]
           | assumption | reflexivity | auto ] |].
  all: match goal with
       | |- context [uart_write ?fr ?pos ?w'] =>
           pose proof (uart_write_keeps fr pos w') as (Hrx2 & Hsl2);
           destruct (uart_write fr pos w') as [written w2]
       end; cbn [fst snd] in *.
  all: destruct (negb _); cbn [fr_ret fr_dev fr_world].
  all: try (destruct priv; reflexivity).
  all: try (cbn; congruence).
  all: auto.
  all: unfold usleep; cbn [slept_us rx_pending];
    try change (- EIO =? OK) with false; try change (OK =? OK) with true;
    cbv iota; congruence.
Qed.

Lemma send_command_outcomes
    (priv : mmwave_dev_s) (cmd : Z) (data : option (list Z)) (datalen : Z)
    (w : world) :
  send_command_defined data datalen ->
  let r := mmwave_send_command priv cmd data datalen w in
  let F := build_cmd_frame cmd data datalen in
  let n := Z.of_nat (length F) in
  (LD2410_MAX_FRAME_LEN < u16 (4 + 2 + u16 (2 + datalen) + 4)
   /\ r = Build_frame_out (- EINVAL) priv w)
  \/ (u16 (4 + 2 + u16 (2 + datalen) + 4) <= LD2410_MAX_FRAME_LEN
      /\ fst (nxsem_wait w) < 0
      /\ r = Build_frame_out (fst (nxsem_wait w)) priv (snd (nxsem_wait w)))
  \/ (u16 (4 + 2 + u16 (2 + datalen) + 4) <= LD2410_MAX_FRAME_LEN
      /\ 0 <= fst (nxsem_wait w)
      /\ fr_dev r = priv
      /\ tx_log (fr_world r) = tx_log w ++ [F]
      /\ ((write_result_at w 0 n = n
           /\ fr_ret r = OK
           /\ slept_us (fr_world r) = slept_us w + 50000)
          \/ (write_result_at w 0 n <> n
              /\ fr_ret r = - EIO
              /\ slept_us (fr_world r) = slept_us w))).
Proof.
  intros [Hrange Hdef]. cbv zeta.
  unfold mmwave_send_command. rewrite Z.gtb_ltb.
  destruct (Z.ltb_spec LD2410_MAX_FRAME_LEN (u16 (4 + 2 + u16 (2 + datalen) + 4)))
    as [Hlong|Hfit]; [left; split; [exact Hlong | reflexivity]|].
  right. specialize (Hdef Hfit).
  assert (Hw : tx_log (snd (nxsem_wait w)) = tx_log w
               /\ write_results (snd (nxsem_wait w)) = write_results w
               /\ slept_us (snd (nxsem_wait w)) = slept_us w)
    by (unfold nxsem_wait; destruct (sem_results w); repeat split).
  destruct (nxsem_wait w) as [ret w1]. cbn [fst snd] in *.
  destruct Hw as (Htx & Hwr & Hsl).
  destruct (Z.ltb_spec ret 0) as [Hneg|Hpos];
    [left; split; [exact Hfit | split; [exact Hneg | reflexivity]]|].
  right. split; [exact Hfit|]. split; [exact Hpos|].
  assert (Hpos' : match data with
                  | Some _ => if datalen >? 0 then 8 + datalen + 4 else 8 + 4
                  | None => 8 + 4
                  end
                  = Z.of_nat (length (build_cmd_frame cmd data datalen))).
  { unfold build_cmd_frame. rewrite length_app. cbn [length].
    destruct data as [bytes|]; [|reflexivity].
    rewrite Z.gtb_ltb. destruct (Z.ltb_spec 0 datalen) as [Hd|Hd];
      [|reflexivity].
    destruct (Hdef Hd) as [_ Hlen].
    rewrite length_app, length_take. cbn [length]. lia. }
  rewrite Hpos'.
  change ([250; 251; 252; 253; lo8 (u16 (2 + datalen)); hi8 (u16 (2 + datalen));
           lo8 cmd; hi8 cmd]
          ++ match data with
             | Some d => if datalen >? 0 then take (Z.to_nat datalen) d else []
             | None => []
             end ++ [1; 2; 3; 4])
    with (build_cmd_frame cmd data datalen).
  set (F := build_cmd_frame cmd data datalen).
  set (n := Z.of_nat (length F)).
  unfold uart_write, write_result_at. rewrite Hwr.
  destruct (write_results w) as [|r0 rs]; cbn [lookup list_lookup default].
  - rewrite Z.eqb_refl. cbn [negb fr_dev fr_world fr_ret].
    unfold usleep; cbn [tx_log slept_us].
    split; [apply sem_balance|]. split; [now rewrite Htx|].
    left. repeat split. lia.
  - change (default None (Some r0)) with r0.
    destruct (Z.eqb_spec (default n r0) n) as [E|E];
      cbn [negb fr_dev fr_world fr_ret]; unfold usleep; cbn [tx_log slept_us];
      (split; [apply sem_balance|]); (split; [now rewrite Htx|]).
    + left. repeat split; [exact E | lia].
    + right. repeat split; [exact E | exact Hsl].
Qed.

(** C2, amended. The send operation does not wait for a response. For
    every call that stays inside its buffers the outcome is one of three. A
    frame over 64 bytes: [-EINVAL], nothing done. A failed semaphore wait:
    the error of the wait, nothing written. Otherwise exactly one frame, the
    one [build_cmd_frame] makes, is handed to [write], and the result is
    [OK] after one pause of 50 ms when [write] reports the whole frame,
    [-EIO] without a pause when it does not. [-ETIMEDOUT] comes back only
    when the semaphore wait itself fails with it, never for a missing
    response. The operation reads nothing of what the radar sent, never
    touches the wait semaphore and never changes [cmd_timeouts]; nor does
    an iteration of the poll task touch either of the two. *)
Theorem send_command_never_waits
    (priv : mmwave_dev_s) (cmd : Z) (data : option (list Z)) (datalen : Z)
    (w : world) :
  send_command_defined data datalen ->
  let r := mmwave_send_command priv cmd data datalen w in
  let F := build_cmd_frame cmd data datalen in
  let n := Z.of_nat (length F) in
  ((LD2410_MAX_FRAME_LEN < u16 (4 + 2 + u16 (2 + datalen) + 4)
    /\ r = Build_frame_out (- EINVAL) priv w)
   \/ (u16 (4 + 2 + u16 (2 + datalen) + 4) <= LD2410_MAX_FRAME_LEN
       /\ fst (nxsem_wait w) < 0
       /\ r = Build_frame_out (fst (nxsem_wait w)) priv (snd (nxsem_wait w)))
   \/ (u16 (4 + 2 + u16 (2 + datalen) + 4) <= LD2410_MAX_FRAME_LEN
       /\ 0 <= fst (nxsem_wait w)
       /\ fr_dev r = priv
       /\ tx_log (fr_world r) = tx_log w ++ [F]
       /\ ((write_result_at w 0 n = n
            /\ fr_ret r = OK
            /\ slept_us (fr_world r) = slept_us w + 50000)
           \/ (write_result_at w 0 n <> n
               /\ fr_ret r = - EIO
               /\ slept_us (fr_world r) = slept_us w))))
  /\ (fr_ret r = - ETIMEDOUT -> fst (nxsem_wait w) = - ETIMEDOUT)
  /\ cmd_timeouts (fr_dev r) = cmd_timeouts priv
  /\ wait_sem (fr_dev r) = wait_sem priv
  /\ rx_pending (fr_world r) = rx_pending w
  /\ slept_us (fr_world r)
     = (if fr_ret r =? OK then slept_us w + 50000 else slept_us w)
  /\ cmd_timeouts (fst (mmwave_poll_step priv w)) = cmd_timeouts priv
  /\ wait_sem (fst (mmwave_poll_step priv w)) = wait_sem priv.
Proof.
  intros Hdef. cbv zeta.
  pose proof (send_command_outcomes priv cmd data datalen w Hdef) as Hout.
  cbv zeta in Hout.
  destruct (send_command_untouched priv cmd data datalen w)
    as (_ & Hct & Hws & Hrx & Hsl & Hpc & Hpw).
  split; [exact Hout|]. split; [|auto 10].
  intros Hto.
  destruct Hout as [[_ E] | [(_ & _ & E) | (_ & _ & _ & _ & [(_ & E & _) | (_ & E & _)])]].
  - rewrite E in Hto. cbn [fr_ret] in Hto. discriminate Hto.
  - rewrite E in Hto. cbn [fr_ret] in Hto. exact Hto.
  - rewrite E in Hto. discriminate Hto.
  - rewrite E in Hto. discriminate Hto.
Qed.

Lemma send_command_never_waits_witness :
  let r := mmwave_send_command dev_init LD2410_CMD_RESTART None 0 world_init in
  fr_ret r = OK
  /\ tx_log (fr_world r) = [build_cmd_frame LD2410_CMD_RESTART None 0]
  /\ slept_us (fr_world r) = 50000
  /\ cmd_timeouts (fr_dev r) = cmd_timeouts dev_init.
Proof.
  assert (Hdef : send_command_defined None 0)
    by (split; [lia | intros _; exact I]).
  destruct (send_command_never_waits dev_init LD2410_CMD_RESTART None 0 world_init
              Hdef)
    as ([[Hlong _] | [(_ & Hneg & _) | (_ & _ & _ & Htx & [(_ & Hok & Hsl) | (Hne & _)])]]
        & _ & Hct & _).
  - vm_compute in Hlong. discriminate Hlong.
  - vm_compute in Hneg. discriminate Hneg.
  - cbv zeta. repeat split; assumption.
  - exfalso. apply Hne. reflexivity.
Defined.

(** One command in a world whose semaphores are always acquired: the frame
    of [build_cmd_frame] is handed to [write], and the result is that of
    the write alone. *)
Lemma send_command_quiet (priv : mmwave_dev_s) (cmd : Z)
    (data : option (list Z)) (datalen : Z) (w : world) :
  sem_results w = [] ->
  u16 (4 + 2 + u16 (2 + datalen) + 4) <= LD2410_MAX_FRAME_LEN ->
  let pos :=
    match data with
    | Some _ => if datalen >? 0 then 8 + datalen + 4 else 8 + 4
    | None => 8 + 4
    end in
  let r := mmwave_send_command priv cmd data datalen w in
  fr_ret r = (if write_result_at w 0 pos =? pos then OK else - EIO)
  /\ tx_log (fr_world r) = tx_log w ++ [build_cmd_frame cmd data datalen]
  /\ sem_results (fr_world r) = []
  /\ write_results (fr_world r) = tail (write_results w).
Proof.
  intros Hsem Hfit. cbv zeta.
  unfold mmwave_send_command, nxsem_wait, uart_write, write_result_at.
  rewrite Hsem. rewrite Z.gtb_ltb.
  destruct (Z.ltb_spec LD2410_MAX_FRAME_LEN (u16 (4 + 2 + u16 (2 + datalen) + 4)));
    [lia|].
  change (0 <? 0) with false. cbv iota.
  destruct (write_results w) as [|r0 rs]; cbn [lookup list_lookup tail].
  - change (default _ (default None None)) with
      (match data with
       | Some _ => if datalen >? 0 then 8 + datalen + 4 else 8 + 4
       | None => 8 + 4
       end).
    rewrite Z.eqb_refl. cbn [negb fr_ret fr_world].
    unfold usleep; cbn [tx_log sem_results write_results]. auto.
  - change (default None (Some r0)) with r0.
    destruct (default _ r0 =? _); cbn [negb fr_ret fr_world];
      unfold usleep; cbn [tx_log sem_results write_results]; auto.
Qed.

Lemma write_result_at_tail (w w' : world) (i : nat) (count : Z) :
  write_results w' = tail (write_results w) ->
  write_result_at w' i count = write_result_at w (S i) count.
Proof.
  intros E. unfold write_result_at. rewrite E, lookup_tail. reflexivity.
Qed.

(** C7, as stated, fails. When enter and the command succeed and the write
    of exit fails, the restart request returns [OK], not the error of
    exit, which is the first error of the three; and when enter fails,
    neither the command nor exit is sent. *)
Lemma exit_error_is_not_returned :
  let e := mmwave_enter_config dev_init world_exit_fails in
  let c := mmwave_send_command (fr_dev e) LD2410_CMD_RESTART None 0 (fr_world e) in
  let x := mmwave_exit_config (fr_dev c) (fr_world c) in
  first_error (fr_ret e) (fr_ret c) (fr_ret x) = - EIO
  /\ io_ret (mmwave_ioctl (Some dev_init) MMWAVE_IOC_RESTART world_exit_fails) = OK
  /\ io_ret (mmwave_ioctl (Some dev_init) MMWAVE_IOC_RESTART world_exit_fails)
     <> first_error (fr_ret e) (fr_ret c) (fr_ret x)
  /\ tx_log (io_world
       (mmwave_ioctl (Some dev_init) MMWAVE_IOC_RESTART world_enter_fails))
     = [enter_frame].
Proof. vm_compute. repeat split. discriminate. Qed.

(** C7, amended. Every configuration operation whose arguments pass the
    check of the driver sends enter_config first. When that fails the
    operation returns its error and sends nothing more. Otherwise it sends
    the command, then exit_config whatever the command did, and returns
    the result of the command: the result of exit_config is ignored. In a
    world where the semaphores are always acquired this reads: the result
    is [-EIO] when the first or the second write is incomplete and [OK]
    otherwise, and the frames written are enter alone, or enter, command,
    exit. *)
Theorem config_request_runs_bracket
    (priv : mmwave_dev_s) (req : ioctl_req) (w : world) :
  is_config_req req = true ->
  passes_validation req = true ->
  mmwave_ioctl (Some priv) req w = config_bracket priv req w
  /\ (sem_results w = [] ->
      let r := mmwave_ioctl (Some priv) req w in
      let n := 12 + req_datalen req in
      io_ret r
      = (if write_result_at w 0 14 =? 14
         then if write_result_at w 1 n =? n then OK else - EIO
         else - EIO)
      /\ tx_log (io_world r)
         = tx_log w
           ++ (if write_result_at w 0 14 =? 14
               then [enter_frame; req_frame req; exit_frame]
               else [enter_frame])).
Proof.
  intros Hcfg Hval.
  assert (Hbr : mmwave_ioctl (Some priv) req w = config_bracket priv req w).
  { unfold mmwave_ioctl, config_bracket.
    destruct req as [sens|mg|enable| | |other]; try discriminate Hcfg;
      cbn [req_cmd req_data req_datalen];
      try reflexivity.
    - cbn [passes_validation] in Hval. rewrite Z.geb_leb.
      destruct (Z.leb_spec LD2410_MAX_GATES (gate sens)); [|reflexivity].
      apply Z.ltb_lt in Hval. lia.
    - cbv zeta.
      destruct (fr_ret (mmwave_enter_config priv w) <? 0); [reflexivity|].
      destruct (int_of_ulong enable =? 0); reflexivity. }
  split; [exact Hbr|].
  intros Hsem. cbv zeta. rewrite Hbr. unfold config_bracket, enter_failed, after_exit.
  destruct (send_command_quiet priv LD2410_CMD_ENABLE_CONFIG (Some [0x01; 0x00]) 2 w
              Hsem ltac:(vm_compute; discriminate)) as (Re & Te & Se & We).
  fold (mmwave_enter_config priv w) in Re, Te, Se, We.
  change (if 2 >? 0 then 8 + 2 + 4 else 8 + 4) with 14 in Re.
  set (e := mmwave_enter_config priv w) in *.
  rewrite Re.
  destruct (write_result_at w 0 14 =? 14).
  2: { change (- EIO <? 0) with true. cbv iota.
       cbn [io_ret io_world]. split; [reflexivity | exact Te]. }
  change (OK <? 0) with false. cbv iota.
  assert (Hfit : u16 (4 + 2 + u16 (2 + req_datalen req) + 4) <= LD2410_MAX_FRAME_LEN)
    by (destruct req; vm_compute; discriminate).
  destruct (send_command_quiet (fr_dev e) (req_cmd req) (req_data req)
              (req_datalen req) (fr_world e) Se Hfit) as (Rc & Tc & Sc & Wc).
  set (c := mmwave_send_command (fr_dev e) (req_cmd req) (req_data req)
              (req_datalen req) (fr_world e)) in *.
  assert (Hpos : match req_data req with
                 | Some _ =>
                     if req_datalen req >? 0 then 8 + req_datalen req + 4 else 8 + 4
                 | None => 8 + 4
                 end = 12 + req_datalen req)
    by (destruct req; reflexivity).
  rewrite Hpos in Rc. rewrite (write_result_at_tail w (fr_world e) 0) in Rc by exact We.
  cbn [io_ret io_world]. split; [exact Rc|].
  match goal with
  | |- context [mmwave_exit_config ?p (fr_world c)] =>
      destruct (send_command_quiet p LD2410_CMD_DISABLE_CONFIG None 0 (fr_world c)
                  Sc ltac:(vm_compute; discriminate)) as (_ & Tx & _ & _);
      fold (mmwave_exit_config p (fr_world c)) in Tx
  end.
  rewrite Tx, Tc, Te, <- !app_assoc. reflexivity.
Qed.

Lemma config_request_runs_bracket_witness :
  mmwave_ioctl (Some dev_init)
    (MMWAVE_IOC_SET_SENSITIVITY (Build_sens 3 40 30)) world_exit_fails
  = config_bracket dev_init
      (MMWAVE_IOC_SET_SENSITIVITY (Build_sens 3 40 30)) world_exit_fails
  /\ io_ret (mmwave_ioctl (Some dev_init)
               (MMWAVE_IOC_SET_SENSITIVITY (Build_sens 3 40 30)) world_exit_fails)
     = OK
  /\ tx_log (io_world (mmwave_ioctl (Some dev_init)
               (MMWAVE_IOC_SET_SENSITIVITY (Build_sens 3 40 30)) world_exit_fails))
     = [enter_frame;
        req_frame (MMWAVE_IOC_SET_SENSITIVITY (Build_sens 3 40 30));
        exit_frame].
Proof.
  destruct (config_request_runs_bracket dev_init
              (MMWAVE_IOC_SET_SENSITIVITY (Build_sens 3 40 30)) world_exit_fails
              eq_refl eq_refl) as [Hbr Htrace].
  split; [exact Hbr | exact (Htrace eq_refl)].
Defined.

(** The check the driver does make: a sensitivity request for a gate
    above 8 is refused and nothing is sent. *)
Lemma sensitivity_gate_out_of_range (priv : mmwave_dev_s)
    (sens : mmwave_sensitivity_s) (w : world) :
  gate sens > 8 ->
  mmwave_ioctl (Some priv) (MMWAVE_IOC_SET_SENSITIVITY sens) w
  = Build_ioctl_out (- EINVAL) (Some priv) w.
Proof.
  intros Hg. unfold mmwave_ioctl, LD2410_MAX_GATES. rewrite Z.geb_leb.
  destruct (Z.leb_spec 9 (gate sens)); [reflexivity|lia].
Qed.

(** C8, at inputs where the code departs from it. A sensitivity request
    with gate 0 and thresholds 101 and 255, and a max-gate request with
    gates 9 and 200, are not refused: each returns [OK] after enter, the
    command with the out-of-range bytes in it, and exit were written. *)
Theorem out_of_range_arguments_are_sent :
  let s := mmwave_ioctl (Some dev_init)
             (MMWAVE_IOC_SET_SENSITIVITY (Build_sens 0 101 255)) world_init in
  let g := mmwave_ioctl (Some dev_init)
             (MMWAVE_IOC_SET_MAXGATE (Build_maxgate 9 200 5)) world_init in
  io_ret s = OK
  /\ tx_log (io_world s)
     = [enter_frame;
        [0xFA; 0xFB; 0xFC; 0xFD; 20; 0; 0x64; 0;
         0; 0; 0; 0; 0; 0; 1; 0; 101; 0; 0; 0; 2; 0; 255; 0; 0; 0;
         1; 2; 3; 4];
        exit_frame]
  /\ io_ret g = OK
  /\ tx_log (io_world g)
     = [enter_frame;
        [0xFA; 0xFB; 0xFC; 0xFD; 20; 0; 0x60; 0;
         0; 0; 9; 0; 0; 0; 1; 0; 200; 0; 0; 0; 2; 0; 5; 0; 0; 0;
         1; 2; 3; 4];
        exit_frame].
Proof. vm_compute. repeat split. Qed.

(** ** Reading the latest data *)

(** C10, as stated, fails: the wait for the data semaphore comes before
    the test of the buffer size, so when the wait is interrupted the read
    of a short buffer returns the error of the wait, [-EINTR] here, and not
    [-EINVAL]. *)
Lemma read_short_buffer_wait_fails :
  data_valid dev_with_reading = true
  /\ 8 < sizeof_mmwave_data_s abi32
  /\ rd_ret (mmwave_read abi32 (Some dev_with_reading) None 8
               world_wait_interrupted) = - EINTR
  /\ rd_ret (mmwave_read abi32 (Some dev_with_reading) None 8
               world_wait_interrupted) <> - EINVAL.
Proof. vm_compute. repeat split; discriminate. Qed.

(** C10, amended. Once a frame was accepted ([data_valid] is set), a read
    into a buffer smaller than a reading, and so not served with the
    engineering packet either, leaves the buffer as it was and the device
    as it was; it returns [-EINVAL] when the data semaphore is acquired,
    and the error of the wait when the wait for it fails. *)
Theorem read_short_buffer (abi : layout) (priv : mmwave_dev_s)
    (buffer : option packet) (buflen : Z) (w : world) :
  data_valid priv = true ->
  buflen < sizeof_mmwave_data_s abi ->
  eng_mode priv = false \/ buflen < sizeof_mmwave_eng_data_s abi ->
  rd_ret (mmwave_read abi (Some priv) buffer buflen w)
  = (if fst (nxsem_wait w) <? 0 then fst (nxsem_wait w) else - EINVAL)
  /\ rd_buffer (mmwave_read abi (Some priv) buffer buflen w) = buffer
  /\ rd_dev (mmwave_read abi (Some priv) buffer buflen w) = Some priv.
Proof.
  intros Hvalid Hsmall Heng. unfold mmwave_read. rewrite Hvalid.
  cbn [negb]. destruct (nxsem_wait w) as [ret w1]. cbn [fst].
  destruct (Z.ltb_spec ret 0); [repeat split|].
  rewrite !Z.geb_leb.
  destruct (Z.leb_spec (sizeof_mmwave_data_s abi) buflen); [lia|].
  assert (Hno : eng_mode (set_data_sem (data_sem priv - 1) priv)
                && (sizeof_mmwave_eng_data_s abi <=? buflen) = false).
  { destruct Heng as [He|He].
    - destruct priv; cbn in *. rewrite He. reflexivity.
    - destruct (Z.leb_spec (sizeof_mmwave_eng_data_s abi) buflen); [lia|].
      apply andb_false_r. }
  rewrite Hno. cbn [rd_ret rd_buffer rd_dev].
  repeat split. f_equal. destruct priv; unfold set_data_sem; cbn. f_equal. lia.
Qed.

Lemma read_short_buffer_witness :
  rd_ret (mmwave_read abi32 (Some dev_with_reading) None 8 world_init) = - EINVAL
  /\ rd_buffer (mmwave_read abi32 (Some dev_with_reading) None 8 world_init) = None
  /\ rd_dev (mmwave_read abi32 (Some dev_with_reading) None 8 world_init)
     = Some dev_with_reading.
Proof.
  apply (read_short_buffer abi32 dev_with_reading None 8 world_init).
  - reflexivity.
  - cbn. lia.
  - left. reflexivity.
Defined.

(** ** The reporter *)

(** When the status line itself carries 200 or 201 the post succeeds. *)
Example post_succeeds_on_200 :
  ha_post_state ha_config_example (net_answers "HTTP/1.1 200 OK") reading_motion = OK
  /\ ha_post_state ha_config_example (net_answers "HTTP/1.1 201 Created")
       reading_motion = OK
  /\ ha_post_state ha_config_example (net_answers "HTTP/1.1 404 Not Found")
       reading_motion = - EIO.
Proof. vm_compute. repeat split. Qed.

(** C9, at an input where the code departs from it. The server answers
    with status 500 and a header [Content-Length: 200]. The status does not
    begin with 200 or 201, yet [ha_post_state] returns [OK], because it
    looks for "200" anywhere in the response, and the round of the reporter
    takes the state as published: [prev_state] changes from 0xFF to the
    state read, so the next round does not retry. *)
Theorem non_2xx_response_taken_as_success :
  status_code response_500 = "500"%string
  /\ status_is_200_or_201 response_500 = false
  /\ ha_post_state ha_config_example (net_answers response_500) reading_motion = OK
  /\ ha_report_tick ha_config_example (net_answers response_500) 0xFF
       (Some reading_motion) = target_state reading_motion
  /\ target_state reading_motion <> 0xFF.
Proof. vm_compute. repeat split. discriminate. Qed.

(** ** Round trip through the frame constructors *)

Lemma le16_roundtrip (x : Z) :
  0 <= x < 65536 -> u16 (Z.lor (lo8 x) (Z.shiftl (hi8 x) 8)) = x.
Proof.
  intros Hx. unfold lo8, hi8, u16. change 0xFF with (Z.ones 8).
  rewrite !Z.land_ones by lia. rewrite Z.shiftr_div_pow2 by lia.
  rewrite lor_shiftl_add by lia.
  change (2 ^ 8) with 256. lia.
Qed.

Lemma parse_byte_keeps_reading (d : mmwave_dev_s) (b : Z) :
  data (po_dev (mmwave_parse_byte d b)) = data d
  /\ eng_data (po_dev (mmwave_parse_byte d b)) = eng_data d
  /\ eng_mode (po_dev (mmwave_parse_byte d b)) = eng_mode d
  /\ data_valid (po_dev (mmwave_parse_byte d b)) = data_valid d
  /\ data_sem (po_dev (mmwave_parse_byte d b)) = data_sem d.
Proof.
  destruct d as [dt ed em dv buf pos st fl s1 s2 s3 fo fe ct].
  unfold mmwave_parse_byte, push_byte, parser_reset.
  cbn [parse_state rxpos rxbuf].
  destruct st;
    repeat match goal with
      | |- context [if ?c then _ else _] => destruct c
      end;
    repeat split; reflexivity.
Qed.

Lemma parse_bytes_keeps_reading (bs : list Z) :
  forall d : mmwave_dev_s,
    data (fo_dev (parse_bytes d bs)) = data d
    /\ eng_data (fo_dev (parse_bytes d bs)) = eng_data d
    /\ eng_mode (fo_dev (parse_bytes d bs)) = eng_mode d
    /\ data_valid (fo_dev (parse_bytes d bs)) = data_valid d
    /\ data_sem (fo_dev (parse_bytes d bs)) = data_sem d.
Proof.
  induction bs as [|b bs IH]; intros d; [repeat split; reflexivity|].
  cbn [parse_bytes fo_dev].
  destruct (IH (po_dev (mmwave_parse_byte d b))) as (-> & -> & -> & -> & ->).
  apply parse_byte_keeps_reading.
Qed.

(** Evaluate reads at known offsets of a buffer that starts with known cells. *)
Ltac rd_eval :=
  lazy beta iota zeta delta
    [payload_at rd lookup list_lookup default id app
     Z.to_nat Pos.to_nat Pos.iter_op Nat.add Init.Nat.add Z.add Pos.add Pos.succ
     rxbuf set_rxbuf set_frame_len frame_len
     frame_of magic terminator].

(** The half of C4 the code keeps: decoding the frame [build_data_frame]
    makes gives back every field, for all values of the fields' types. *)
Theorem data_frame_roundtrip (ts md me sd se dd : Z) (w : world) :
  0 <= md < 65536 ->
  0 <= sd < 65536 ->
  0 <= dd < 65536 ->
  sem_results w = [] ->
  let r := parse_and_process dev_init (build_data_frame ts md me sd se dd) w in
  fr_ret r = OK
  /\ data_valid (fr_dev r) = true
  /\ target_state (data (fr_dev r)) = ts
  /\ motion_distance (data (fr_dev r)) = md
  /\ motion_energy (data (fr_dev r)) = me
  /\ static_distance (data (fr_dev r)) = sd
  /\ static_energy (data (fr_dev r)) = se
  /\ detection_distance (data (fr_dev r)) = dd.
Proof.
  intros Hmd Hsd Hdd Hsem. cbv zeta. unfold parse_and_process.
  rewrite build_data_frame_shape.
  set (payload := [0x02; 0xAA; ts; lo8 md; hi8 md; me; lo8 sd; hi8 sd; se;
                   lo8 dd; hi8 dd]).
  destruct (frame_completes Data_family payload dev_init eq_refl
              ltac:(cbn; lia) dev_init_buf_inv ltac:(cbn; lia)) as (Hr & _).
  rewrite Hr, last_snoc.
  set (d := fo_dev (parse_bytes dev_init (frame_of Data_family payload))).
  clearbody d. clear Hr.
  unfold mmwave_process_data_frame, nxsem_wait. rewrite Hsem.
  subst payload. rd_eval.
  change (negb (2 =? 2) && negb (2 =? 1)) with false.
  change (negb (170 =? 170)) with false.
  change (0 <? 0) with false. cbv iota.
  change ((2 =? 1) && _) with false. cbv iota.
  cbn [fr_ret fr_dev data data_valid set_data_sem set_data_valid set_data
       target_state motion_distance motion_energy static_distance
       static_energy detection_distance].
  rewrite !le16_roundtrip by assumption.
  repeat split.
Qed.

Lemma data_frame_roundtrip_witness :
  let r := parse_and_process dev_init
             (build_data_frame 3 65535 100 65535 100 65535) world_init in
  fr_ret r = OK
  /\ data_valid (fr_dev r) = true
  /\ target_state (data (fr_dev r)) = 3
  /\ motion_distance (data (fr_dev r)) = 65535
  /\ motion_energy (data (fr_dev r)) = 100
  /\ static_distance (data (fr_dev r)) = 65535
  /\ static_energy (data (fr_dev r)) = 100
  /\ detection_distance (data (fr_dev r)) = 65535.
Proof.
  apply (data_frame_roundtrip 3 65535 100 65535 100 65535 world_init);
    (lia || reflexivity).
Defined.

(** The decoder on an accepted payload, field by field. *)
Lemma process_data_frame_accepts (p : mmwave_dev_s) (w : world) :
  sem_results w = [] ->
  payload_at p 0 = 0x01 \/ payload_at p 0 = 0x02 ->
  payload_at p 1 = 0xAA ->
  let r := mmwave_process_data_frame p w in
  fr_ret r = OK
  /\ data_valid (fr_dev r) = true
  /\ data (fr_dev r)
     = Build_data
         (payload_at p 2)
         (u16 (Z.lor (payload_at p 3) (Z.shiftl (payload_at p 4) 8)))
         (payload_at p 5)
         (u16 (Z.lor (payload_at p 6) (Z.shiftl (payload_at p 7) 8)))
         (payload_at p 8)
         (u16 (Z.lor (payload_at p 9) (Z.shiftl (payload_at p 10) 8)))
         (u32 (systime_ticks w * (1000 / TICK_PER_SEC)))
  /\ eng_data (fr_dev r)
     = (if (payload_at p 0 =? 0x01) && eng_mode p
        then Build_eng (data (fr_dev r))
               (gate_loop 9 0 (frame_len p - 15) 11 (rxbuf p)
                  (motion_gate_energy (eng_data p)))
               (gate_loop 9 0 (frame_len p - 24) 20 (rxbuf p)
                  (static_gate_energy (eng_data p)))
        else eng_data p).
Proof.
  intros Hsem Htype Hhead. cbv zeta.
  unfold mmwave_process_data_frame, nxsem_wait. rewrite Hsem, Hhead.
  change (negb (170 =? 170)) with false. change (0 <? 0) with false.
  assert (Hty : negb (payload_at p 0 =? 2) && negb (payload_at p 0 =? 1) = false)
    by (destruct Htype as [-> | ->]; reflexivity).
  rewrite Hty. cbv iota.
  destruct p as [dt ed em dv buf pos st fl c1 c2 c3 fo fe ct].
  unfold payload_at.
  cbn [rxbuf eng_mode eng_data frame_len data data_sem set_data_sem set_data
       set_data_valid set_eng_data].
  destruct ((rd buf (6 + 0) =? 1) && em); cbn [fr_ret fr_dev data data_valid
    eng_data set_data_sem]; repeat split.
Qed.

(** What the decoder does with the frame of [build_eng_frame], for all
    field values: with engineering mode on, the common fields and the nine
    motion gate energies come back as given; of the static gate energies
    only gates 0 to 4 do, gates 5 to 8 keep their previous contents. *)
Theorem eng_frame_decoding
    (ts md me sd se dd : Z) (mg sg old_mg old_sg : list Z) (w : world) :
  0 <= md < 65536 ->
  0 <= sd < 65536 ->
  0 <= dd < 65536 ->
  length mg = 9%nat ->
  length sg = 9%nat ->
  length old_mg = 9%nat ->
  length old_sg = 9%nat ->
  sem_results w = [] ->
  let d0 :=
    set_eng_data (Build_eng data_zero old_mg old_sg) (set_eng_mode true dev_init) in
  let r := parse_and_process d0 (build_eng_frame ts md me sd se dd mg sg) w in
  fr_ret r = OK
  /\ target_state (basic (eng_data (fr_dev r))) = ts
  /\ motion_distance (basic (eng_data (fr_dev r))) = md
  /\ motion_energy (basic (eng_data (fr_dev r))) = me
  /\ static_distance (basic (eng_data (fr_dev r))) = sd
  /\ static_energy (basic (eng_data (fr_dev r))) = se
  /\ detection_distance (basic (eng_data (fr_dev r))) = dd
  /\ motion_gate_energy (eng_data (fr_dev r)) = mg
  /\ static_gate_energy (eng_data (fr_dev r)) = take 5 sg ++ drop 5 old_sg.
Proof.
  intros Hmd Hsd Hdd Hmg Hsg Homg Hosg Hsem. cbv zeta.
  destruct mg as [|g0 [|g1 [|g2 [|g3 [|g4 [|g5 [|g6 [|g7 [|g8 [|]]]]]]]]]];
    try discriminate Hmg.
  destruct sg as [|s0 [|s1 [|s2 [|s3 [|s4 [|s5 [|s6 [|s7 [|s8 [|]]]]]]]]]];
    try discriminate Hsg.
  destruct old_mg as [|m0 [|m1 [|m2 [|m3 [|m4 [|m5 [|m6 [|m7 [|m8 [|]]]]]]]]]];
    try discriminate Homg.
  destruct old_sg as [|o0 [|o1 [|o2 [|o3 [|o4 [|o5 [|o6 [|o7 [|o8 [|]]]]]]]]]];
    try discriminate Hosg.
  set (d0 := set_eng_data _ _).
  set (payload := [0x01; 0xAA; ts; lo8 md; hi8 md; me; lo8 sd; hi8 sd; se;
                   lo8 dd; hi8 dd;
                   g0; g1; g2; g3; g4; g5; g6; g7; g8;
                   s0; s1; s2; s3; s4; s5; s6; s7; s8]).
  change (build_eng_frame ts md me sd se dd
            [g0; g1; g2; g3; g4; g5; g6; g7; g8]
            [s0; s1; s2; s3; s4; s5; s6; s7; s8])
    with (frame_of Data_family payload).
  unfold parse_and_process.
  destruct (frame_completes Data_family payload d0 eq_refl
              ltac:(cbn; lia) dev_init_buf_inv ltac:(cbn; lia)) as (Hr & _).
  rewrite Hr, last_snoc.
  destruct (parse_bytes_keeps_reading (frame_of Data_family payload) d0)
    as (_ & Hed & Hem & _ & _).
  set (d := fo_dev (parse_bytes d0 (frame_of Data_family payload))) in *.
  clearbody d. clear Hr.
  set (rest := drop (length (frame_of Data_family payload)) (rxbuf d)).
  set (p := set_frame_len _ _).
  assert (Hbuf : rxbuf p = frame_of Data_family payload ++ rest)
    by (destruct d; reflexivity).
  assert (Hfl : frame_len p = 29) by (destruct d; reflexivity).
  assert (Hem' : eng_mode p = true) by (destruct d; exact Hem).
  assert (Hed' : eng_data p = eng_data d0) by (destruct d; exact Hed).
  assert (Hat : forall i, payload_at p i = rd (frame_of Data_family payload ++ rest) (6 + i))
    by (intros i; unfold payload_at; rewrite Hbuf; reflexivity).
  clearbody p rest.
  destruct (process_data_frame_accepts p w Hsem
              ltac:(left; rewrite Hat; reflexivity)
              ltac:(rewrite Hat; reflexivity)) as (-> & _ & Hd & He).
  rewrite He, Hd, Hem', Hed', Hfl, Hbuf, !Hat.
  change (rd (frame_of Data_family payload ++ rest) (6 + 0) =? 1) with true.
  cbn [andb basic motion_gate_energy static_gate_energy target_state
       motion_distance motion_energy static_distance static_energy
       detection_distance].
  subst payload d0.
  change (rd _ (6 + 2)) with ts.
  change (rd _ (6 + 3)) with (lo8 md). change (rd _ (6 + 4)) with (hi8 md).
  change (rd _ (6 + 5)) with me.
  change (rd _ (6 + 6)) with (lo8 sd). change (rd _ (6 + 7)) with (hi8 sd).
  change (rd _ (6 + 8)) with se.
  change (rd _ (6 + 9)) with (lo8 dd). change (rd _ (6 + 10)) with (hi8 dd).
  rewrite !le16_roundtrip by assumption.
  do 7 (split; [reflexivity|]).
  split; reflexivity.
Qed.

(** * Further properties of the driver *)

(** ** Counters of the parser *)

Lemma parse_byte_ret_counts (d : mmwave_dev_s) (b : Z) :
  (po_ret (mmwave_parse_byte d b) = 0
   /\ frames_ok (po_dev (mmwave_parse_byte d b)) = frames_ok d)
  \/ (po_ret (mmwave_parse_byte d b) = 1
      /\ frames_ok (po_dev (mmwave_parse_byte d b)) = u32 (frames_ok d + 1)
      /\ frames_err (po_dev (mmwave_parse_byte d b)) = frames_err d).
Proof.
  destruct d as [dt ed em dv buf pos st fl s1 s2 s3 fo fe ct].
  unfold mmwave_parse_byte, push_byte, parser_reset.
  cbn [parse_state rxpos rxbuf].
  destruct st;
    repeat match goal with
      | |- context [if ?c then _ else _] => destruct c
      end;
    cbn [po_ret po_dev frames_ok frames_err set_rxpos set_rxbuf set_parse_state
         set_frame_len set_frames_ok set_frames_err];
    auto.
Qed.

Lemma parse_bytes_counts (bs : list Z) :
  forall d : mmwave_dev_s,
    u32_range (frames_ok d) ->
    frames_ok (fo_dev (parse_bytes d bs)) = u32 (frames_ok d + feed_bytes d bs)
    /\ 0 <= feed_bytes d bs <= Z.of_nat (length bs).
Proof.
  unfold u32_range, u32.
  induction bs as [|b bs IH]; intros d Hd.
  - cbn [parse_bytes fo_dev length]. unfold feed_bytes; cbn.
    rewrite Z.add_0_r, Z.mod_small by lia. lia.
  - rewrite feed_bytes_cons. cbn [parse_bytes fo_dev length].
    destruct (parse_byte_ret_counts d b) as [[Hr Hok] | (Hr & Hok & _)].
    + destruct (IH (po_dev (mmwave_parse_byte d b))) as [E Hn];
        [rewrite Hok; exact Hd|].
      rewrite E, Hok, Hr. split; [f_equal|]; lia.
    + destruct (IH (po_dev (mmwave_parse_byte d b))) as [E Hn].
      * rewrite Hok. unfold u32. apply Z.mod_pos_bound. lia.
      * rewrite E, Hok, Hr. unfold u32. split; [|lia].
        rewrite Z.add_mod_idemp_l by lia. f_equal. lia.
Qed.

(** [frames_ok] counts the Complete events: after any byte sequence it is
    the count before plus the number of calls that returned 1, in 32-bit
    arithmetic. *)
Theorem frames_ok_counts_completes (bs : list Z) (d : mmwave_dev_s) :
  u32_range (frames_ok d) ->
  frames_ok (fo_dev (parse_bytes d bs)) = u32 (frames_ok d + feed_bytes d bs)
  /\ 0 <= feed_bytes d bs <= Z.of_nat (length bs).
Proof. exact (parse_bytes_counts bs d). Qed.

Lemma frames_ok_counts_completes_witness :
  frames_ok (fo_dev (parse_bytes dev_init
     (build_data_frame 1 150 80 200 40 150 ++ build_data_frame 0 0 0 0 0 0)))
  = u32 (frames_ok dev_init
         + feed_bytes dev_init
             (build_data_frame 1 150 80 200 40 150 ++ build_data_frame 0 0 0 0 0 0))
  /\ 0 <= feed_bytes dev_init
            (build_data_frame 1 150 80 200 40 150 ++ build_data_frame 0 0 0 0 0 0)
     <= Z.of_nat (length
            (build_data_frame 1 150 80 200 40 150 ++ build_data_frame 0 0 0 0 0 0)).
Proof.
  apply (frames_ok_counts_completes
           (build_data_frame 1 150 80 200 40 150 ++ build_data_frame 0 0 0 0 0 0)
           dev_init).
  unfold u32_range. cbn. lia.
Defined.

(** ** Bytes that cannot end a magic *)

Lemma step_header_counters (d : mmwave_dev_s) (b : Z) :
  parse_state d = PARSE_HEADER ->
  frames_ok (po_dev (mmwave_parse_byte d b)) = frames_ok d
  /\ frames_err (po_dev (mmwave_parse_byte d b)) = frames_err d.
Proof.
  destruct d as [dt ed em dv buf pos st fl s1 s2 s3 fo fe ct].
  cbn [parse_state]. intros ->.
  unfold mmwave_parse_byte, push_byte.
  cbn [parse_state rxpos rxbuf].
  repeat match goal with
    | |- context [if ?c then _ else _] => destruct c
    end;
    split; reflexivity.
Qed.

Lemma probe_misses (buf : list Z) (b : Z) :
  length buf = 64%nat ->
  Forall is_byte buf ->
  is_byte b ->
  not_magic_end b ->
  is_frame_header (le32 (wr buf 3 b) 0) = false.
Proof.
  intros Hlen Hb Hbyte [N1 N2].
  destruct buf as [|b0 [|b1 [|b2 [|b3 rest]]]]; try discriminate Hlen.
  apply Forall_cons in Hb as [H0 Hb]. apply Forall_cons in Hb as [H1 Hb].
  apply Forall_cons in Hb as [H2 Hb].
  change (wr (b0 :: b1 :: b2 :: b3 :: rest) 3 b) with (b0 :: b1 :: b2 :: b :: rest).
  rewrite header_test_window by assumption.
  unfold window_is_header.
  destruct (Z.eqb_spec b 0xF4); [contradiction|].
  destruct (Z.eqb_spec b 0xFD); [contradiction|].
  reflexivity.
Qed.

Lemma step_seeking (d : mmwave_dev_s) (b : Z) :
  seeking d ->
  buf_inv d ->
  is_byte b ->
  not_magic_end b ->
  po_ret (mmwave_parse_byte d b) = 0
  /\ seeking (po_dev (mmwave_parse_byte d b)).
Proof.
  intros [Hs Hp] [Hlen Hb] Hbyte Hne.
  destruct (step_header d b Hs Hp) as [Hr E].
  split; [exact Hr|].
  unfold header_next in E.
  destruct (Z.ltb_spec (rxpos d) 3).
  - injection E as Es Ep _. split; [exact Es | lia].
  - assert (rxpos d = 3) as Hp3 by lia. rewrite Hp3 in E.
    rewrite probe_misses in E by assumption.
    injection E as Es Ep _. split; [exact Es | lia].
Qed.

Lemma seeking_run (bs : list Z) :
  forall d : mmwave_dev_s,
    seeking d ->
    buf_inv d ->
    Forall is_byte bs ->
    Forall not_magic_end bs ->
    fo_rets (parse_bytes d bs) = replicate (length bs) 0
    /\ seeking (fo_dev (parse_bytes d bs))
    /\ buf_inv (fo_dev (parse_bytes d bs))
    /\ frames_ok (fo_dev (parse_bytes d bs)) = frames_ok d
    /\ frames_err (fo_dev (parse_bytes d bs)) = frames_err d.
Proof.
  induction bs as [|b bs IH]; intros d Hseek Hbuf Hbytes Hne.
  - cbn. auto.
  - apply Forall_cons in Hbytes as [Hb Hbytes].
    apply Forall_cons in Hne as [Hn Hne].
    destruct (step_seeking d b Hseek Hbuf Hb Hn) as [Hr Hseek'].
    destruct (step_header_counters d b (proj1 Hseek)) as [Hok Herr].
    pose proof (parse_byte_buf_inv d b Hbuf Hb) as Hbuf'.
    destruct (IH _ Hseek' Hbuf' Hbytes Hne) as (Rs & Sk & Bi & Fo & Fe).
    cbn [parse_bytes fo_rets fo_dev length replicate].
    rewrite Hr, Rs, Fo, Fe, Hok, Herr. auto.
Qed.

Lemma dev_init_seeking : seeking dev_init.
Proof. split; [reflexivity | cbn; lia]. Qed.

(** Bytes among which none is 0xF4 or 0xFD (the last byte of either
    magic) never make a seeking parser leave its search: no call returns
    1, the parser is still seeking afterwards, and neither counter moves. *)
Theorem garbage_keeps_seeking (bs : list Z) (d : mmwave_dev_s) :
  seeking d ->
  buf_inv d ->
  Forall is_byte bs ->
  Forall not_magic_end bs ->
  fo_rets (parse_bytes d bs) = replicate (length bs) 0
  /\ seeking (fo_dev (parse_bytes d bs))
  /\ buf_inv (fo_dev (parse_bytes d bs))
  /\ frames_ok (fo_dev (parse_bytes d bs)) = frames_ok d
  /\ frames_err (fo_dev (parse_bytes d bs)) = frames_err d.
Proof. exact (seeking_run bs d). Qed.

Lemma garbage_keeps_seeking_witness :
  fo_rets (parse_bytes dev_init [0xDE; 0xAD; 0xBE; 0xEF; 0x00; 0x11; 0x22; 0x33])
  = replicate (length [0xDE; 0xAD; 0xBE; 0xEF; 0x00; 0x11; 0x22; 0x33]) 0
  /\ seeking (fo_dev (parse_bytes dev_init
                [0xDE; 0xAD; 0xBE; 0xEF; 0x00; 0x11; 0x22; 0x33]))
  /\ buf_inv (fo_dev (parse_bytes dev_init
                [0xDE; 0xAD; 0xBE; 0xEF; 0x00; 0x11; 0x22; 0x33]))
  /\ frames_ok (fo_dev (parse_bytes dev_init
                  [0xDE; 0xAD; 0xBE; 0xEF; 0x00; 0x11; 0x22; 0x33]))
     = frames_ok dev_init
  /\ frames_err (fo_dev (parse_bytes dev_init
                   [0xDE; 0xAD; 0xBE; 0xEF; 0x00; 0x11; 0x22; 0x33]))
     = frames_err dev_init.
Proof.
  apply (garbage_keeps_seeking [0xDE; 0xAD; 0xBE; 0xEF; 0x00; 0x11; 0x22; 0x33]
           dev_init dev_init_seeking dev_init_buf_inv).
  - repeat constructor; unfold is_byte; lia.
  - repeat constructor; unfold not_magic_end; lia.
Defined.

(** ** A frame, phase by phase, with the counters *)

Lemma header_sync_counters (f : family) (d : mmwave_dev_s) :
  seeking d ->
  buf_inv d ->
  frames_ok (fo_dev (parse_bytes d (magic f))) = frames_ok d
  /\ frames_err (fo_dev (parse_bytes d (magic f))) = frames_err d.
Proof.
  intros Hseek Hbuf.
  assert (Hsplit : exists m3 ms, magic f = ms ++ [m3]
                                 /\ Forall is_byte ms /\ Forall not_magic_end ms).
  { destruct f; [exists 0xF4, [0xF1; 0xF2; 0xF3] | exists 0xFD, [0xFA; 0xFB; 0xFC]];
      (split; [reflexivity|]); split; repeat constructor;
      unfold is_byte, not_magic_end; lia. }
  destruct Hsplit as (m3 & ms & -> & Hb & Hn).
  destruct (parse_bytes_app ms [m3] d) as [-> _].
  destruct (seeking_run ms d Hseek Hbuf Hb Hn) as (_ & [Hs _] & _ & Fo & Fe).
  cbn [parse_bytes fo_dev].
  destruct (step_header_counters _ m3 Hs) as [-> ->]. auto.
Qed.

Lemma length_phase_counters (d : mmwave_dev_s) (len : Z) :
  parse_state d = PARSE_LENGTH ->
  rxpos d = 4 ->
  length (rxbuf d) = 64%nat ->
  0 <= len <= 54 ->
  frames_ok (fo_dev (parse_bytes d [lo8 len; hi8 len])) = frames_ok d
  /\ frames_err (fo_dev (parse_bytes d [lo8 len; hi8 len])) = frames_err d.
Proof.
  intros Hs Hp Hlen Hl.
  rewrite lo8_small, hi8_small by lia.
  cbn [parse_bytes fo_dev].
  rewrite (step_length_first d len) by assumption. cbn [po_dev].
  assert (Hs1 : parse_state (push_byte d len) = PARSE_LENGTH)
    by (destruct d; exact Hs).
  assert (Hp1 : rxpos (push_byte d len) = 5)
    by (destruct d; cbn in *; subst; reflexivity).
  assert (Hb1 : rxbuf (push_byte d len) = wr (rxbuf d) 4 len)
    by (destruct d; cbn in *; subst; reflexivity).
  assert (Hword :
    u16 (Z.lor (rd (wr (rxbuf (push_byte d len)) 5 0) 4)
               (Z.shiftl (rd (wr (rxbuf (push_byte d len)) 5 0) 5) 8)) = len).
  { rewrite Hb1.
    rewrite rd_wr_other, rd_wr_same by (rewrite ?wr_length; lia).
    rewrite rd_wr_same by (rewrite ?wr_length; lia).
    rewrite Z.shiftl_0_l, Z.lor_0_r. unfold u16. apply Z.mod_small. lia. }
  rewrite step_length_second by (assumption || (rewrite Hword; lia)).
  cbn [po_dev]. destruct d; split; reflexivity.
Qed.

Lemma payload_fill_err (bs : list Z) :
  forall d : mmwave_dev_s,
    parse_state d = PARSE_PAYLOAD ->
    0 <= frame_len d <= 54 ->
    6 <= rxpos d ->
    rxpos d + Z.of_nat (length bs) < 6 + frame_len d + 4 ->
    frames_err (fo_dev (parse_bytes d bs)) = frames_err d.
Proof.
  induction bs as [|b bs IH]; intros d Hs Hfl Hlo Hhi; [reflexivity|].
  cbn [length] in Hhi. cbn [parse_bytes fo_dev].
  rewrite step_payload_more by (assumption || lia). cbn [po_dev].
  assert (Hpos' : rxpos (push_byte d b) = rxpos d + 1).
  { unfold push_byte, u8. destruct d; cbn in *. apply Z.mod_small. lia. }
  rewrite IH.
  - destruct d; reflexivity.
  - destruct d; exact Hs.
  - destruct d; exact Hfl.
  - lia.
  - rewrite Hpos'. destruct d; cbn in *. lia.
Qed.

(** Everything of a frame but its last byte, whatever the three bytes
    after the payload are. *)
Lemma frame_body_run (f : family) (payload ts : list Z) (d : mmwave_dev_s) :
  seeking d ->
  buf_inv d ->
  (length payload <= 54)%nat ->
  length ts = 3%nat ->
  let len := Z.of_nat (length payload) in
  let body := magic f ++ [lo8 len; hi8 len] ++ payload ++ ts in
  fo_rets (parse_bytes d body) = replicate (9 + length payload) 0
  /\ parse_state (fo_dev (parse_bytes d body)) = PARSE_PAYLOAD
  /\ frame_len (fo_dev (parse_bytes d body)) = len
  /\ rxpos (fo_dev (parse_bytes d body)) = 9 + len
  /\ length (rxbuf (fo_dev (parse_bytes d body))) = 64%nat
  /\ take (9 + length payload) (rxbuf (fo_dev (parse_bytes d body))) = body
  /\ frames_ok (fo_dev (parse_bytes d body)) = frames_ok d
  /\ frames_err (fo_dev (parse_bytes d body)) = frames_err d.
Proof.
  intros Hseek Hbuf Hlen Hts3. cbv zeta.
  set (len := Z.of_nat (length payload)).
  destruct Hseek as [Hs Hpos].
  destruct (header_sync f d Hs Hpos Hbuf) as (Ra & Sa & Pa & La & Ta).
  destruct (header_sync_counters f d (conj Hs Hpos) Hbuf) as (Oa & Ea).
  set (da := fo_dev (parse_bytes d (magic f))) in *.
  destruct (length_phase da len Sa Pa La ltac:(lia)) as (Rb & Sb & Pb & Fb & Lb & Tb).
  destruct (length_phase_counters da len Sa Pa La ltac:(lia)) as (Ob & Eb).
  set (db := fo_dev (parse_bytes da [lo8 len; hi8 len])) in *.
  assert (Hroom : rxpos db + Z.of_nat (length (payload ++ ts)) < 6 + frame_len db + 4)
    by (rewrite Pb, Fb, length_app, Hts3; lia).
  destruct (payload_fill (payload ++ ts) db Sb ltac:(lia) ltac:(lia) Hroom Lb)
    as (Rc & Sc & Fc & Oc & Pc & Lc & Tc).
  pose proof (payload_fill_err (payload ++ ts) db Sb ltac:(lia) ltac:(lia) Hroom) as Ec.
  set (dc := fo_dev (parse_bytes db (payload ++ ts))) in *.
  rewrite Pb, Fb in *. change (Z.to_nat 6) with 6%nat in Tc.
  rewrite Tb, Ta in Tc.
  rewrite length_app, Hts3 in Pc, Tc, Rc.
  destruct (parse_bytes_app (magic f) ([lo8 len; hi8 len] ++ payload ++ ts) d)
    as [-> ->].
  fold da.
  destruct (parse_bytes_app [lo8 len; hi8 len] (payload ++ ts) da) as [-> ->].
  fold db. fold dc.
  rewrite Ra, Rb, Rc, Sc, Fc, Pc, Lc, Oc, Ec, Ob, Eb, Oa, Ea.
  repeat split; try lia.
  - change [0; 0; 0; 0] with (replicate 4 0). change [0; 0] with (replicate 2 0).
    rewrite !app_assoc, <- !replicate_add. f_equal. lia.
  - replace (9 + length payload)%nat with (6 + (length payload + 3))%nat by lia.
    rewrite Tc, <- !app_assoc. reflexivity.
Qed.

Lemma step_payload_fail (d : mmwave_dev_s) (b : Z) :
  parse_state d = PARSE_PAYLOAD ->
  0 <= frame_len d <= 54 ->
  rxpos d + 1 = 6 + frame_len d + 4 ->
  tail_ok (le32 (wr (rxbuf d) (rxpos d) b) 0)
          (le32 (wr (rxbuf d) (rxpos d) b) (6 + frame_len d)) = false ->
  mmwave_parse_byte d b
  = Build_parse_out
      (parser_reset (set_frames_err (u32 (frames_err d + 1)) (push_byte d b)))
      0 [rxpos d].
Proof.
  destruct d as [dt ed em dv buf pos st fl s1 s2 s3 fo fe ct].
  cbn [parse_state rxpos rxbuf frame_len]. intros -> Hfl Hpos Htail.
  unfold mmwave_parse_byte, push_byte, u8, u16.
  cbn [parse_state rxpos rxbuf set_rxpos set_rxbuf frame_len frames_err].
  rewrite Z.geb_leb.
  destruct (Z.leb_spec (6 + fl + 4) ((pos + 1) mod 256)); [|lia].
  rewrite (Z.mod_small (6 + fl)) by lia.
  rewrite Htail. reflexivity.
Qed.

Lemma le32_cells (t0 t1 t2 t3 : Z) (rest : list Z) :
  is_byte t0 -> is_byte t1 -> is_byte t2 -> is_byte t3 ->
  le32 (t0 :: t1 :: t2 :: t3 :: rest) 0
  = t0 + 256 * t1 + 65536 * t2 + 16777216 * t3.
Proof.
  intros. change (le32 (t0 :: t1 :: t2 :: t3 :: rest) 0)
    with (Z.lor (Z.lor (Z.lor t0 (Z.shiftl t1 8)) (Z.shiftl t2 16)) (Z.shiftl t3 24)).
  apply le32_word; assumption.
Qed.

Lemma tail_mismatch (f : family) (t0 t1 t2 t3 : Z) (rest : list Z) :
  is_byte t0 -> is_byte t1 -> is_byte t2 -> is_byte t3 ->
  [t0; t1; t2; t3] <> terminator f ->
  tail_ok (le32 (magic f ++ rest) 0) (le32 [t0; t1; t2; t3] 0) = false.
Proof.
  intros H0 H1 H2 H3 Hne. rewrite (le32_cells t0 t1 t2 t3 []) by assumption.
  unfold is_byte in *.
  destruct f; cbn [magic terminator app] in *.
  - change (le32 (241 :: 242 :: 243 :: 244 :: rest) 0) with LD2410_DATA_HEADER.
    unfold tail_ok, LD2410_DATA_HEADER, LD2410_DATA_TAIL, LD2410_CMD_HEADER.
    change (4109628145 =? 4109628145) with true.
    change (4109628145 =? 4261215226) with false. cbn [andb].
    destruct (Z.eqb_spec (t0 + 256 * t1 + 65536 * t2 + 16777216 * t3) 4177000181);
      [|reflexivity].
    exfalso. apply Hne. repeat f_equal; lia.
  - change (le32 (250 :: 251 :: 252 :: 253 :: rest) 0) with LD2410_CMD_HEADER.
    unfold tail_ok, LD2410_DATA_HEADER, LD2410_CMD_TAIL, LD2410_CMD_HEADER.
    change (4261215226 =? 4109628145) with false.
    change (4261215226 =? 4261215226) with true. cbn [andb].
    destruct (Z.eqb_spec (t0 + 256 * t1 + 65536 * t2 + 16777216 * t3) 67305985);
      [|reflexivity].
    exfalso. apply Hne. repeat f_equal; lia.
Qed.

(** A frame whose four last bytes are not the terminator of its family
    (one flipped bit, the terminator of the other family, ...) gives no
    Complete event; at its last byte the parser counts one error and
    starts seeking again with an empty window. *)
Theorem wrong_terminator_counts_error
    (f : family) (payload : list Z) (t0 t1 t2 t3 : Z) (d : mmwave_dev_s) :
  seeking d ->
  buf_inv d ->
  (length payload <= 54)%nat ->
  is_byte t0 -> is_byte t1 -> is_byte t2 -> is_byte t3 ->
  [t0; t1; t2; t3] <> terminator f ->
  let len := Z.of_nat (length payload) in
  let bad := magic f ++ [lo8 len; hi8 len] ++ payload ++ [t0; t1; t2; t3] in
  fo_rets (parse_bytes d bad) = replicate (10 + length payload) 0
  /\ parse_state (fo_dev (parse_bytes d bad)) = PARSE_HEADER
  /\ rxpos (fo_dev (parse_bytes d bad)) = 0
  /\ frames_ok (fo_dev (parse_bytes d bad)) = frames_ok d
  /\ frames_err (fo_dev (parse_bytes d bad)) = u32 (frames_err d + 1).
Proof.
  intros Hseek Hbuf Hlen H0 H1 H2 H3 Hne. cbv zeta.
  set (len := Z.of_nat (length payload)).
  destruct (frame_body_run f payload [t0; t1; t2] d Hseek Hbuf Hlen eq_refl)
    as (Rc & Sc & Fc & Pc & Lc & Tc & Oc & Ec).
  fold len in Rc, Sc, Fc, Pc, Lc, Tc, Oc, Ec.
  replace (magic f ++ [lo8 len; hi8 len] ++ payload ++ [t0; t1; t2; t3])
    with ((magic f ++ [lo8 len; hi8 len] ++ payload ++ [t0; t1; t2]) ++ [t3])
    by (rewrite <- !app_assoc; reflexivity).
  set (body := magic f ++ [lo8 len; hi8 len] ++ payload ++ [t0; t1; t2]) in *.
  destruct (parse_bytes_app body [t3] d) as [-> ->].
  set (dc := fo_dev (parse_bytes d body)) in *.
  assert (Hfinal : take (10 + length payload) (wr (rxbuf dc) (rxpos dc) t3)
                   = (magic f ++ [lo8 len; hi8 len] ++ payload) ++ [t0; t1; t2; t3]).
  { replace (10 + length payload)%nat with (S (9 + length payload)) by lia.
    replace (rxpos dc) with (Z.of_nat (9 + length payload)) by lia.
    rewrite take_wr_next by lia.
    rewrite Tc. subst body. rewrite <- !app_assoc. reflexivity. }
  assert (Hlast : mmwave_parse_byte dc t3
                  = Build_parse_out
                      (parser_reset
                         (set_frames_err (u32 (frames_err dc + 1)) (push_byte dc t3)))
                      0 [rxpos dc]).
  { apply step_payload_fail; try assumption; try lia.
    rewrite <- (le32_take _ (10 + length payload) 0) by lia.
    rewrite <- (le32_take _ (10 + length payload) (6 + frame_len dc)) by lia.
    rewrite Hfinal, Fc.
    replace (6 + len) with
      (Z.of_nat (length (magic f ++ [lo8 len; hi8 len] ++ payload)))
      by (rewrite !length_app; destruct f; cbn [magic length]; lia).
    rewrite le32_app_r. rewrite <- app_assoc.
    apply tail_mismatch; assumption. }
  change (parse_bytes dc [t3])
    with (Build_feed_out (po_dev (mmwave_parse_byte dc t3))
            [po_ret (mmwave_parse_byte dc t3)]
            (po_stores (mmwave_parse_byte dc t3) ++ [])).
  cbn [fo_rets fo_dev]. rewrite Hlast. cbn [po_dev po_ret]. rewrite Rc.
  split; [|split; [|split; [|split]]].
  - change [0] with (replicate 1 0). rewrite <- replicate_add. f_equal. lia.
  - destruct dc; reflexivity.
  - destruct dc; reflexivity.
  - rewrite <- Oc. destruct dc; reflexivity.
  - rewrite <- Ec. destruct dc; reflexivity.
Qed.

(** ** Frames one after the other *)

Lemma feed_bytes_app (xs ys : list Z) (d : mmwave_dev_s) :
  feed_bytes d (xs ++ ys)
  = feed_bytes d xs + feed_bytes (fo_dev (parse_bytes d xs)) ys.
Proof.
  unfold feed_bytes. destruct (parse_bytes_app xs ys d) as [_ ->].
  induction (fo_rets (parse_bytes d xs)) as [|r rs IH]; cbn [app fold_right];
    [reflexivity | rewrite IH; lia].
Qed.

Lemma sum_zeros_then_one (n : nat) :
  fold_right Z.add 0 (replicate n 0 ++ [1]) = 1.
Proof. induction n as [|n IH]; cbn; [reflexivity | exact IH]. Qed.

Lemma frame_of_is_byte (f : family) (payload : list Z) :
  (length payload <= 54)%nat ->
  Forall is_byte payload ->
  Forall is_byte (frame_of f payload).
Proof.
  intros Hlen Hp. unfold frame_of.
  rewrite lo8_small, hi8_small by lia.
  apply Forall_app; split;
    [destruct f; repeat constructor; unfold is_byte; lia|].
  apply Forall_cons; split; [unfold is_byte; lia|].
  apply Forall_cons; split; [unfold is_byte; lia|].
  apply Forall_app; split; [exact Hp|].
  destruct f; repeat constructor; unfold is_byte; lia.
Qed.

(** Valid frames fed one after the other to a seeking parser give one
    Complete event each, and leave the parser seeking. *)
Theorem frames_back_to_back (frames : list (family * list Z)) :
  forall d : mmwave_dev_s,
    seeking d ->
    buf_inv d ->
    Forall (fun fp => (length (snd fp) <= 54)%nat /\ Forall is_byte (snd fp)) frames ->
    feed_bytes d (stream_of frames) = Z.of_nat (length frames)
    /\ seeking (fo_dev (parse_bytes d (stream_of frames))).
Proof.
  induction frames as [|[f payload] frames IH]; intros d Hseek Hbuf Hall.
  - split; [reflexivity | exact Hseek].
  - apply Forall_cons in Hall as [[Hlen Hbytes] Hall]. cbn [fst snd] in *.
    unfold stream_of. cbn [map concat fst snd]. fold (stream_of frames).
    destruct Hseek as [Hs Hp].
    destruct (frame_completes f payload d Hs Hp Hbuf Hlen) as (Hr & _ & _ & Hs' & Hp').
    pose proof (parse_bytes_buf_inv (frame_of f payload) d Hbuf
                  (frame_of_is_byte f payload Hlen Hbytes)) as Hbuf'.
    destruct (IH (fo_dev (parse_bytes d (frame_of f payload))))
      as [Hn Hseek']; [split; [exact Hs' | lia] | exact Hbuf' | exact Hall |].
    rewrite feed_bytes_app.
    destruct (parse_bytes_app (frame_of f payload) (stream_of frames) d) as [-> _].
    split; [|exact Hseek'].
    rewrite Hn. unfold feed_bytes at 1. rewrite Hr, sum_zeros_then_one.
    cbn [length]. lia.
Qed.

(** ** A length over the guard *)

Lemma step_length_over (d : mmwave_dev_s) (b : Z) :
  parse_state d = PARSE_LENGTH ->
  rxpos d = 5 ->
  54 < u16 (Z.lor (rd (wr (rxbuf d) 5 b) 4) (Z.shiftl (rd (wr (rxbuf d) 5 b) 5) 8)) ->
  mmwave_parse_byte d b
  = Build_parse_out
      (set_frames_err (u32 (frames_err d + 1))
         (parser_reset
            (set_frame_len
               (u16 (Z.lor (rd (wr (rxbuf d) 5 b) 4)
                           (Z.shiftl (rd (wr (rxbuf d) 5 b) 5) 8)))
               (push_byte d b))))
      0 [5].
Proof.
  destruct d as [dt ed em dv buf pos st fl s1 s2 s3 fo fe ct].
  cbn [parse_state rxpos rxbuf]. intros -> -> Hlen.
  unfold mmwave_parse_byte, push_byte.
  cbn [parse_state rxpos rxbuf set_rxpos set_rxbuf set_frame_len frame_len].
  change (u8 (5 + 1) =? 6) with true. cbv iota.
  unfold LD2410_MAX_FRAME_LEN. rewrite Z.gtb_ltb.
  destruct (Z.ltb_spec (64 - 10) (u16 (Z.lor (rd (wr buf 5 b) 4)
                                        (Z.shiftl (rd (wr buf 5 b) 5) 8)))).
  - reflexivity.
  - lia.
Qed.

(** A claimed payload length over 54 makes the parser give the frame up
    at the second length byte: no Complete event, one error counted, and
    the search for a header starts again with an empty window, so that a
    valid frame that follows is completed at its last byte. *)
Theorem oversize_length_resets
    (f f' : family) (l0 l1 : Z) (payload : list Z) (d : mmwave_dev_s) :
  seeking d ->
  buf_inv d ->
  is_byte l0 ->
  is_byte l1 ->
  54 < l0 + 256 * l1 ->
  (length payload <= 54)%nat ->
  let over := magic f ++ [l0; l1] in
  fo_rets (parse_bytes d over) = replicate 6 0
  /\ parse_state (fo_dev (parse_bytes d over)) = PARSE_HEADER
  /\ rxpos (fo_dev (parse_bytes d over)) = 0
  /\ frames_ok (fo_dev (parse_bytes d over)) = frames_ok d
  /\ frames_err (fo_dev (parse_bytes d over)) = u32 (frames_err d + 1)
  /\ fo_rets (parse_bytes d (over ++ frame_of f' payload))
     = replicate (6 + (9 + length payload)) 0 ++ [1].
Proof.
  intros Hseek Hbuf H0 H1 Hbig Hlen. cbv zeta.
  destruct Hseek as [Hs Hpos].
  destruct (header_sync f d Hs Hpos Hbuf) as (Ra & Sa & Pa & La & Ta).
  destruct (header_sync_counters f d (conj Hs Hpos) Hbuf) as (Oa & Ea).
  assert (Hba : buf_inv (fo_dev (parse_bytes d (magic f)))).
  { apply parse_bytes_buf_inv; [exact Hbuf|].
    destruct f; repeat constructor; unfold is_byte; lia. }
  set (da := fo_dev (parse_bytes d (magic f))) in *.
  assert (Hs1 : parse_state (push_byte da l0) = PARSE_LENGTH)
    by (destruct da; exact Sa).
  assert (Hp1 : rxpos (push_byte da l0) = 5)
    by (destruct da; cbn in *; subst; reflexivity).
  assert (Hb1 : rxbuf (push_byte da l0) = wr (rxbuf da) 4 l0)
    by (destruct da; cbn in *; subst; reflexivity).
  assert (Hword :
    u16 (Z.lor (rd (wr (rxbuf (push_byte da l0)) 5 l1) 4)
               (Z.shiftl (rd (wr (rxbuf (push_byte da l0)) 5 l1) 5) 8))
    = l0 + 256 * l1).
  { rewrite Hb1.
    rewrite rd_wr_other, rd_wr_same by (rewrite ?wr_length; lia).
    rewrite rd_wr_same by (rewrite ?wr_length; lia).
    unfold is_byte in *. rewrite lor_shiftl_add by lia.
    unfold u16. change (2 ^ 8) with 256. rewrite Z.mod_small by lia. lia. }
  assert (Hrun : parse_bytes da [l0; l1]
                 = Build_feed_out
                     (set_frames_err (u32 (frames_err (push_byte da l0) + 1))
                        (parser_reset
                           (set_frame_len (l0 + 256 * l1)
                              (push_byte (push_byte da l0) l1))))
                     [0; 0] [4; 5]).
  { cbn [parse_bytes]. rewrite (step_length_first da l0) by assumption.
    cbn [po_dev po_ret po_stores].
    rewrite (step_length_over (push_byte da l0) l1)
      by (assumption || (rewrite Hword; lia)).
    rewrite Hword. reflexivity. }
  destruct (parse_bytes_app (magic f) [l0; l1] d) as [Ed Er].
  fold da in Ed, Er. rewrite Hrun in Ed, Er. cbn [fo_dev fo_rets] in Ed, Er.
  set (dz := set_frames_err _ _) in *.
  assert (Sz : parse_state dz = PARSE_HEADER) by (destruct da; reflexivity).
  assert (Pz : rxpos dz = 0) by (destruct da; reflexivity).
  assert (Bz : buf_inv dz).
  { pose proof (parse_bytes_buf_inv [l0; l1] da Hba
                  ltac:(constructor; [assumption | constructor; [assumption | constructor]]))
      as Hb.
    rewrite Hrun in Hb. exact Hb. }
  destruct (frame_completes f' payload dz Sz ltac:(lia) Bz Hlen) as (Rf & _).
  destruct (parse_bytes_app (magic f ++ [l0; l1]) (frame_of f' payload) d)
    as [_ ->].
  rewrite Ed, Er, Ra, Rf, Sz, Pz.
  repeat split.
  - rewrite <- Oa. destruct da; reflexivity.
  - rewrite <- Ea. destruct da; reflexivity.
Qed.

(** ** The decoder: all or nothing *)

Lemma same_but_reading_refl (p : mmwave_dev_s) : same_but_reading p p.
Proof. unfold same_but_reading. repeat split. Qed.

Lemma process_data_frame_same (p : mmwave_dev_s) (w : world) :
  same_but_reading p (fr_dev (mmwave_process_data_frame p w)).
Proof.
  unfold mmwave_process_data_frame.
  destruct (negb (payload_at p 0 =? 2) && negb (payload_at p 0 =? 1));
    [apply same_but_reading_refl|].
  destruct (negb (payload_at p 1 =? 170)); [apply same_but_reading_refl|].
  destruct (nxsem_wait w) as [ret w1].
  destruct (ret <? 0); [apply same_but_reading_refl|].
  destruct p as [dt ed em dv buf pos st fl c1 c2 c3 fo fe ct].
  cbn [rxbuf eng_mode eng_data frame_len data data_sem set_data_sem set_data
       set_data_valid set_eng_data].
  unfold same_but_reading.
  destruct ((payload_at _ 0 =? 1) && em);
    cbn [fr_ret fr_dev data data_valid eng_data eng_mode rxbuf rxpos parse_state
         frame_len data_sem cmd_sem wait_sem frames_ok frames_err cmd_timeouts
         set_data_sem set_eng_data set_data set_data_valid];
    repeat split; lia.
Qed.

(** Whatever the payload and the semaphore do, the decoder either returns
    [OK], having set [data_valid] and touched nothing but the reading, or
    returns an error and leaves the whole device as it was. *)
Theorem decoder_all_or_nothing (p : mmwave_dev_s) (w : world) :
  let r := mmwave_process_data_frame p w in
  (fr_ret r = OK /\ data_valid (fr_dev r) = true /\ same_but_reading p (fr_dev r))
  \/ (fr_ret r < 0 /\ fr_dev r = p).
Proof.
  cbv zeta. unfold mmwave_process_data_frame.
  destruct (negb (payload_at p 0 =? 2) && negb (payload_at p 0 =? 1));
    [right; split; [reflexivity|reflexivity]|].
  destruct (negb (payload_at p 1 =? 170));
    [right; split; [reflexivity|reflexivity]|].
  destruct (nxsem_wait w) as [ret w1].
  destruct (Z.ltb_spec ret 0); [right; split; [assumption|reflexivity]|].
  left. destruct p as [dt ed em dv buf pos st fl c1 c2 c3 fo fe ct].
  cbn [rxbuf eng_mode eng_data frame_len data data_sem set_data_sem set_data
       set_data_valid set_eng_data].
  unfold same_but_reading.
  destruct ((payload_at _ 0 =? 1) && em);
    cbn [fr_ret fr_dev data data_valid eng_data eng_mode rxbuf rxpos parse_state
         frame_len data_sem cmd_sem wait_sem frames_ok frames_err cmd_timeouts
         set_data_sem set_eng_data set_data set_data_valid];
    repeat split; lia.
Qed.

(** When the data semaphore is acquired: with engineering mode off, or for
    a frame of the standard type, a payload with head 0xAA is accepted,
    replaces the reading and leaves both gate arrays, and the copy of the
    reading kept with them, as they were. *)
Theorem decoder_keeps_gates (p : mmwave_dev_s) (w : world) :
  sem_results w = [] ->
  payload_at p 1 = 0xAA ->
  (payload_at p 0 = 0x01 /\ eng_mode p = false) \/ payload_at p 0 = 0x02 ->
  let r := mmwave_process_data_frame p w in
  fr_ret r = OK
  /\ eng_data (fr_dev r) = eng_data p
  /\ target_state (data (fr_dev r)) = payload_at p 2
  /\ motion_energy (data (fr_dev r)) = payload_at p 5
  /\ static_energy (data (fr_dev r)) = payload_at p 8.
Proof.
  intros Hsem Hhead Hcase. cbv zeta.
  destruct (process_data_frame_accepts p w Hsem
              ltac:(destruct Hcase as [[-> _] | ->]; auto) Hhead)
    as (Hr & _ & Hd & He).
  rewrite Hr, He, Hd. cbn [target_state motion_energy static_energy].
  repeat split.
  destruct Hcase as [[-> ->] | ->]; reflexivity.
Qed.

(** ** The poll task *)

Lemma poll_incomplete (bs : list Z) :
  forall (d : mmwave_dev_s) (w : world) (rest : list Z),
    rx_pending w = bs ++ rest ->
    fo_rets (parse_bytes d bs) = replicate (length bs) 0 ->
    mmwave_poll (length bs) d w = (fo_dev (parse_bytes d bs), with_rx rest w).
Proof.
  induction bs as [|b bs IH]; intros d w rest Hrx Hrets.
  - cbn [length mmwave_poll parse_bytes fo_dev]. cbn [app] in Hrx.
    f_equal. destruct w; cbn in *; subst; reflexivity.
  - cbn [length mmwave_poll parse_bytes fo_dev fo_rets replicate] in *.
    injection Hrets as Hr Hrets.
    unfold mmwave_poll_step. rewrite Hrx. cbn [app].
    rewrite Hr. change (negb (0 =? 0)) with false. cbv iota.
    rewrite (IH _ _ rest); [reflexivity | reflexivity | exact Hrets].
Qed.

Lemma poll_app (n m : nat) (d : mmwave_dev_s) (w : world) :
  mmwave_poll (n + m) d w
  = mmwave_poll m (fst (mmwave_poll n d w)) (snd (mmwave_poll n d w)).
Proof.
  revert d w. induction n as [|n IH]; intros d w; [reflexivity|].
  cbn [Nat.add mmwave_poll]. destruct (mmwave_poll_step d w) as [p w1].
  apply IH.
Qed.

(** The poll task over the bytes of one valid frame, from a seeking
    parser: the bytes are taken off the UART and the decoder is run once,
    on the device that holds the frame in its buffer. *)
Lemma poll_frame (f : family) (payload rest : list Z) (d : mmwave_dev_s)
    (w : world) :
  seeking d ->
  buf_inv d ->
  (length payload <= 54)%nat ->
  rx_pending w = frame_of f payload ++ rest ->
  exists p : mmwave_dev_s,
    p = fo_dev (parse_bytes d (frame_of f payload))
    /\ take (10 + length payload) (rxbuf p) = frame_of f payload
    /\ frame_len p = Z.of_nat (length payload)
    /\ mmwave_poll (10 + length payload) d w
       = (fr_dev (mmwave_process_data_frame p (with_rx rest w)),
          fr_world (mmwave_process_data_frame p (with_rx rest w))).
Proof.
  intros [Hs Hp] Hbuf Hlen Hrx.
  destruct (frame_completes f payload d Hs Hp Hbuf Hlen) as (Hr & Ht & Hf & _).
  exists (fo_dev (parse_bytes d (frame_of f payload))).
  split; [reflexivity|]. split; [exact Ht|]. split; [exact Hf|].
  assert (Hsplit : exists t3 body, frame_of f payload = body ++ [t3]
                                   /\ length body = (9 + length payload)%nat).
  { unfold frame_of. set (len := Z.of_nat (length payload)).
    destruct f.
    - exists 0xF8, (magic Data_family ++ [lo8 len; hi8 len] ++ payload
                    ++ [0xF5; 0xF6; 0xF7]).
      split; [rewrite <- !app_assoc; reflexivity|].
      rewrite !length_app. cbn [magic length]. lia.
    - exists 0x04, (magic Cmd_family ++ [lo8 len; hi8 len] ++ payload
                    ++ [0x01; 0x02; 0x03]).
      split; [rewrite <- !app_assoc; reflexivity|].
      rewrite !length_app. cbn [magic length]. lia. }
  destruct Hsplit as (t3 & body & Hfr & Hbl).
  rewrite Hfr in *.
  destruct (parse_bytes_app body [t3] d) as [Ed Er].
  rewrite Er in Hr.
  change (parse_bytes (fo_dev (parse_bytes d body)) [t3])
    with (Build_feed_out
            (po_dev (mmwave_parse_byte (fo_dev (parse_bytes d body)) t3))
            [po_ret (mmwave_parse_byte (fo_dev (parse_bytes d body)) t3)]
            (po_stores (mmwave_parse_byte (fo_dev (parse_bytes d body)) t3) ++ []))
    in Hr, Ed.
  cbn [fo_rets fo_dev] in Hr, Ed.
  apply app_inj_tail in Hr as [Hzero Hone].
  replace (10 + length payload)%nat with (length body + 1)%nat by lia.
  rewrite poll_app.
  rewrite (poll_incomplete body d w ([t3] ++ rest));
    [ | rewrite Hrx, <- app_assoc; reflexivity | rewrite Hbl; exact Hzero ].
  cbn [fst snd mmwave_poll]. unfold mmwave_poll_step at 1.
  cbn [with_rx rx_pending app]. rewrite Hone.
  change (negb (1 =? 0)) with true. cbv iota.
  rewrite Ed. reflexivity.
Qed.

Lemma process_data_frame_keeps_rx (p : mmwave_dev_s) (w : world) :
  rx_pending (fr_world (mmwave_process_data_frame p w)) = rx_pending w.
Proof.
  unfold mmwave_process_data_frame.
  destruct (negb (payload_at p 0 =? 2) && negb (payload_at p 0 =? 1));
    [reflexivity|].
  destruct (negb (payload_at p 1 =? 170)); [reflexivity|].
  pose proof (nxsem_wait_keeps w) as [Hrx _].
  destruct (nxsem_wait w) as [ret w1]. cbn [snd] in Hrx.
  destruct (ret <? 0); exact Hrx.
Qed.

Lemma process_data_frame_quiet_world (p : mmwave_dev_s) (w : world) :
  sem_results w = [] ->
  fr_world (mmwave_process_data_frame p w) = w.
Proof.
  intros Hsem. unfold mmwave_process_data_frame, nxsem_wait. rewrite Hsem.
  repeat match goal with
    | |- context [if ?c then _ else _] => destruct c
    end; reflexivity.
Qed.

Lemma payload_at_frame (p : mmwave_dev_s) (F : list Z) (n : nat) (i : Z) :
  take n (rxbuf p) = F ->
  0 <= i ->
  (Z.to_nat (6 + i) < n)%nat ->
  payload_at p i = rd F (6 + i).
Proof.
  intros Ht Hi Hn. unfold payload_at. rewrite <- Ht, rd_take by exact Hn.
  reflexivity.
Qed.

Lemma poll_data_frame
    (ts md me sd se dd : Z) (rest : list Z) (d : mmwave_dev_s) (w : world) :
  seeking d ->
  buf_inv d ->
  u32_range (frames_ok d) ->
  0 <= md < 65536 ->
  0 <= sd < 65536 ->
  0 <= dd < 65536 ->
  sem_results w = [] ->
  rx_pending w = build_data_frame ts md me sd se dd ++ rest ->
  let r := mmwave_poll 21 d w in
  data (fst r)
  = Build_data ts md me sd se dd (u32 (systime_ticks w * (1000 / TICK_PER_SEC)))
  /\ data_valid (fst r) = true
  /\ eng_data (fst r) = eng_data d
  /\ eng_mode (fst r) = eng_mode d
  /\ frames_ok (fst r) = u32 (frames_ok d + 1)
  /\ snd r = with_rx rest w.
Proof.
  intros Hseek Hbuf Hok Hmd Hsd Hdd Hsem Hrx. cbv zeta.
  rewrite build_data_frame_shape in Hrx.
  set (payload := [0x02; 0xAA; ts; lo8 md; hi8 md; me; lo8 sd; hi8 sd; se;
                   lo8 dd; hi8 dd]) in *.
  destruct (poll_frame Data_family payload rest d w Hseek Hbuf
              ltac:(cbn; lia) Hrx) as (p & Ep & Ht & Hf & Hpoll).
  change (10 + length payload)%nat with 21%nat in Hpoll, Ht.
  rewrite Hpoll. cbn [fst snd].
  assert (Hat : forall i, 0 <= i < 15 ->
                          payload_at p i = rd (frame_of Data_family payload) (6 + i))
    by (intros i Hi; apply (payload_at_frame p _ 21); [exact Ht | lia | lia]).
  assert (Hsem' : sem_results (with_rx rest w) = []) by exact Hsem.
  destruct (process_data_frame_accepts p (with_rx rest w) Hsem'
              ltac:(right; rewrite Hat by lia; reflexivity)
              ltac:(rewrite Hat by lia; reflexivity)) as (_ & Hv & Hd & He).
  destruct (process_data_frame_same p (with_rx rest w)) as (Hmode & _ & _ & _ & _ & _ & _ & _ & Hfo & _).
  rewrite Hd, Hv, He, Hfo, Hmode, !Hat by lia.
  subst payload.
  change (rd _ (6 + 0) =? 1) with false. cbn [andb].
  change (rd _ (6 + 2)) with ts.
  change (rd _ (6 + 3)) with (lo8 md). change (rd _ (6 + 4)) with (hi8 md).
  change (rd _ (6 + 5)) with me.
  change (rd _ (6 + 6)) with (lo8 sd). change (rd _ (6 + 7)) with (hi8 sd).
  change (rd _ (6 + 8)) with se.
  change (rd _ (6 + 9)) with (lo8 dd). change (rd _ (6 + 10)) with (hi8 dd).
  rewrite !le16_roundtrip by assumption.
  destruct (parse_bytes_keeps_reading
              (frame_of Data_family
                 [2; 170; ts; lo8 md; hi8 md; me; lo8 sd; hi8 sd; se; lo8 dd; hi8 dd]) d)
    as (_ & Hed & Hem & _).
  destruct (parse_bytes_counts
              (frame_of Data_family
                 [2; 170; ts; lo8 md; hi8 md; me; lo8 sd; hi8 sd; se; lo8 dd; hi8 dd])
              d Hok) as [Hcount _].
  destruct Hseek as [Hs Hpos].
  destruct (frame_completes Data_family
              [2; 170; ts; lo8 md; hi8 md; me; lo8 sd; hi8 sd; se; lo8 dd; hi8 dd]
              d Hs Hpos Hbuf ltac:(cbn; lia)) as (Hr' & _).
  unfold feed_bytes in Hcount. rewrite Hr', sum_zeros_then_one in Hcount.
  rewrite Ep, Hed, Hem, Hcount.
  repeat split.
  apply process_data_frame_quiet_world. exact Hsem'.
Qed.

(** When the decoder's wait for the data semaphore succeeds, the bytes of
    a [build_data_frame] frame read from the UART by the poll task, from a
    parser that is seeking a header, become the latest reading: every field
    as given, the time stamp taken from the tick counter, [data_valid] set,
    the frame counted and the bytes consumed. *)
Theorem poll_data_frame_updates_reading
    (ts md me sd se dd : Z) (rest : list Z) (d : mmwave_dev_s) (w : world) :
  seeking d ->
  buf_inv d ->
  u32_range (frames_ok d) ->
  0 <= md < 65536 ->
  0 <= sd < 65536 ->
  0 <= dd < 65536 ->
  sem_results w = [] ->
  rx_pending w = build_data_frame ts md me sd se dd ++ rest ->
  let r := mmwave_poll 21 d w in
  data (fst r)
  = Build_data ts md me sd se dd (u32 (systime_ticks w * (1000 / TICK_PER_SEC)))
  /\ data_valid (fst r) = true
  /\ eng_data (fst r) = eng_data d
  /\ eng_mode (fst r) = eng_mode d
  /\ frames_ok (fst r) = u32 (frames_ok d + 1)
  /\ snd r = with_rx rest w.
Proof. exact (poll_data_frame ts md me sd se dd rest d w). Qed.

Lemma decoder_rejects (p : mmwave_dev_s) (w : world) :
  payload_at p 0 <> 0x02 ->
  payload_at p 0 <> 0x01 ->
  mmwave_process_data_frame p w = Build_frame_out (- EINVAL) p w.
Proof.
  intros N2 N1. unfold mmwave_process_data_frame.
  destruct (Z.eqb_spec (payload_at p 0) 0x02); [contradiction|].
  destruct (Z.eqb_spec (payload_at p 0) 0x01); [contradiction|].
  reflexivity.
Qed.

(** A valid frame of either family whose first payload byte is neither
    0x01 nor 0x02 (a command response, say) is counted by the parser when
    the poll task reads it, and changes nothing of the reading: [data],
    [data_valid] and [eng_data] are as before. *)
Theorem poll_other_frame_keeps_reading
    (f : family) (c0 : Z) (more rest : list Z) (d : mmwave_dev_s) (w : world) :
  seeking d ->
  buf_inv d ->
  u32_range (frames_ok d) ->
  (length more <= 53)%nat ->
  c0 <> 0x01 ->
  c0 <> 0x02 ->
  rx_pending w = frame_of f (c0 :: more) ++ rest ->
  let r := mmwave_poll (11 + length more) d w in
  data (fst r) = data d
  /\ data_valid (fst r) = data_valid d
  /\ eng_data (fst r) = eng_data d
  /\ frames_ok (fst r) = u32 (frames_ok d + 1)
  /\ snd r = with_rx rest w.
Proof.
  intros Hseek Hbuf Hok Hlen N1 N2 Hrx. cbv zeta.
  destruct (poll_frame f (c0 :: more) rest d w Hseek Hbuf
              ltac:(cbn [length]; lia) Hrx) as (p & Ep & Ht & Hf & Hpoll).
  change (10 + length (c0 :: more))%nat with (11 + length more)%nat in Hpoll, Ht.
  rewrite Hpoll. cbn [fst snd].
  assert (H0 : payload_at p 0 = c0).
  { rewrite (payload_at_frame p _ (11 + length more) 0 Ht) by lia.
    destruct f; reflexivity. }
  rewrite decoder_rejects by (rewrite H0; assumption).
  cbn [fr_dev fr_world]. rewrite Ep.
  destruct (parse_bytes_keeps_reading (frame_of f (c0 :: more)) d)
    as (Hd & Hed & _ & Hv & _).
  destruct (parse_bytes_counts (frame_of f (c0 :: more)) d Hok) as [Hc _].
  destruct Hseek as [Hs Hp].
  destruct (frame_completes f (c0 :: more) d Hs Hp Hbuf ltac:(cbn [length]; lia))
    as (Hr & _).
  unfold feed_bytes in Hc. rewrite Hr, sum_zeros_then_one in Hc.
  rewrite Hd, Hed, Hv, Hc. repeat split.
Qed.

(** ** Reading *)

(** A read never changes the device, whatever it returns. *)
Theorem read_keeps_device (abi : layout) (g : option mmwave_dev_s)
    (buffer : option packet) (buflen : Z) (w : world) :
  rd_dev (mmwave_read abi g buffer buflen w) = g.
Proof.
  unfold mmwave_read. destruct g as [priv|]; [|reflexivity].
  destruct (data_valid priv); cbn [negb]; [|reflexivity].
  destruct (nxsem_wait w) as [ret w1].
  destruct (ret <? 0); [reflexivity|].
  assert (E : set_data_sem (data_sem (set_data_sem (data_sem priv - 1) priv) + 1)
                (set_data_sem (data_sem priv - 1) priv) = priv).
  { destruct priv; unfold set_data_sem; cbn. f_equal. lia. }
  rewrite E.
  repeat match goal with
    | |- context [if ?c then _ else _] => destruct c
    end; reflexivity.
Qed.

(** From the wire to the caller, when every wait for the data semaphore
    succeeds (the decoder's and the read's): after the poll task has read
    the bytes of a [build_data_frame] frame, a read with room for a
    reading, on a device whose engineering mode is off, returns the size of
    a reading and puts exactly the fields of the frame in the buffer. *)
Theorem read_returns_polled_frame
    (abi : layout) (ts md me sd se dd buflen : Z) (buffer : option packet)
    (rest : list Z) (d : mmwave_dev_s) (w : world) :
  seeking d ->
  buf_inv d ->
  u32_range (frames_ok d) ->
  0 <= md < 65536 ->
  0 <= sd < 65536 ->
  0 <= dd < 65536 ->
  sem_results w = [] ->
  rx_pending w = build_data_frame ts md me sd se dd ++ rest ->
  eng_mode d = false ->
  sizeof_mmwave_data_s abi <= buflen ->
  let r := mmwave_poll 21 d w in
  let o := mmwave_read abi (Some (fst r)) buffer buflen (snd r) in
  rd_ret o = sizeof_mmwave_data_s abi
  /\ rd_buffer o
     = Some (Pkt_data (Build_data ts md me sd se dd
                         (u32 (systime_ticks w * (1000 / TICK_PER_SEC))))).
Proof.
  intros Hseek Hbuf Hok Hmd Hsd Hdd Hsem Hrx Heng Hroom. cbv zeta.
  destruct (poll_data_frame ts md me sd se dd rest d w
              Hseek Hbuf Hok Hmd Hsd Hdd Hsem Hrx)
    as (Hd & Hv & _ & Hm & _ & Hw).
  set (r := mmwave_poll 21 d w) in *.
  unfold mmwave_read. rewrite Hv, Hw. cbn [negb].
  unfold nxsem_wait. change (sem_results (with_rx rest w)) with (sem_results w).
  rewrite Hsem. change (0 <? 0) with false. cbv iota.
  replace (eng_mode (set_data_sem (data_sem (fst r) - 1) (fst r))) with false
    by (rewrite <- Heng, <- Hm; destruct (fst r); reflexivity).
  cbn [andb]. rewrite Z.geb_leb.
  destruct (Z.leb_spec (sizeof_mmwave_data_s abi) buflen); [|lia].
  cbn [rd_ret rd_buffer]. split; [reflexivity|].
  replace (data (set_data_sem (data_sem (fst r) - 1) (fst r))) with (data (fst r))
    by (destruct (fst r); reflexivity).
  rewrite Hd. reflexivity.
Qed.

(** [read_sensor] tells the two packets apart: with semaphores acquired
    and an engineering packet larger than a reading, it returns -1 while
    the device has no reading, 1 with the engineering packet when it was
    asked for and the driver's engineering mode is on, and 0 with the
    reading otherwise. *)
Theorem read_sensor_classifies
    (abi : layout) (priv : mmwave_dev_s) (dbuf ebuf : option packet)
    (eng_given eng_mode_arg : bool) (w : world) :
  0 < sizeof_mmwave_data_s abi < sizeof_mmwave_eng_data_s abi ->
  sem_results w = [] ->
  let o := read_sensor abi (Some priv) dbuf ebuf eng_given eng_mode_arg w in
  rs_dev o = Some priv
  /\ (data_valid priv = false -> rs_ret o = -1 /\ rs_data o = dbuf)
  /\ (data_valid priv = true ->
      eng_mode_arg && eng_given && eng_mode priv = true ->
      rs_ret o = 1 /\ rs_eng o = Some (Pkt_eng (eng_data priv)) /\ rs_data o = dbuf)
  /\ (data_valid priv = true ->
      eng_mode_arg && eng_given && eng_mode priv = false ->
      rs_ret o = 0 /\ rs_data o = Some (Pkt_data (data priv))).
Proof.
  intros Hsz Hsem. cbv zeta.
  assert (Hread : forall buf len,
    mmwave_read abi (Some priv) buf len w
    = if negb (data_valid priv) then Build_read_out (- EAGAIN) buf (Some priv) w
      else if eng_mode priv && (len >=? sizeof_mmwave_eng_data_s abi)
      then Build_read_out (sizeof_mmwave_eng_data_s abi)
             (Some (Pkt_eng (eng_data priv))) (Some priv) w
      else if len >=? sizeof_mmwave_data_s abi
      then Build_read_out (sizeof_mmwave_data_s abi)
             (Some (Pkt_data (data priv))) (Some priv) w
      else Build_read_out (- EINVAL) buf (Some priv) w).
  { intros buf len. unfold mmwave_read, nxsem_wait. rewrite Hsem.
    change (0 <? 0) with false. cbv iota.
    assert (E : set_data_sem (data_sem (set_data_sem (data_sem priv - 1) priv) + 1)
                  (set_data_sem (data_sem priv - 1) priv) = priv).
    { destruct priv; unfold set_data_sem; cbn. f_equal. lia. }
    rewrite E.
    replace (eng_mode (set_data_sem (data_sem priv - 1) priv)) with (eng_mode priv)
      by (destruct priv; reflexivity).
    replace (eng_data (set_data_sem (data_sem priv - 1) priv)) with (eng_data priv)
      by (destruct priv; reflexivity).
    replace (data (set_data_sem (data_sem priv - 1) priv))
      with (data priv) by (destruct priv; reflexivity).
    reflexivity. }
  unfold read_sensor, vfs_nread. rewrite !Hread.
  rewrite !Z.geb_leb, Z.leb_refl.
  destruct (Z.leb_spec (sizeof_mmwave_data_s abi) (sizeof_mmwave_eng_data_s abi));
    [|lia].
  destruct (Z.leb_spec (sizeof_mmwave_eng_data_s abi) (sizeof_mmwave_data_s abi));
    [lia|].
  assert (Hd : (sizeof_mmwave_data_s abi <? 0) = false) by (apply Z.ltb_ge; lia).
  assert (He : (sizeof_mmwave_eng_data_s abi <? 0) = false) by (apply Z.ltb_ge; lia).
  assert (Hne : (sizeof_mmwave_data_s abi =? sizeof_mmwave_eng_data_s abi) = false)
    by (apply Z.eqb_neq; lia).
  assert (Hm1e : (-1 =? sizeof_mmwave_eng_data_s abi) = false)
    by (apply Z.eqb_neq; lia).
  assert (Hm1d : (-1 =? sizeof_mmwave_data_s abi) = false)
    by (apply Z.eqb_neq; lia).
  destruct (data_valid priv), eng_mode_arg, eng_given, (eng_mode priv);
    cbn [negb andb rd_ret rd_buffer rd_dev rd_world];
    change (- EAGAIN <? 0) with true; cbv iota;
    rewrite ?Hd, ?He, ?Hne, ?Hm1e, ?Hm1d, ?Z.eqb_refl;
    cbn [rs_ret rs_data rs_eng rs_dev rd_ret rd_buffer rd_dev rd_world];
    rewrite ?Hread; cbn [negb andb rd_ret rd_buffer rd_dev rd_world];
    rewrite ?Z.geb_leb, ?Z.leb_refl;
    cbn [negb andb rd_ret rd_buffer rd_dev rd_world];
    change (- EAGAIN <? 0) with true; cbv iota;
    rewrite ?Hd, ?He, ?Hne, ?Hm1e, ?Hm1d, ?Z.eqb_refl;
    cbn [rs_ret rs_data rs_eng rs_dev];
    repeat split; intros; try discriminate; auto.
Qed.

(** ** Sending a command *)

Lemma send_command_dev
    (priv : mmwave_dev_s) (cmd : Z) (data : option (list Z)) (datalen : Z)
    (w : world) :
  fr_dev (mmwave_send_command priv cmd data datalen w) = priv.
Proof.
  unfold mmwave_send_command.
  destruct (u16 _ >? LD2410_MAX_FRAME_LEN); [reflexivity|].
  destruct (nxsem_wait w) as [ret w1].
  destruct (ret <? 0); [reflexivity|].
  destruct (uart_write _ _ w1) as [written w2].
  rewrite sem_balance. destruct (negb _); reflexivity.
Qed.

(** Sending a command that stays inside its buffers never changes the
    device structure, whatever the semaphore and the UART do: the command
    semaphore is released on every path that took it, and nothing else is
    written. The same holds for the two commands that open and close the
    configuration session. *)
Theorem send_command_keeps_device
    (priv : mmwave_dev_s) (cmd : Z) (data : option (list Z)) (datalen : Z)
    (w : world) :
  send_command_defined data datalen ->
  fr_dev (mmwave_send_command priv cmd data datalen w) = priv
  /\ fr_dev (mmwave_enter_config priv w) = priv
  /\ fr_dev (mmwave_exit_config priv w) = priv.
Proof.
  intros _. unfold mmwave_enter_config, mmwave_exit_config.
  rewrite !send_command_dev. repeat split.
Qed.

Lemma send_command_keeps_device_witness :
  fr_dev (mmwave_send_command dev_with_reading LD2410_CMD_SET_SENSITIVITY
            (Some [0; 0; 3; 0; 0; 0; 1; 0; 50; 0; 0; 0; 2; 0; 40; 0; 0; 0]) 18
            world_exit_fails)
  = dev_with_reading
  /\ fr_dev (mmwave_enter_config dev_with_reading world_exit_fails)
     = dev_with_reading
  /\ fr_dev (mmwave_exit_config dev_with_reading world_exit_fails)
     = dev_with_reading.
Proof.
  apply (send_command_keeps_device dev_with_reading LD2410_CMD_SET_SENSITIVITY
           (Some [0; 0; 3; 0; 0; 0; 1; 0; 50; 0; 0; 0; 2; 0; 40; 0; 0; 0]) 18
           world_exit_fails).
  split; [lia|]. intros _ _.
  split; [unfold LD2410_MAX_FRAME_LEN; lia | cbn; lia].
Defined.

(** A data length that makes the frame longer than 64 bytes is refused
    before anything happens: [-EINVAL], no semaphore taken, nothing
    written. (Lengths from 65524 on wrap around in the 16-bit frame length
    and are not covered.) *)
Theorem send_command_refuses_long_frame
    (priv : mmwave_dev_s) (cmd : Z) (data : option (list Z)) (datalen : Z)
    (w : world) :
  52 < datalen <= 65523 ->
  mmwave_send_command priv cmd data datalen w
  = Build_frame_out (- EINVAL) priv w.
Proof.
  intros Hlen. unfold mmwave_send_command, u16, LD2410_MAX_FRAME_LEN.
  rewrite Z.gtb_ltb.
  destruct (Z.ltb_spec 64 ((4 + 2 + (2 + datalen) mod 65536 + 4) mod 65536));
    [reflexivity | lia].
Qed.

Lemma build_cmd_frame_shape (cmd : Z) (data : option (list Z)) (datalen : Z) :
  cmd_args_ok data datalen ->
  0 <= datalen <= 65533 ->
  build_cmd_frame cmd data datalen = frame_of Cmd_family (cmd_payload cmd data)
  /\ Z.of_nat (length (cmd_payload cmd data)) = 2 + datalen.
Proof.
  intros Hargs Hlen. unfold build_cmd_frame, frame_of, cmd_payload, cmd_args_ok in *.
  assert (Hu : u16 (2 + datalen) = 2 + datalen)
    by (unfold u16; apply Z.mod_small; lia).
  destruct data as [bytes|]; cbn [length magic terminator].
  - assert (Htake : (if datalen >? 0 then take (Z.to_nat datalen) bytes else [])
                    = bytes).
    { rewrite Z.gtb_ltb. destruct (Z.ltb_spec 0 datalen).
      - apply take_ge. lia.
      - destruct bytes; [reflexivity | cbn [length] in Hargs; lia]. }
    rewrite Htake, Hu.
    replace (Z.of_nat (S (S (length bytes)))) with (2 + datalen) by lia.
    split; reflexivity.
  - subst datalen. split; reflexivity.
Qed.

(** With the semaphore acquired and arguments as the callers give them
    (at most 52 bytes of data), exactly one frame is handed to [write]: the
    frame [build_cmd_frame] makes, of [12 + datalen <= 64] bytes, which is
    a command-family frame with the command word first in its payload; and
    the result is [OK] exactly when [write] reports that many bytes. *)
Theorem send_command_wire_format
    (priv : mmwave_dev_s) (cmd : Z) (data : option (list Z)) (datalen : Z)
    (w : world) :
  cmd_args_ok data datalen ->
  0 <= datalen <= 52 ->
  sem_results w = [] ->
  let r := mmwave_send_command priv cmd data datalen w in
  let F := build_cmd_frame cmd data datalen in
  tx_log (fr_world r) = tx_log w ++ [F]
  /\ F = frame_of Cmd_family (cmd_payload cmd data)
  /\ Z.of_nat (length F) = 12 + datalen
  /\ (fr_ret r = OK <-> write_result_at w 0 (12 + datalen) = Z.of_nat (length F))
  /\ (fr_ret r = OK \/ fr_ret r = - EIO).
Proof.
  intros Hargs Hlen Hsem. cbv zeta.
  destruct (build_cmd_frame_shape cmd data datalen Hargs ltac:(lia)) as [Hshape Hpl].
  assert (HF : Z.of_nat (length (build_cmd_frame cmd data datalen)) = 12 + datalen).
  { rewrite Hshape. unfold frame_of. cbn [magic terminator].
    rewrite !length_app. cbn [length app] in *. lia. }
  assert (Hfit : u16 (4 + 2 + u16 (2 + datalen) + 4) <= LD2410_MAX_FRAME_LEN)
    by (unfold u16, LD2410_MAX_FRAME_LEN; lia).
  destruct (send_command_quiet priv cmd data datalen w Hsem Hfit) as (Hr & Ht & _).
  assert (Hpos : match data with
                 | Some _ => if datalen >? 0 then 8 + datalen + 4 else 8 + 4
                 | None => 8 + 4
                 end = 12 + datalen).
  { unfold cmd_args_ok in Hargs. destruct data as [bytes|]; [|lia].
    rewrite Z.gtb_ltb. destruct (Z.ltb_spec 0 datalen); lia. }
  rewrite Hpos in Hr. rewrite Hr, Ht, HF.
  split; [reflexivity|]. split; [exact Hshape|]. split; [reflexivity|].
  destruct (Z.eqb_spec (write_result_at w 0 (12 + datalen)) (12 + datalen));
    split; try tauto; try (split; [reflexivity | congruence]).
  split; [discriminate | intros; contradiction].
Qed.

(** The frames the driver sends are frames its own parser completes: a
    command frame as [build_cmd_frame] makes it, fed to a seeking parser,
    gives Complete at its last byte and leaves the command word at the
    start of the payload in the buffer. *)
Theorem command_frame_parses
    (cmd : Z) (data : option (list Z)) (datalen : Z) (d : mmwave_dev_s) :
  cmd_args_ok data datalen ->
  0 <= datalen <= 52 ->
  seeking d ->
  buf_inv d ->
  let F := build_cmd_frame cmd data datalen in
  fo_rets (parse_bytes d F) = replicate (Z.to_nat (11 + datalen)) 0 ++ [1]
  /\ take (Z.to_nat (12 + datalen)) (rxbuf (fo_dev (parse_bytes d F))) = F
  /\ payload_at (fo_dev (parse_bytes d F)) 0 = lo8 cmd
  /\ payload_at (fo_dev (parse_bytes d F)) 1 = hi8 cmd.
Proof.
  intros Hargs Hlen [Hs Hp] Hbuf. cbv zeta.
  destruct (build_cmd_frame_shape cmd data datalen Hargs ltac:(lia)) as [-> Hpl].
  destruct (frame_completes Cmd_family (cmd_payload cmd data) d Hs Hp Hbuf
              ltac:(lia)) as (Hr & Ht & _).
  replace (Z.to_nat (11 + datalen)) with (9 + length (cmd_payload cmd data))%nat
    by lia.
  replace (Z.to_nat (12 + datalen)) with (10 + length (cmd_payload cmd data))%nat
    by lia.
  split; [exact Hr|]. split; [exact Ht|].
  rewrite (payload_at_frame _ _ _ 0 Ht) by lia.
  rewrite (payload_at_frame _ _ _ 1 Ht) by lia.
  split; reflexivity.
Qed.

(** ** What a request does to the device *)

(** A request changes nothing of the device but the engineering mode
    flag, and that only when the request is the engineering mode request
    and it returns [OK]: the flag then says whether [(int)arg] is not 0.
    The latest reading, the parser and the counters are never touched. *)
Theorem ioctl_device_effect
    (priv : mmwave_dev_s) (req : ioctl_req) (w : world) :
  io_dev (mmwave_ioctl (Some priv) req w)
  = Some (ioctl_effect req (io_ret (mmwave_ioctl (Some priv) req w)) priv).
Proof.
  unfold mmwave_ioctl, ioctl_effect, enter_failed, after_exit,
    mmwave_enter_config, mmwave_exit_config.
  destruct req as [sens|mg|enable| | |other]; cbv zeta.
  - destruct (gate sens >=? LD2410_MAX_GATES); [reflexivity|].
    destruct (fr_ret _ <? 0); cbn [io_dev io_ret];
      rewrite ?send_command_dev; reflexivity.
  - destruct (fr_ret _ <? 0); cbn [io_dev io_ret];
      rewrite ?send_command_dev; reflexivity.
  - destruct (Z.ltb_spec
                (fr_ret (mmwave_send_command priv LD2410_CMD_ENABLE_CONFIG
                           (Some [1; 0]) 2 w)) 0) as [Hneg|Hpos];
      cbn [io_dev io_ret]; rewrite ?send_command_dev.
    + destruct (Z.eqb_spec
                  (fr_ret (mmwave_send_command priv LD2410_CMD_ENABLE_CONFIG
                             (Some [1; 0]) 2 w)) OK) as [E|_];
        [unfold OK in E; lia | reflexivity].
    + destruct (negb (int_of_ulong enable =? 0)); destruct (fr_ret _ =? OK);
        rewrite ?send_command_dev; reflexivity.
  - destruct (fr_ret _ <? 0); cbn [io_dev io_ret];
      rewrite ?send_command_dev; reflexivity.
  - destruct (fr_ret _ <? 0); cbn [io_dev io_ret];
      rewrite ?send_command_dev; reflexivity.
  - reflexivity.
Qed.

(** ** Formatting of the report *)

Lemma string_length_app (a b : string) :
  String.length (a ++ b) = (String.length a + String.length b)%nat.
Proof. induction a as [|c a IH]; cbn; [reflexivity | now rewrite IH]. Qed.

Lemma substring_whole (n : nat) (s : string) :
  (String.length s <= n)%nat -> String.substring 0 n s = s.
Proof.
  revert n. induction s as [|c s IH]; intros [|n] Hn; cbn in *;
    try reflexivity; try lia.
  f_equal. apply IH. lia.
Qed.

Lemma substring_length_le (n : nat) (s : string) :
  (String.length (String.substring 0 n s) <= n)%nat.
Proof.
  revert n. induction s as [|c s IH]; intros [|n]; cbn; try lia.
  specialize (IH n). lia.
Qed.

Lemma decimal_length_pos (fuel : nat) (n : Z) :
  (1 <= String.length (decimal (S fuel) n))%nat.
Proof.
  cbn [decimal]. destruct (n <? 10); [cbn; lia|].
  rewrite string_length_app. cbn. lia.
Qed.

Lemma decimal_length_le (k : nat) : forall (fuel : nat) (n : Z),
  (S k <= fuel)%nat -> n < 10 ^ Z.of_nat (S k) ->
  (String.length (decimal fuel n) <= S k)%nat.
Proof.
  induction k as [|k IH]; intros [|fuel] n Hf Hn; try lia; cbn [decimal].
  - destruct (Z.ltb_spec n 10); [cbn; lia | cbn in Hn; lia].
  - destruct (Z.ltb_spec n 10); [cbn; lia|].
    rewrite string_length_app. cbn [String.length].
    assert (String.length (decimal fuel (n / 10)) <= S k)%nat; [|lia].
    apply IH; [lia|].
    rewrite Nat2Z.inj_succ, Z.pow_succ_r in Hn by lia.
    apply Z.div_lt_upper_bound; lia.
Qed.

Lemma fmt_u_length_byte (n : Z) :
  is_byte n -> (1 <= String.length (fmt_u n) <= 3)%nat.
Proof.
  intros Hn. unfold fmt_u. split; [apply decimal_length_pos|].
  apply (decimal_length_le 2); [lia|]. unfold u32, is_byte in *.
  change (10 ^ Z.of_nat 3) with 1000. lia.
Qed.

Lemma fmt_u_length_u16 (n : Z) :
  0 <= n < 65536 -> (1 <= String.length (fmt_u n) <= 5)%nat.
Proof.
  intros Hn. unfold fmt_u. split; [apply decimal_length_pos|].
  apply (decimal_length_le 4); [lia|]. unfold u32.
  change (10 ^ Z.of_nat 5) with 100000. lia.
Qed.

Lemma state_json_length (data : mmwave_data_s) :
  String.length (state_json_text data)
  = (182 + (if negb (target_state data =? LD2410_TARGET_NONE)%Z then 2 else 3)
     + String.length (fmt_u (motion_energy data))
     + String.length (fmt_u (static_energy data))
     + String.length (fmt_u (motion_distance data))
     + String.length (fmt_u (static_distance data))
     + String.length (fmt_u (detection_distance data)))%nat.
Proof.
  unfold state_json_text, quoted.
  destruct (negb (target_state data =? LD2410_TARGET_NONE));
    repeat (rewrite string_length_app || cbn [String.length append]); lia.
Qed.

Lemma state_json_length_bounds (data : mmwave_data_s) :
  reading_in_range data ->
  (189 <= String.length (state_json_text data) <= 206)%nat.
Proof.
  intros (_ & Hme & Hse & Hmd & Hsd & Hdd). rewrite state_json_length.
  pose proof (fmt_u_length_byte _ Hme). pose proof (fmt_u_length_byte _ Hse).
  pose proof (fmt_u_length_u16 _ Hmd). pose proof (fmt_u_length_u16 _ Hsd).
  pose proof (fmt_u_length_u16 _ Hdd).
  destruct (negb _); lia.
Qed.

(** For every reading whose fields are in the ranges of their C types the
    body is between 189 and 206 characters long, so a buffer of more than
    206 bytes (the 256 of the reporter, the 512 of the tests) holds it
    whole and the function returns its length, never -1. *)
Theorem state_json_fits
    (bufsize : nat) (data : mmwave_data_s) :
  reading_in_range data ->
  (206 < bufsize)%nat ->
  ha_format_state_json bufsize data
  = (Z.of_nat (String.length (state_json_text data)), state_json_text data)
  /\ 189 <= fst (ha_format_state_json bufsize data) <= 206.
Proof.
  intros Hr Hb. pose proof (state_json_length_bounds data Hr) as Hl.
  unfold ha_format_state_json, snprintf.
  rewrite substring_whole by lia.
  destruct (Z.ltb_spec (Z.of_nat (String.length (state_json_text data))) 0);
    [lia|].
  rewrite Z.geb_leb.
  destruct (Z.leb_spec (Z.of_nat bufsize)
              (Z.of_nat (String.length (state_json_text data)))); [lia|].
  cbn [orb fst]. split; [reflexivity | lia].
Qed.

(** A buffer of at most 189 bytes is too small for the body of any
    reading: the function returns -1, and what it leaves in the buffer is
    shorter than the buffer. *)
Theorem state_json_truncation
    (bufsize : nat) (data : mmwave_data_s) :
  (bufsize <= 189)%nat ->
  fst (ha_format_state_json bufsize data) = -1
  /\ (String.length (snd (ha_format_state_json bufsize data)) <= bufsize - 1)%nat.
Proof.
  intros Hb. unfold ha_format_state_json, snprintf.
  assert (Hl : (189 <= String.length (state_json_text data))%nat).
  { rewrite state_json_length. unfold fmt_u.
    pose proof (decimal_length_pos 9 (u32 (motion_energy data))).
    pose proof (decimal_length_pos 9 (u32 (static_energy data))).
    pose proof (decimal_length_pos 9 (u32 (motion_distance data))).
    pose proof (decimal_length_pos 9 (u32 (static_distance data))).
    pose proof (decimal_length_pos 9 (u32 (detection_distance data))).
    destruct (negb _); lia. }
  rewrite Z.geb_leb.
  destruct (Z.leb_spec (Z.of_nat bufsize)
              (Z.of_nat (String.length (state_json_text data)))); [|lia].
  rewrite orb_true_r. cbn [fst snd]. split; [reflexivity|].
  apply substring_length_le.
Qed.

Lemma http_request_length (entity_id host : string) (port : Z)
    (token json_body : string) (body_len : Z) :
  String.length (http_request_text entity_id host port token json_body body_len)
  = (132 + String.length entity_id + String.length host
     + String.length (fmt_u port) + String.length token
     + String.length (fmt_d body_len) + String.length json_body)%nat.
Proof.
  unfold http_request_text, crlf.
  repeat (rewrite string_length_app || cbn [String.length append]); lia.
Qed.

Lemma fmt_d_length_3 (n : Z) :
  100 <= n < 1000 -> String.length (fmt_d n) = 3%nat.
Proof.
  intros Hn. unfold fmt_d. destruct (Z.ltb_spec n 0); [lia|].
  cbn [decimal].
  destruct (Z.ltb_spec n 10); [lia|].
  destruct (Z.ltb_spec (n / 10) 10); [lia|].
  destruct (Z.ltb_spec (n / 10 / 10) 10); [reflexivity | lia].
Qed.

Lemma post_request_length (cfg : ha_config_s) (data : mmwave_data_s) :
  reading_in_range data ->
  let r := ha_post_request cfg data in
  bodylen r = Z.of_nat (String.length (state_json_text data))
  /\ body r = state_json_text data
  /\ httplen r
     = 164 + Z.of_nat (String.length (url cfg))
       + Z.of_nat (String.length (fmt_u (port cfg)))
       + Z.of_nat (String.length (token cfg)) + bodylen r
  /\ http_buf r
     = String.substring 0 511
         (http_request_text HA_ENTITY_ID (url cfg) (port cfg) (token cfg)
            (body r) (bodylen r)).
Proof.
  intros Hr. pose proof (state_json_length_bounds data Hr) as Hl.
  unfold ha_post_request, snprintf. cbv zeta.
  rewrite substring_whole by lia. cbn [bodylen body httplen http_buf].
  split; [reflexivity|]. split; [reflexivity|]. split; [|reflexivity].
  rewrite http_request_length, fmt_d_length_3 by lia.
  change (String.length HA_ENTITY_ID) with 29%nat. lia.
Qed.

(** With a host name and a token of at most 136 characters together the
    request fits: [http_buf] holds all of it and [httplen] is its length,
    below 512. *)
Theorem post_request_fits
    (cfg : ha_config_s) (data : mmwave_data_s) :
  reading_in_range data ->
  0 <= port cfg < 65536 ->
  (String.length (url cfg) + String.length (token cfg) <= 136)%nat ->
  let r := ha_post_request cfg data in
  httplen r < Z.of_nat HA_HTTP_BUF_SIZE
  /\ Z.of_nat (String.length (http_buf r)) = httplen r
  /\ http_buf r
     = http_request_text HA_ENTITY_ID (url cfg) (port cfg) (token cfg)
         (state_json_text data)
         (Z.of_nat (String.length (state_json_text data))).
Proof.
  intros Hr Hp Hlen. cbv zeta.
  destruct (post_request_length cfg data Hr) as (Hbl & Hb & Hh & Hbuf).
  pose proof (state_json_length_bounds data Hr) as Hl.
  pose proof (fmt_u_length_u16 _ Hp) as Hpl.
  assert (Hfit : httplen (ha_post_request cfg data) < 512) by lia.
  split; [exact Hfit|].
  assert (Hlen' :
    Z.of_nat (String.length
      (http_request_text HA_ENTITY_ID (url cfg) (port cfg) (token cfg)
         (body (ha_post_request cfg data)) (bodylen (ha_post_request cfg data))))
    = httplen (ha_post_request cfg data)).
  { rewrite http_request_length, Hbl, fmt_d_length_3 by lia.
    rewrite Hh, Hb, Hbl. change (String.length HA_ENTITY_ID) with 29%nat. lia. }
  rewrite Hbuf, substring_whole by lia.
  split; [exact Hlen'|]. now rewrite Hb, Hbl.
Qed.

(** With a host name and a token of 158 characters or more together (the
    configuration holds up to 127 and 255) the request does not fit:
    [httplen], the length given to [send], is at least the size of
    [http_buf], whose content is cut at 511 characters. *)
Theorem post_request_overruns
    (cfg : ha_config_s) (data : mmwave_data_s) :
  reading_in_range data ->
  (158 <= String.length (url cfg) + String.length (token cfg))%nat ->
  let r := ha_post_request cfg data in
  Z.of_nat HA_HTTP_BUF_SIZE <= httplen r
  /\ (String.length (http_buf r) < HA_HTTP_BUF_SIZE)%nat.
Proof.
  intros Hr Hlen. cbv zeta.
  destruct (post_request_length cfg data Hr) as (Hbl & Hb & Hh & Hbuf).
  pose proof (state_json_length_bounds data Hr) as Hl.
  pose proof (decimal_length_pos 9 (u32 (port cfg))) as Hpl.
  fold (fmt_u (port cfg)) in Hpl.
  split; [unfold HA_HTTP_BUF_SIZE; lia|].
  rewrite Hbuf. pose proof (substring_length_le 511
    (http_request_text HA_ENTITY_ID (url cfg) (port cfg) (token cfg)
       (body (ha_post_request cfg data)) (bodylen (ha_post_request cfg data)))).
  unfold HA_HTTP_BUF_SIZE. lia.
Qed.

(** The request either fits, and then the return is its length
    (132 characters of fixed text and the lengths of what is filled in) and
    the buffer holds all of it, body last; or the return is -1. *)
Theorem http_request_format
    (bufsize : nat) (entity_id host : string) (port : Z)
    (token json_body : string) (body_len : Z) :
  let text := http_request_text entity_id host port token json_body body_len in
  let n := (132 + String.length entity_id + String.length host
            + String.length (fmt_u port) + String.length token
            + String.length (fmt_d body_len) + String.length json_body)%nat in
  String.length text = n
  /\ ((n < bufsize)%nat ->
      ha_format_http_request bufsize entity_id host port token json_body body_len
      = (Z.of_nat n, text))
  /\ ((bufsize <= n)%nat ->
      fst (ha_format_http_request bufsize entity_id host port token json_body
             body_len) = -1).
Proof.
  cbv zeta. pose proof (http_request_length entity_id host port token json_body
                          body_len) as Hl.
  split; [exact Hl|]. unfold ha_format_http_request, snprintf.
  rewrite Hl, Z.geb_leb. split; intros Hn.
  - rewrite substring_whole by lia.
    destruct (Z.ltb_spec (Z.of_nat (132 + String.length entity_id
      + String.length host + String.length (fmt_u port) + String.length token
      + String.length (fmt_d body_len) + String.length json_body)) 0); [lia|].
    destruct (Z.leb_spec (Z.of_nat bufsize) (Z.of_nat (132 + String.length entity_id
      + String.length host + String.length (fmt_u port) + String.length token
      + String.length (fmt_d body_len) + String.length json_body))); [lia|].
    reflexivity.
  - destruct (Z.leb_spec (Z.of_nat bufsize) (Z.of_nat (132 + String.length entity_id
      + String.length host + String.length (fmt_u port) + String.length token
      + String.length (fmt_d body_len) + String.length json_body))); [|lia].
    rewrite orb_true_r. reflexivity.
Qed.

(** ** The reporting loop *)

Lemma report_tick_cases (cfg : ha_config_s) (net : net_s) (prev_state : Z)
    (reading : option mmwave_data_s) :
  ha_report_tick cfg net prev_state reading = prev_state
  \/ exists data, reading = Some data
       /\ ha_post_state cfg net data = OK
       /\ ha_report_tick cfg net prev_state reading = target_state data.
Proof.
  unfold ha_report_tick. destruct reading as [data|]; [|left; reflexivity].
  destruct (negb (target_state data =? prev_state)); [|left; reflexivity].
  destruct (Z.eqb_spec (ha_post_state cfg net data) OK) as [E|_];
    [right; exists data; auto | left; reflexivity].
Qed.

(** Whatever the rounds of the loop bring, the state the task holds as
    reported is the one it started with or the state of a reading of one of
    the rounds whose push returned [OK]: a failed push is never recorded. *)
Theorem report_task_records_only_pushed
    (cfg : ha_config_s) (rounds : list (net_s * option mmwave_data_s)) :
  forall prev_state : Z,
    ha_report_task cfg rounds prev_state = prev_state
    \/ exists net data,
         In (net, Some data) rounds
         /\ ha_post_state cfg net data = OK
         /\ ha_report_task cfg rounds prev_state = target_state data.
Proof.
  induction rounds as [|[net reading] rounds IH]; intros prev_state;
    [left; reflexivity|].
  cbn [ha_report_task].
  destruct (IH (ha_report_tick cfg net prev_state reading))
    as [E | (net' & data' & Hin & Hok & E)].
  - rewrite E.
    destruct (report_tick_cases cfg net prev_state reading)
      as [E' | (data & -> & Hok & E')]; [left; exact E'|].
    right. exists net, data. split; [left; reflexivity | auto].
  - right. exists net', data'. split; [right; exact Hin | auto].
Qed.


(** ** What the poll task never does *)

Lemma process_data_frame_no_tx (p : mmwave_dev_s) (w : world) :
  tx_log (fr_world (mmwave_process_data_frame p w)) = tx_log w
  /\ write_results (fr_world (mmwave_process_data_frame p w)) = write_results w.
Proof.
  unfold mmwave_process_data_frame.
  destruct (negb (payload_at p 0 =? 2) && negb (payload_at p 0 =? 1));
    [split; reflexivity|].
  destruct (negb (payload_at p 1 =? 170)); [split; reflexivity|].
  assert (Hw : tx_log (snd (nxsem_wait w)) = tx_log w
               /\ write_results (snd (nxsem_wait w)) = write_results w)
    by (unfold nxsem_wait; destruct (sem_results w); split; reflexivity).
  destruct (nxsem_wait w) as [ret w1]. cbn [snd] in Hw.
  destruct (ret <? 0); exact Hw.
Qed.

Lemma poll_step_no_tx (d : mmwave_dev_s) (w : world) :
  tx_log (snd (mmwave_poll_step d w)) = tx_log w
  /\ write_results (snd (mmwave_poll_step d w)) = write_results w
  /\ wait_sem (fst (mmwave_poll_step d w)) = wait_sem d
  /\ cmd_timeouts (fst (mmwave_poll_step d w)) = cmd_timeouts d.
Proof.
  unfold mmwave_poll_step. destruct (rx_pending w) as [|byte rest];
    [repeat split|].
  destruct (parse_byte_keeps_command_state d byte) as [Hw Hc].
  destruct (negb (po_ret (mmwave_parse_byte d byte) =? 0)); cbn [fst snd];
    [|auto].
  destruct (process_data_frame_no_tx (po_dev (mmwave_parse_byte d byte))
              (Build_world (sem_results w) (write_results w) (tx_log w)
                 (slept_us w) (systime_ticks w) rest)) as [-> ->].
  destruct (process_data_frame_keeps_command_state
              (po_dev (mmwave_parse_byte d byte))
              (Build_world (sem_results w) (write_results w) (tx_log w)
                 (slept_us w) (systime_ticks w) rest)) as [-> ->].
  auto.
Qed.

(** The poll task only listens: however many iterations it runs and
    whatever arrives, nothing is handed to [write], and the fields of the
    command channel ([wait_sem], [cmd_timeouts]) stay as they were. *)
Theorem poll_never_transmits (n : nat) :
  forall (d : mmwave_dev_s) (w : world),
    tx_log (snd (mmwave_poll n d w)) = tx_log w
    /\ write_results (snd (mmwave_poll n d w)) = write_results w
    /\ wait_sem (fst (mmwave_poll n d w)) = wait_sem d
    /\ cmd_timeouts (fst (mmwave_poll n d w)) = cmd_timeouts d.
Proof.
  induction n as [|n IH]; intros d w; [repeat split|].
  cbn [mmwave_poll].
  destruct (poll_step_no_tx d w) as (Ht & Hwr & Hws & Hct).
  destruct (mmwave_poll_step d w) as [p w1]. cbn [fst snd] in *.
  destruct (IH p w1) as (-> & -> & -> & ->). auto.
Qed.

(** With nothing pending on the UART the task sleeps 10 ms in every
    iteration and changes nothing else: the device is as before, and so is
    the world but for the time slept. *)
Theorem poll_idle_sleeps (n : nat) :
  forall (d : mmwave_dev_s) (w : world),
    rx_pending w = [] ->
    mmwave_poll n d w = (d, usleep (10000 * Z.of_nat n) w).
Proof.
  induction n as [|n IH]; intros d w Hrx.
  - cbn [mmwave_poll]. f_equal. destruct w; unfold usleep; cbn. f_equal. lia.
  - cbn [mmwave_poll]. unfold mmwave_poll_step. rewrite Hrx.
    rewrite IH by exact Hrx. f_equal.
    destruct w; unfold usleep; cbn. f_equal. lia.
Qed.

Lemma poll_idle_sleeps_witness :
  mmwave_poll 100 dev_with_reading world_init
  = (dev_with_reading, usleep (10000 * Z.of_nat 100) world_init).
Proof. apply (poll_idle_sleeps 100 dev_with_reading world_init). reflexivity. Defined.

(** * The properties at concrete inputs *)

Ltac bytes := repeat constructor; unfold is_byte; lia.

Lemma wrong_terminator_counts_error_witness :
  let bad := magic Data_family ++ [lo8 2; hi8 2] ++ [0x02; 0xAA]
             ++ [0xF5; 0xF6; 0xF7; 0x00] in
  fo_rets (parse_bytes dev_init bad) = replicate 12 0
  /\ parse_state (fo_dev (parse_bytes dev_init bad)) = PARSE_HEADER
  /\ rxpos (fo_dev (parse_bytes dev_init bad)) = 0
  /\ frames_ok (fo_dev (parse_bytes dev_init bad)) = frames_ok dev_init
  /\ frames_err (fo_dev (parse_bytes dev_init bad)) = u32 (frames_err dev_init + 1).
Proof.
  apply (wrong_terminator_counts_error Data_family [0x02; 0xAA]
           0xF5 0xF6 0xF7 0x00 dev_init dev_init_seeking dev_init_buf_inv);
    try (unfold is_byte; lia); try (cbn; lia).
  discriminate.
Defined.

Lemma frames_back_to_back_witness :
  feed_bytes dev_init
    (stream_of [(Data_family, [0x02; 0xAA]); (Cmd_family, [0xFF; 0x01; 0x00; 0x00])])
  = 2
  /\ seeking (fo_dev (parse_bytes dev_init
       (stream_of [(Data_family, [0x02; 0xAA]);
                   (Cmd_family, [0xFF; 0x01; 0x00; 0x00])]))).
Proof.
  apply (frames_back_to_back
           [(Data_family, [0x02; 0xAA]); (Cmd_family, [0xFF; 0x01; 0x00; 0x00])]
           dev_init dev_init_seeking dev_init_buf_inv).
  repeat constructor; cbn; unfold is_byte; lia.
Defined.

Lemma oversize_length_resets_witness :
  let over := magic Data_family ++ [0xFF; 0x00] in
  fo_rets (parse_bytes dev_init over) = replicate 6 0
  /\ parse_state (fo_dev (parse_bytes dev_init over)) = PARSE_HEADER
  /\ rxpos (fo_dev (parse_bytes dev_init over)) = 0
  /\ frames_ok (fo_dev (parse_bytes dev_init over)) = frames_ok dev_init
  /\ frames_err (fo_dev (parse_bytes dev_init over)) = u32 (frames_err dev_init + 1)
  /\ fo_rets (parse_bytes dev_init (over ++ frame_of Data_family [0x02; 0xAA]))
     = replicate (6 + (9 + 2)) 0 ++ [1].
Proof.
  apply (oversize_length_resets Data_family Data_family 0xFF 0x00 [0x02; 0xAA]
           dev_init dev_init_seeking dev_init_buf_inv);
    try (unfold is_byte; lia); cbn; lia.
Defined.

Lemma eng_frame_decoding_witness :
  let d0 :=
    set_eng_data
      (Build_eng data_zero [0; 0; 0; 0; 0; 0; 0; 0; 0] [9; 9; 9; 9; 9; 9; 9; 9; 9])
      (set_eng_mode true dev_init) in
  let r :=
    parse_and_process d0
      (build_eng_frame 2 0 0 300 50 300 [1; 2; 3; 4; 5; 6; 7; 8; 9]
         [5; 15; 25; 35; 45; 55; 65; 75; 85]) world_init in
  fr_ret r = OK
  /\ target_state (basic (eng_data (fr_dev r))) = 2
  /\ motion_distance (basic (eng_data (fr_dev r))) = 0
  /\ motion_energy (basic (eng_data (fr_dev r))) = 0
  /\ static_distance (basic (eng_data (fr_dev r))) = 300
  /\ static_energy (basic (eng_data (fr_dev r))) = 50
  /\ detection_distance (basic (eng_data (fr_dev r))) = 300
  /\ motion_gate_energy (eng_data (fr_dev r)) = [1; 2; 3; 4; 5; 6; 7; 8; 9]
  /\ static_gate_energy (eng_data (fr_dev r))
     = take 5 [5; 15; 25; 35; 45; 55; 65; 75; 85]
       ++ drop 5 [9; 9; 9; 9; 9; 9; 9; 9; 9].
Proof.
  apply (eng_frame_decoding 2 0 0 300 50 300 [1; 2; 3; 4; 5; 6; 7; 8; 9]
           [5; 15; 25; 35; 45; 55; 65; 75; 85] [0; 0; 0; 0; 0; 0; 0; 0; 0]
           [9; 9; 9; 9; 9; 9; 9; 9; 9] world_init);
    (lia || reflexivity).
Defined.

Lemma decoder_keeps_gates_witness :
  let r := mmwave_process_data_frame dev_holding_frame world_init in
  fr_ret r = OK
  /\ eng_data (fr_dev r) = eng_data dev_holding_frame
  /\ target_state (data (fr_dev r)) = payload_at dev_holding_frame 2
  /\ motion_energy (data (fr_dev r)) = payload_at dev_holding_frame 5
  /\ static_energy (data (fr_dev r)) = payload_at dev_holding_frame 8.
Proof.
  apply (decoder_keeps_gates dev_holding_frame world_init);
    [reflexivity | vm_compute; reflexivity | right; vm_compute; reflexivity].
Defined.

Lemma poll_data_frame_updates_reading_witness :
  let r := mmwave_poll 21 dev_init world_with_frame in
  data (fst r)
  = Build_data 1 150 80 200 40 150
      (u32 (systime_ticks world_with_frame * (1000 / TICK_PER_SEC)))
  /\ data_valid (fst r) = true
  /\ eng_data (fst r) = eng_data dev_init
  /\ eng_mode (fst r) = eng_mode dev_init
  /\ frames_ok (fst r) = u32 (frames_ok dev_init + 1)
  /\ snd r = with_rx [] world_with_frame.
Proof.
  apply (poll_data_frame_updates_reading 1 150 80 200 40 150 [] dev_init
           world_with_frame dev_init_seeking dev_init_buf_inv);
    try lia; try reflexivity; try (unfold u32_range; cbn; lia).
Defined.

Lemma poll_other_frame_keeps_reading_witness :
  let w := Build_world [] [] [] 0 12345
             (frame_of Cmd_family [0xFF; 0x01; 0x00; 0x00]) in
  let r := mmwave_poll (11 + length [0x01; 0x00; 0x00]) dev_init w in
  data (fst r) = data dev_init
  /\ data_valid (fst r) = data_valid dev_init
  /\ eng_data (fst r) = eng_data dev_init
  /\ frames_ok (fst r) = u32 (frames_ok dev_init + 1)
  /\ snd r = with_rx [] w.
Proof.
  apply (poll_other_frame_keeps_reading Cmd_family 0xFF [0x01; 0x00; 0x00] []
           dev_init
           (Build_world [] [] [] 0 12345
              (frame_of Cmd_family [0xFF; 0x01; 0x00; 0x00]))
           dev_init_seeking dev_init_buf_inv);
    try lia; try reflexivity; try (unfold u32_range; cbn; lia).
Defined.

Lemma read_returns_polled_frame_witness :
  let r := mmwave_poll 21 dev_init world_with_frame in
  let o := mmwave_read abi32 (Some (fst r)) None 16 (snd r) in
  rd_ret o = sizeof_mmwave_data_s abi32
  /\ rd_buffer o
     = Some (Pkt_data (Build_data 1 150 80 200 40 150
                         (u32 (systime_ticks world_with_frame
                               * (1000 / TICK_PER_SEC))))).
Proof.
  apply (read_returns_polled_frame abi32 1 150 80 200 40 150 16 None []
           dev_init world_with_frame dev_init_seeking dev_init_buf_inv);
    try lia; try reflexivity; try (unfold u32_range; cbn; lia).
Defined.

Lemma read_sensor_classifies_witness :
  let o := read_sensor abi32 (Some dev_with_reading) None None false false
             world_init in
  rs_dev o = Some dev_with_reading
  /\ rs_ret o = 0
  /\ rs_data o = Some (Pkt_data (data dev_with_reading)).
Proof.
  destruct (read_sensor_classifies abi32 dev_with_reading None None false false
              world_init ltac:(cbn; lia) eq_refl) as (Hdev & _ & _ & Hbasic).
  split; [exact Hdev|]. apply Hbasic; reflexivity.
Defined.

Lemma send_command_refuses_long_frame_witness :
  mmwave_send_command dev_init LD2410_CMD_SET_SENSITIVITY None 53 world_init
  = Build_frame_out (- EINVAL) dev_init world_init.
Proof.
  apply (send_command_refuses_long_frame dev_init LD2410_CMD_SET_SENSITIVITY
           None 53 world_init).
  lia.
Defined.

Lemma send_command_wire_format_witness :
  let r := mmwave_send_command dev_init LD2410_CMD_ENABLE_CONFIG
             (Some [0x01; 0x00]) 2 world_init in
  let F := build_cmd_frame LD2410_CMD_ENABLE_CONFIG (Some [0x01; 0x00]) 2 in
  tx_log (fr_world r) = tx_log world_init ++ [F]
  /\ F = frame_of Cmd_family
           (cmd_payload LD2410_CMD_ENABLE_CONFIG (Some [0x01; 0x00]))
  /\ Z.of_nat (length F) = 12 + 2
  /\ (fr_ret r = OK
      <-> write_result_at world_init 0 (12 + 2) = Z.of_nat (length F))
  /\ (fr_ret r = OK \/ fr_ret r = - EIO).
Proof.
  apply (send_command_wire_format dev_init LD2410_CMD_ENABLE_CONFIG
           (Some [0x01; 0x00]) 2 world_init);
    [reflexivity | lia | reflexivity].
Defined.

Lemma command_frame_parses_witness :
  let F := build_cmd_frame LD2410_CMD_ENABLE_CONFIG (Some [0x01; 0x00]) 2 in
  fo_rets (parse_bytes dev_init F) = replicate (Z.to_nat (11 + 2)) 0 ++ [1]
  /\ take (Z.to_nat (12 + 2)) (rxbuf (fo_dev (parse_bytes dev_init F))) = F
  /\ payload_at (fo_dev (parse_bytes dev_init F)) 0 = lo8 LD2410_CMD_ENABLE_CONFIG
  /\ payload_at (fo_dev (parse_bytes dev_init F)) 1 = hi8 LD2410_CMD_ENABLE_CONFIG.
Proof.
  apply (command_frame_parses LD2410_CMD_ENABLE_CONFIG (Some [0x01; 0x00]) 2
           dev_init);
    [reflexivity | lia | exact dev_init_seeking | exact dev_init_buf_inv].
Defined.

Lemma reading_motion_in_range : reading_in_range reading_motion.
Proof. unfold reading_in_range, is_byte. cbn. lia. Qed.

Lemma state_json_fits_witness :
  ha_format_state_json 256 reading_motion
  = (Z.of_nat (String.length (state_json_text reading_motion)),
     state_json_text reading_motion)
  /\ 189 <= fst (ha_format_state_json 256 reading_motion) <= 206.
Proof.
  apply (state_json_fits 256 reading_motion reading_motion_in_range). lia.
Defined.

Lemma state_json_truncation_witness :
  fst (ha_format_state_json 10 reading_motion) = -1
  /\ (String.length (snd (ha_format_state_json 10 reading_motion)) <= 10 - 1)%nat.
Proof. apply (state_json_truncation 10 reading_motion). lia. Defined.

Lemma http_request_format_witness :
  ha_format_http_request 512 HA_ENTITY_ID "192.168.1.100" 8123 "token"
    (state_json_text reading_motion) 194
  = (380,
     http_request_text HA_ENTITY_ID "192.168.1.100" 8123 "token"
       (state_json_text reading_motion) 194).
Proof.
  destruct (http_request_format 512 HA_ENTITY_ID "192.168.1.100" 8123 "token"
              (state_json_text reading_motion) 194) as (_ & Hfit & _).
  rewrite Hfit; [reflexivity | vm_compute; lia].
Defined.

Lemma post_request_fits_witness :
  let r := ha_post_request ha_config_example reading_motion in
  httplen r < Z.of_nat HA_HTTP_BUF_SIZE
  /\ Z.of_nat (String.length (http_buf r)) = httplen r
  /\ http_buf r
     = http_request_text HA_ENTITY_ID (url ha_config_example)
         (port ha_config_example) (token ha_config_example)
         (state_json_text reading_motion)
         (Z.of_nat (String.length (state_json_text reading_motion))).
Proof.
  apply (post_request_fits ha_config_example reading_motion
           reading_motion_in_range); cbn; lia.
Defined.

Lemma post_request_overruns_witness :
  let r := ha_post_request ha_config_long_token reading_motion in
  Z.of_nat HA_HTTP_BUF_SIZE <= httplen r
  /\ (String.length (http_buf r) < HA_HTTP_BUF_SIZE)%nat.
Proof.
  apply (post_request_overruns ha_config_long_token reading_motion
           reading_motion_in_range).
  vm_compute. lia.
Defined.

